(** * panda_factor: the factor evaluation pipeline and its job runtime

    A shallow embedding of the parts of the repository that the
    specification's testable claims talk about, with the claims stated
    and settled against the embedded code.

    - [MarketDataReader]: [_chunk_date_range]
      (panda_data/market_data/market_data_reader.py)
    - [Mongo]: the collections of the document store and the operations
      of [DatabaseHandler] on them
      (panda_common/handlers/database_handler.py)
    - [LogHandler]: [LogBatchManager.add_log], [_flush_task_logs]
      (panda_common/handlers/log_handler.py); [BufferLock]: its lock as
      several threads see it
    - [FactorAnalysisParams]: [Params]
      (panda_common/models/factor_analysis_params.py)
    - [FactorAnalysis]: [factor_analysis]
      (panda_factor/analysis/factor_analysis.py)
    - [FactorReader]: [get_custom_factor] and its error printers
      (panda_data/factor/factor_reader.py)
    - [Py]: Python's stable sort, slices and rounding
    - [UserFactorService]: [validate_factor_params], [run_factor],
      [run_factor_analysis], [create_factor], [update_factor],
      [get_task_logs], [get_user_factor_list]
      (panda_factor_server/services/user_factor_service.py)

    The definitions come first, module by module; the theorems follow. *)

From Stdlib Require Import ZArith List String Ascii Bool Lia QArith Qabs.
From Stdlib Require Import Sorted Permutation.
From stdpp Require Import gmap strings list pretty.
Import ListNotations.

Local Open Scope Z_scope.

(* ===================================================================== *)
(** * Range chunking of the market data reader                             *)
(* ===================================================================== *)

Module MarketDataReader.

(** A [datetime] at midnight is represented by its proleptic Gregorian day
    ordinal, and [d + timedelta(days=n)] is [d + n] as long as the sum
    is a date: [datetime] ends with year 9999 and raises [OverflowError]
    beyond it.  For the years 1000 to 9999 [strptime(s, "%Y%m%d")] and
    [strftime("%Y%m%d")] are the two directions of the bijection between
    the YYYYMMDD texts and the ordinals from [year_1000] to [date_max];
    below year 1000 [strftime] writes the year with fewer than four
    digits, and the ordinals stand for the dates, not for the texts.  A
    chunk is the pair [(chunk_start, chunk_end)]. *)
Definition chunk : Type := Z * Z.

(** [date(y, m, d).toordinal()], to read the ordinals used in the
    examples: the days before year [y], before month [m] of it, and the
    day of the month. *)
Definition is_leap (y : Z) : bool :=
  (y mod 4 =? 0) && (negb (y mod 100 =? 0) || (y mod 400 =? 0)).

Definition days_before_year (y : Z) : Z :=
  let y' := y - 1 in y' * 365 + y' / 4 - y' / 100 + y' / 400.

Definition days_before_month (y m : Z) : Z :=
  nth (Z.to_nat (m - 1)) [0; 31; 59; 90; 120; 151; 181; 212; 243; 273; 304; 334] 0
  + (if (2 <? m) && is_leap y then 1 else 0).

Definition toordinal (y m d : Z) : Z :=
  days_before_year y + days_before_month y m + d.

(** The ordinals of 1000-01-01 and of 9999-12-31, the day of
    [datetime.max]. *)
Definition year_1000 : Z := 364878.
Definition date_max : Z := 3652059.

(** A call that finishes with a value or raises [OverflowError]. *)
Inductive may_overflow (A : Type) : Type :=
| finished (a : A)
| OverflowError.
Arguments finished {A} a.
Arguments OverflowError {A}.

(** [d + timedelta(days=n)]: [None] stands for the [OverflowError] of a
    sum that is no date. *)
Definition plus_days (d n : Z) : option Z :=
  if (1 <=? d + n) && (d + n <=? date_max) then Some (d + n) else None.

(** The [while chunk_start <= end] loop of [_chunk_date_range].  The
    nominal end of a chunk is computed before [min] cuts it at [end], so
    it must be a date even when the chunk stops earlier.  Python's loop
    has no bound of its own (with [chunk_months = 0] it never leaves), so
    the embedding carries fuel and answers [None] when the fuel runs
    out. *)
Fixpoint chunk_loop (fuel : nat) (chunk_months chunk_start end_ : Z)
    (chunks : list chunk) : option (may_overflow (list chunk)) :=
  match fuel with
  | O => None
  | S fuel' =>
      if chunk_start <=? end_ then
        match plus_days chunk_start (chunk_months * 30 - 1) with
        | None => Some OverflowError
        | Some nominal_end =>
            let chunk_end := Z.min nominal_end end_ in
            let chunks' := chunks ++ [(chunk_start, chunk_end)] in
            if chunk_end >=? end_ then Some (finished chunks')
            else match plus_days chunk_end 1 with
                 | None => Some OverflowError
                 | Some next_start =>
                     chunk_loop fuel' chunk_months next_start end_ chunks'
                 end
        end
      else Some (finished chunks)
  end.

Definition _chunk_date_range (fuel : nat) (start_date end_date : Z)
    (chunk_months : Z) : option (may_overflow (list chunk)) :=
  if start_date =? end_date then Some (finished [(start_date, end_date)])
  else chunk_loop fuel chunk_months start_date end_date [].

(** The default of the [chunk_months] argument. *)
Definition default_chunk_months : Z := 3.

(** The start of the window that holds [e] when windows of [w] days
    are laid from [s] on. *)
Definition last_start (w s e : Z) : Z := s + w * ((e - s) / w).

(** Fuel that suffices for the range [start, end]. *)
Definition chunk_fuel (start_date end_date : Z) : nat :=
  S (Z.to_nat (end_date - start_date)).

(** [tiles w a b cs]: the windows [cs] tile [a..b] from left to right, all
    of width [w] days but the last, which stops at [b]. *)
Inductive tiles (w : Z) : Z -> Z -> list chunk -> Prop :=
| tiles_last a b :
    a <= b -> b <= a + w - 1 -> tiles w a b [(a, b)]
| tiles_more a b cs :
    a + w - 1 < b -> tiles w (a + w) b cs ->
    tiles w a b ((a, a + w - 1) :: cs).

Definition in_chunk (d : Z) (c : chunk) : Prop := c.1 <= d <= c.2.

(** What the specification asks of the windows returned for
    [start..end]: the first starts at [start], the last stops at [end_],
    consecutive windows are adjacent, windows at different positions are
    disjoint, the days covered are exactly those of the range, and every
    window but the last spans [w] days (the last at most [w]). *)
Record windows_ok (w start end_ : Z) (cs : list chunk) : Prop := {
  wo_first : exists c cs', cs = c :: cs' /\ c.1 = start;
  wo_last : exists cs' c, cs = cs' ++ [c] /\ c.2 = end_;
  wo_adjacent : forall (i : nat) c1 c2,
      cs !! i = Some c1 -> cs !! S i = Some c2 -> c2.1 = c1.2 + 1;
  wo_disjoint : forall (i j : nat) c1 c2,
      (i < j)%nat -> cs !! i = Some c1 -> cs !! j = Some c2 -> c1.2 < c2.1;
  wo_cover : forall d, start <= d <= end_ <-> exists c, In c cs /\ in_chunk d c;
  wo_width : forall (i : nat) c, cs !! i = Some c ->
      c.1 <= c.2 /\ c.2 <= c.1 + w - 1 /\
      ((S i < length cs)%nat -> c.2 = c.1 + w - 1)
}.

End MarketDataReader.

(* ===================================================================== *)
(** * The document store                                                   *)
(* ===================================================================== *)

Module Mongo.

(** Documents of the collections of database [panda] that the modelled
    functions touch.  A field that a document acquires only through a
    later [$set] is an [option] ([None]: the key is absent or null).
    Instants ([datetime.now().isoformat()], a log entry's [timestamp])
    are integers: the ISO text of an instant compares as the instant
    does.  The bookkeeping stamps [created_at], [updated_at],
    [start_time], [end_time] and [last_run_at] are not part of the
    documents here; the one function that reads two of them, the factor
    list, takes them from outside.  [_id] is the storage ordinal, handed
    out in increasing order by [next_oid]. *)

Record params_dict := {
  pd_start_date : option string;
  pd_end_date : option string;
  pd_adjustment_cycle : option Z;
  pd_stock_pool : option string;
  pd_factor_direction : option bool;
  pd_group_number : option Z;
  pd_include_st : option bool;
  pd_extreme_value_processing : option string
}.

(** The factor's [result] field: [{"task_id": ..}] or [{"error": ..}]. *)
Inductive factor_result : Type :=
| result_task_id (task_id : string)
| result_error (error_msg : string).

Record factor_doc := {
  f_oid : nat;
  f_user_id : string;
  f_name : string;
  f_factor_name : string;
  f_code : string;
  f_code_type : string;
  f_params : option params_dict;
  f_status : Z;
  f_current_task_id : option string;
  f_result : option factor_result
}.

Record task_doc := {
  t_oid : nat;
  t_task_id : string;
  t_factor_id : string;
  t_user_id : string;
  t_factor_name : string;
  t_task_type : string;
  t_params : option params_dict;
  t_status : Z;
  t_error_message : option string;
  t_result : option string;
  t_process_status : option Z;
  t_current_stage : option string;
  t_last_log_message : option string;
  t_last_log_time : option Z;
  t_last_log_level : option string
}.

Record log_doc := {
  l_oid : nat;
  l_log_id : nat;
  l_task_id : string;
  l_factor_id : string;
  l_message : string;
  l_level : string;
  l_timestamp : Z;
  l_stage : string;
  l_details : option (list (string * string))
}.

(** The metric rows of a result bundle that the factor list reads. *)
Record one_group_data := {
  og_return_ratio : string;
  og_annualized_ratio : string;
  og_sharpe_ratio : Q;
  og_maximum_drawdown : string
}.

Record result_doc := {
  r_oid : nat;
  r_task_id : string;
  r_one_group_data : option one_group_data;
  r_factor_data_analysis : option (list (string * Q))
}.

Record db := {
  user_factors : list factor_doc;
  tasks : list task_doc;
  factor_analysis_stage_logs : list log_doc;
  factor_analysis_results : list result_doc;
  next_oid : nat
}.

Definition empty_db : db :=
  {| user_factors := []; tasks := []; factor_analysis_stage_logs := [];
     factor_analysis_results := []; next_oid := 0 |}.

(** [update_many(query, {'$set': update})]: every matching document gets
    the fields; the others stay. *)
Definition update_many {A} (matches : A -> bool) (set : A -> A) (c : list A)
  : list A :=
  List.map (fun d => if matches d then set d else d) c.

Definition with_tasks (f : list task_doc -> list task_doc) (d : db) : db :=
  {| user_factors := user_factors d; tasks := f (tasks d);
     factor_analysis_stage_logs := factor_analysis_stage_logs d;
     factor_analysis_results := factor_analysis_results d;
     next_oid := next_oid d |}.

Definition with_user_factors (f : list factor_doc -> list factor_doc) (d : db)
  : db :=
  {| user_factors := f (user_factors d); tasks := tasks d;
     factor_analysis_stage_logs := factor_analysis_stage_logs d;
     factor_analysis_results := factor_analysis_results d;
     next_oid := next_oid d |}.

(** [mongo_insert] into [factor_analysis_stage_logs]: the document gets
    the next ordinal and goes to the end of the collection. *)
Definition insert_log (mk : nat -> log_doc) (d : db) : db :=
  {| user_factors := user_factors d; tasks := tasks d;
     factor_analysis_stage_logs :=
       factor_analysis_stage_logs d ++ [mk (next_oid d)];
     factor_analysis_results := factor_analysis_results d;
     next_oid := S (next_oid d) |}.

Definition insert_task (mk : nat -> task_doc) (d : db) : db :=
  {| user_factors := user_factors d; tasks := tasks d ++ [mk (next_oid d)];
     factor_analysis_stage_logs := factor_analysis_stage_logs d;
     factor_analysis_results := factor_analysis_results d;
     next_oid := S (next_oid d) |}.

Definition insert_factor (mk : nat -> factor_doc) (d : db) : db :=
  {| user_factors := user_factors d ++ [mk (next_oid d)]; tasks := tasks d;
     factor_analysis_stage_logs := factor_analysis_stage_logs d;
     factor_analysis_results := factor_analysis_results d;
     next_oid := S (next_oid d) |}.

Definition with_stage_logs (f : list log_doc -> list log_doc) (d : db) : db :=
  {| user_factors := user_factors d; tasks := tasks d;
     factor_analysis_stage_logs := f (factor_analysis_stage_logs d);
     factor_analysis_results := factor_analysis_results d;
     next_oid := next_oid d |}.

Definition insert_result (mk : nat -> result_doc) (d : db) : db :=
  {| user_factors := user_factors d; tasks := tasks d;
     factor_analysis_stage_logs := factor_analysis_stage_logs d;
     factor_analysis_results := factor_analysis_results d ++ [mk (next_oid d)];
     next_oid := S (next_oid d) |}.

End Mongo.

(* ===================================================================== *)
(** * The log buffering subsystem                                          *)
(* ===================================================================== *)

Module LogHandler.
Import Mongo.

(** An entry as [FactorAnalysisLogHandler.emit] builds it.  [stage] and
    [details] are read with [log.get], so they may be absent. *)
Record log_entry := {
  le_log_id : string;
  le_task_id : string;
  le_factor_id : string;
  le_level : string;
  le_message : string;
  le_timestamp : Z;
  le_stage : option string;
  le_details : option (list (string * string))
}.

Definition thread : Type := nat.

(** The state of the [LogBatchManager] singleton and of what it writes.
    [buffer_lock] is a [threading.Lock]: [None] when free, [Some t] while
    thread [t] is inside a [with self.buffer_lock] block.  That lock is
    not reentrant.  [uuid_count] numbers the [uuid.uuid4()] draws. *)
Record manager := {
  log_buffer : gmap string (list log_entry);
  buffer_lock : option thread;
  max_buffer_size : nat;
  store : db;
  uuid_count : nat
}.

Definition new_manager (d : db) : manager :=
  {| log_buffer := ∅; buffer_lock := None; max_buffer_size := 50;
     store := d; uuid_count := 0 |}.

(** Where a call ends: it returns, or it stops for good at an acquire of
    [buffer_lock].  [Blocked owner m] records who holds the lock there;
    when [owner] is the calling thread itself, the only thread that would
    release the lock is the one waiting for it. *)
Inductive outcome (A : Type) : Type :=
| Returned (a : A) (m : manager)
| Blocked (owner : thread) (m : manager).
Arguments Returned {A} a m.
Arguments Blocked {A} owner m.

Definition M (A : Type) : Type := manager -> outcome A.

Definition ret {A} (a : A) : M A := fun m => Returned a m.

Definition bind {A B} (k : A -> M B) (c : M A) : M B :=
  fun m => match c m with
           | Returned a m' => k a m'
           | Blocked o m' => Blocked o m'
           end.

#[export] Instance M_ret : MRet M := @ret.
#[export] Instance M_bind : MBind M := @bind.

Definition set_lock (l : option thread) (m : manager) : manager :=
  {| log_buffer := log_buffer m; buffer_lock := l;
     max_buffer_size := max_buffer_size m; store := store m;
     uuid_count := uuid_count m |}.

Definition set_buffer (b : gmap string (list log_entry)) (m : manager)
  : manager :=
  {| log_buffer := b; buffer_lock := buffer_lock m;
     max_buffer_size := max_buffer_size m; store := store m;
     uuid_count := uuid_count m |}.

Definition set_store (d : db) (m : manager) : manager :=
  {| log_buffer := log_buffer m; buffer_lock := buffer_lock m;
     max_buffer_size := max_buffer_size m; store := d;
     uuid_count := uuid_count m |}.

(** [Lock.acquire()] by thread [me], and [Lock.release()]. *)
Definition acquire (me : thread) : M unit :=
  fun m => match buffer_lock m with
           | None => Returned tt (set_lock (Some me) m)
           | Some owner => Blocked owner m
           end.

Definition release : M unit := fun m => Returned tt (set_lock None m).

(** [with self.buffer_lock: body]. *)
Definition with_lock {A} (me : thread) (body : M A) : M A :=
  acquire me ;; a ← body; release ;; mret a.

Definition get_buffer : M (gmap string (list log_entry)) :=
  fun m => Returned (log_buffer m) m.

Definition get_max_buffer_size : M nat :=
  fun m => Returned (max_buffer_size m) m.

Definition put_buffer (b : gmap string (list log_entry)) : M unit :=
  fun m => Returned tt (set_buffer b m).

Definition uuid4 : M nat :=
  fun m => Returned (uuid_count m)
             {| log_buffer := log_buffer m; buffer_lock := buffer_lock m;
                max_buffer_size := max_buffer_size m; store := store m;
                uuid_count := S (uuid_count m) |}.

Definition on_store (f : db -> db) : M unit :=
  fun m => Returned tt (set_store (f (store m)) m).

(** The [log_record] built from a buffered entry. *)
Definition log_record (uuid : nat) (log : log_entry) (oid : nat) : log_doc :=
  {| l_oid := oid; l_log_id := uuid;
     l_task_id := le_task_id log; l_factor_id := le_factor_id log;
     l_message := le_message log; l_level := le_level log;
     l_timestamp := le_timestamp log;
     l_stage := default "default"%string (le_stage log);
     l_details := le_details log |}.

(** The [$set] on the task record, from the newest entry. *)
Definition set_last_log (latest : log_entry) (t : task_doc) : task_doc :=
  {| t_oid := t_oid t; t_task_id := t_task_id t; t_factor_id := t_factor_id t;
     t_user_id := t_user_id t; t_factor_name := t_factor_name t;
     t_task_type := t_task_type t; t_params := t_params t;
     t_status := t_status t; t_error_message := t_error_message t;
     t_result := t_result t; t_process_status := t_process_status t;
     t_current_stage := Some (default "unknown"%string (le_stage latest));
     t_last_log_message := Some (le_message latest);
     t_last_log_time := Some (le_timestamp latest);
     t_last_log_level := Some (le_level latest) |}.

Definition task_id_is (id : string) (t : task_doc) : bool :=
  bool_decide (t_task_id t = id).

(** The [for log in logs_to_save] loop: one insert per entry. *)
Fixpoint save_logs (logs : list log_entry) : M unit :=
  match logs with
  | [] => mret tt
  | log :: rest =>
      u ← uuid4;
      on_store (insert_log (log_record u log)) ;;
      save_logs rest
  end.

Definition _flush_task_logs (me : thread) (task_id : string) : M unit :=
  logs_to_save ←
    with_lock me
      (buf ← get_buffer;
       match buf !! task_id with
       | Some (e :: es) =>
           put_buffer (<[task_id := []]> buf) ;; mret (e :: es)
       | _ => mret []
       end);
  match last logs_to_save with
  | Some latest_log =>
      save_logs logs_to_save ;;
      on_store (with_tasks
                  (update_many (task_id_is (le_task_id latest_log))
                               (set_last_log latest_log)))
  | None => mret tt
  end.

Definition add_log (me : thread) (task_id : string) (log_entry_ : log_entry)
  : M unit :=
  with_lock me
    (buf ← get_buffer;
     let buf := match buf !! task_id with
                | None => <[task_id := []]> buf
                | Some _ => buf
                end in
     let entries := default [] (buf !! task_id) ++ [log_entry_] in
     put_buffer (<[task_id := entries]> buf) ;;
     size ← get_max_buffer_size;
     if (size <=? length entries)%nat
     then _flush_task_logs me task_id
     else mret tt).

(** [n] calls of [add_log], one per entry of the list, in order. *)
Fixpoint add_logs (me : thread) (task_id : string) (logs : list log_entry)
  : M unit :=
  match logs with
  | [] => mret tt
  | log :: rest => add_log me task_id log ;; add_logs me task_id rest
  end.

(** What the manager holds for a task. *)
Definition buffered (m : manager) (task_id : string) : list log_entry :=
  default [] (log_buffer m !! task_id).

(** The rows that a flush of [logs] appends, given the next uuid number
    and the next storage ordinal. *)
Fixpoint rows_of (uuid oid : nat) (logs : list log_entry) : list log_doc :=
  match logs with
  | [] => []
  | log :: rest => log_record uuid log oid :: rows_of (S uuid) (S oid) rest
  end.

(** Sample data: entry number [n] of task T1, and the first 49 of them. *)
Definition sample_entry (n : nat) : log_entry :=
  {| le_log_id := "u"; le_task_id := "T1"; le_factor_id := "F1";
     le_level := "INFO"; le_message := "step"; le_timestamp := Z.of_nat n;
     le_stage := Some "default"%string; le_details := None |}.

Definition sample_entries (n : nat) : list log_entry :=
  List.map sample_entry (seq 0 n).

(** A manager one entry short of the threshold for task T1. *)
Definition sample_manager : manager :=
  set_buffer {[ "T1"%string := sample_entries 49 ]} (new_manager empty_db).

End LogHandler.

(* ===================================================================== *)
(** * The buffer lock among threads                                        *)
(* ===================================================================== *)

Module BufferLock.

(** What a thread inside the manager's methods does next, as far as
    [buffer_lock] goes: enter a [with self.buffer_lock] block, leave one,
    or anything else (a buffer or store operation). *)
Inductive instr : Type := acquire | release | other.

(** [_flush_task_logs]: take the task's entries inside the block, write
    them outside. *)
Definition flush_task_logs_steps : list instr :=
  [acquire; other; release; other].

(** [add_log]: append inside the block and, at the threshold, call
    [_flush_task_logs] before the block is left. *)
Definition add_log_steps (at_threshold : bool) : list instr :=
  [acquire; other]
  ++ (if at_threshold then flush_task_logs_steps else [])
  ++ [release].

(** [flush_all], for a buffer with [n] task ids. *)
Definition flush_all_steps (n : nat) : list instr :=
  [acquire; other; release] ++ concat (repeat flush_task_logs_steps n).

(** The threads of the process: who holds the lock, and what each thread
    still has to do. *)
Record system := {
  owner : option nat;
  todo : nat -> list instr
}.

Definition advance (s : system) (t : nat) (rest : list instr)
    (o : option nat) : system :=
  {| owner := o; todo := fun u => if (u =? t)%nat then rest else todo s u |}.

(** One step of one thread.  [Lock.acquire] goes through only when the
    lock is free. *)
Inductive step : system -> system -> Prop :=
| step_acquire s t rest :
    todo s t = acquire :: rest -> owner s = None ->
    step s (advance s t rest (Some t))
| step_release s t rest :
    todo s t = release :: rest ->
    step s (advance s t rest None)
| step_other s t rest :
    todo s t = other :: rest ->
    step s (advance s t rest (owner s)).

(** A thread that is not inside a block: its next lock operation, if it
    has one, is an acquire. *)
Fixpoint outside_block (p : list instr) : Prop :=
  match p with
  | [] => True
  | other :: p' => outside_block p'
  | acquire :: _ => True
  | release :: _ => False
  end.

End BufferLock.

(* ===================================================================== *)
(** * The analysis parameters                                              *)
(* ===================================================================== *)

Module FactorAnalysisParams.
Import Mongo.

(** The pydantic model [Params]. *)
Record Params := {
  start_date : string;
  end_date : string;
  adjustment_cycle : Z;
  stock_pool : string;
  factor_direction : bool;
  group_number : Z;
  include_st : bool;
  extreme_value_processing : string
}.

Section Construction.

(** [date.fromisoformat(v).isoformat()], [None] where it raises. *)
Variable fromisoformat : string -> option string.

(** [Params(start_date=params_dict.get("start_date", ""), ...)] with the
    defaults of [validate_factor_params].  The model's own checks are the
    date validator and [ge=2, le=20] on [group_number]; [None] stands for
    the [ValidationError] they raise. *)
Definition make_Params (pd : params_dict) : option Params :=
  match fromisoformat (default ""%string (pd_start_date pd)),
        fromisoformat (default ""%string (pd_end_date pd)) with
  | Some sd, Some ed =>
      let gn := default 5 (pd_group_number pd) in
      if (2 <=? gn) && (gn <=? 20) then
        Some {| start_date := sd; end_date := ed;
                adjustment_cycle := default 1 (pd_adjustment_cycle pd);
                stock_pool := default "000300"%string (pd_stock_pool pd);
                factor_direction := default false (pd_factor_direction pd);
                group_number := gn;
                include_st := default false (pd_include_st pd);
                extreme_value_processing :=
                  default "中位数"%string (pd_extreme_value_processing pd) |}
      else None
  | _, _ => None
  end.

End Construction.

End FactorAnalysisParams.

(* ===================================================================== *)
(** * The analysis pipeline                                                *)
(* ===================================================================== *)

Module FactorAnalysis.
Import Mongo FactorAnalysisParams.

(** ** Cleaning of the factor column *)

(** The factor column of [df_factor], grouped by date: for each date the
    values of that cross-section.  Values are rationals; NaN is not
    modelled. *)
Definition factor_frame : Type := list (string * list Q).

Section Cleaning.

(** [ext_out_3std_list] and [z_score] of factor_func.py, which is not
    among the sources, on one cross-section. *)
Variable ext_out_3std_list : list Q -> list Q.
Variable z_score : list Q -> list Q.

(** [df.groupby('date', group_keys=False).apply(f)]. *)
Definition groupby_date_apply (f : list Q -> list Q) (df : factor_frame)
  : factor_frame :=
  List.map (fun g => (g.1, f g.2)) df.

(** The choice of the extreme value method in [factor_analysis]: both
    branches of the [if] apply [ext_out_3std_list]. *)
Definition extreme_value_step (extreme_value_processing : string)
    (df : factor_frame) : factor_frame :=
  if String.eqb extreme_value_processing "标准差"
     || String.eqb extreme_value_processing "std"
  then groupby_date_apply ext_out_3std_list df
  else groupby_date_apply ext_out_3std_list df.

Definition clean_factor (extreme_value_processing : string)
    (df : factor_frame) : factor_frame :=
  groupby_date_apply z_score (extreme_value_step extreme_value_processing df).

End Cleaning.

(** Modelled from the spec: the MAD rule of the specification's
    preprocessing section, "compute median m and median absolute
    deviation d, clip outside m +- 3 * 1.4826 * d".  The function that
    would implement it is absent from the sources. *)
Fixpoint insert_Q (x : Q) (l : list Q) : list Q :=
  match l with
  | [] => [x]
  | y :: l' => if Qle_bool x y then x :: y :: l' else y :: insert_Q x l'
  end.

Definition sort_Q (l : list Q) : list Q := fold_right insert_Q [] l.

Definition median (l : list Q) : Q :=
  let s := sort_Q l in
  let n := length s in
  if Nat.even n
  then ((nth (n / 2 - 1)%nat s 0 + nth (n / 2)%nat s 0) / 2)%Q
  else nth (n / 2)%nat s 0%Q.

Definition clip (lo hi x : Q) : Q :=
  if Qle_bool x lo then lo else if Qle_bool hi x then hi else x.

Definition mad_clip (l : list Q) : list Q :=
  let m := median l in
  let d := median (List.map (fun x => Qabs (x - m)) l) in
  let w := (3 * (14826 # 10000) * d)%Q in
  List.map (clip (m - w) (m + w)) l.

(** Modelled from the spec: whether the 3-sigma rule, "clip values
    outside mean +- 3 * std", leaves a cross-section as it is.  No value
    is outside the band when [(x - mean)^2 <= 9 * variance] for all of
    them; the population variance is used, which gives the narrower
    band. *)
Definition mean (l : list Q) : Q :=
  (fold_right Qplus 0 l / inject_Z (Z.of_nat (length l)))%Q.

Definition variance (l : list Q) : Q :=
  let mu := mean l in
  (fold_right Qplus 0 (List.map (fun x => (x - mu) * (x - mu)) l)
   / inject_Z (Z.of_nat (length l)))%Q.

Definition three_sigma_keeps (l : list Q) : bool :=
  let mu := mean l in
  let v := variance l in
  forallb (fun x => Qle_bool ((x - mu) * (x - mu)) (9 * v))%Q l.

(** Sample data: a cross-section with one value away from the others. *)
Definition lone_outlier : list Q := [0; 0; 0; 0; 1]%Q.

(** ** Stage progress *)

(** The writes of one analysis run, in program order.  A reader of the
    store sees the effect of some prefix of them. *)
Inductive write : Type :=
| set_process_status (task_id : string) (v : Z)
| set_failed (task_id : string) (error_msg : string)
| insert_bundle (task_id : string) (og : option one_group_data)
    (fda : option (list (string * Q)))
| set_task_status (task_id : string) (v : Z) (result : option string)
    (error_message : option string)
| set_factor_status (object_id : nat) (v : Z) (current_task_id : option string)
    (result : factor_result).

(** The computations between two progress writes; each may raise. *)
Inductive step : Type :=
| latest_date | fetch_k_data | clean_factor_data | merge_data
| lagged_returns | grouping | backtest | inset_to_database.

(** What the environment decides in one run: which steps raise (with the
    exception text), and the metric rows of the bundle. *)
Record oracle := {
  raises : step -> option string;
  bundle_one_group_data : option one_group_data;
  bundle_factor_data_analysis : option (list (string * Q))
}.

(** Writes so far, and either a value or the exception in flight. *)
Inductive res (A : Type) : Type :=
| ok (a : A)
| raised (msg : string).
Arguments ok {A} a.
Arguments raised {A} msg.

Definition W (A : Type) : Type := list write * res A.

#[export] Instance W_ret : MRet W := fun A a => ([], ok a).
#[export] Instance W_bind : MBind W := fun A B k c =>
  match c with
  | (ws, ok a) => let '(ws', r) := k a in (ws ++ ws', r)
  | (ws, raised e) => (ws, raised e)
  end.

Definition tell (w : write) : W unit := ([w], ok tt).
Definition raise {A} (e : string) : W A := ([], raised e).

(** [try: body except Exception as e: handler(e)]. *)
Definition try_except {A} (body : W A) (handler : string -> W A) : W A :=
  match body with
  | (ws, ok a) => (ws, ok a)
  | (ws, raised e) => let '(ws', r) := handler e in (ws ++ ws', r)
  end.

Definition attempt (o : oracle) (s : step) : W unit :=
  match raises o s with
  | Some e => raise e
  | None => mret tt
  end.

(** Modelled from the spec: [factor.inset_to_database] (factor.py, not
    among the sources) writes the result bundle of the task as one
    document of [factor_analysis_results] keyed by [task_id], or raises
    and writes nothing. *)
Definition persist_bundle (o : oracle) (task_id : string) : W unit :=
  attempt o inset_to_database ;;
  tell (insert_bundle task_id (bundle_one_group_data o)
          (bundle_factor_data_analysis o)).

(** [factor_analysis]: the progress writes and the steps between them.
    The inner [try] blocks only log and re-raise. *)
Definition factor_analysis (o : oracle) (task_id : string) : W unit :=
  tell (set_process_status task_id 1) ;;
  try_except
    (attempt o latest_date ;;
     tell (set_process_status task_id 2) ;;
     attempt o fetch_k_data ;;
     tell (set_process_status task_id 3) ;;
     attempt o clean_factor_data ;;
     tell (set_process_status task_id 4) ;;
     attempt o merge_data ;;
     tell (set_process_status task_id 5) ;;
     attempt o lagged_returns ;;
     tell (set_process_status task_id 6) ;;
     attempt o grouping ;;
     tell (set_process_status task_id 7) ;;
     attempt o backtest ;;
     tell (set_process_status task_id 8) ;;
     persist_bundle o task_id ;;
     tell (set_process_status task_id 9))
    (fun e =>
       tell (set_failed task_id ("factor analysis failed: " ++ e)) ;;
       raise e).

(** ** The effect of a write on the store *)

Definition task_is (id : string) (t : task_doc) : bool :=
  bool_decide (t_task_id t = id).

Definition factor_is (oid : nat) (f : factor_doc) : bool :=
  (f_oid f =? oid)%nat.

Definition task_set_process_status (v : Z) (t : task_doc) : task_doc :=
  {| t_oid := t_oid t; t_task_id := t_task_id t; t_factor_id := t_factor_id t;
     t_user_id := t_user_id t; t_factor_name := t_factor_name t;
     t_task_type := t_task_type t; t_params := t_params t;
     t_status := t_status t; t_error_message := t_error_message t;
     t_result := t_result t; t_process_status := Some v;
     t_current_stage := t_current_stage t;
     t_last_log_message := t_last_log_message t;
     t_last_log_time := t_last_log_time t;
     t_last_log_level := t_last_log_level t |}.

Definition task_set_failed (msg : string) (t : task_doc) : task_doc :=
  {| t_oid := t_oid t; t_task_id := t_task_id t; t_factor_id := t_factor_id t;
     t_user_id := t_user_id t; t_factor_name := t_factor_name t;
     t_task_type := t_task_type t; t_params := t_params t;
     t_status := t_status t; t_error_message := Some msg;
     t_result := t_result t; t_process_status := Some (-1);
     t_current_stage := t_current_stage t;
     t_last_log_message := t_last_log_message t;
     t_last_log_time := t_last_log_time t;
     t_last_log_level := t_last_log_level t |}.

(** [$set] of [status] with [result] or [error_message], whichever the
    update names. *)
Definition task_set_status (v : Z) (result error : option string)
    (t : task_doc) : task_doc :=
  {| t_oid := t_oid t; t_task_id := t_task_id t; t_factor_id := t_factor_id t;
     t_user_id := t_user_id t; t_factor_name := t_factor_name t;
     t_task_type := t_task_type t; t_params := t_params t;
     t_status := v;
     t_error_message :=
       match error with Some _ => error | None => t_error_message t end;
     t_result := match result with Some _ => result | None => t_result t end;
     t_process_status := t_process_status t;
     t_current_stage := t_current_stage t;
     t_last_log_message := t_last_log_message t;
     t_last_log_time := t_last_log_time t;
     t_last_log_level := t_last_log_level t |}.

Definition factor_set_status (v : Z) (current : option string)
    (result : factor_result) (f : factor_doc) : factor_doc :=
  {| f_oid := f_oid f; f_user_id := f_user_id f; f_name := f_name f;
     f_factor_name := f_factor_name f; f_code := f_code f;
     f_code_type := f_code_type f; f_params := f_params f; f_status := v;
     f_current_task_id :=
       match current with Some _ => current | None => f_current_task_id f end;
     f_result := Some result |}.

Definition apply_write (d : db) (w : write) : db :=
  match w with
  | set_process_status id v =>
      with_tasks (update_many (task_is id) (task_set_process_status v)) d
  | set_failed id msg =>
      with_tasks (update_many (task_is id) (task_set_failed msg)) d
  | insert_bundle id og fda =>
      insert_result (fun oid => {| r_oid := oid; r_task_id := id;
                                   r_one_group_data := og;
                                   r_factor_data_analysis := fda |}) d
  | set_task_status id v result error =>
      with_tasks (update_many (task_is id) (task_set_status v result error)) d
  | set_factor_status oid v current result =>
      with_user_factors
        (update_many (factor_is oid) (factor_set_status v current result)) d
  end.

Definition apply_writes (d : db) (ws : list write) : db :=
  fold_left apply_write ws d.

(** The [process_status] values a list of writes sets, in order. *)
Definition process_status_of (w : write) : option Z :=
  match w with
  | set_process_status _ v => Some v
  | set_failed _ _ => Some (-1)
  | _ => None
  end.

Definition process_statuses (ws : list write) : list Z :=
  omap process_status_of ws.

(** The write that marks the task as succeeded, and the write of its
    result bundle. *)
Definition is_success_write (task_id : string) (w : write) : Prop :=
  exists result error, w = set_task_status task_id 2 result error.

Definition is_bundle_write (task_id : string) (w : write) : Prop :=
  exists og fda, w = insert_bundle task_id og fda.

(** What a reader can tell of a task. *)
Definition task_known (d : db) (task_id : string) : Prop :=
  exists t, In t (tasks d) /\ t_task_id t = task_id.

Definition succeeded (d : db) (task_id : string) : Prop :=
  exists t, In t (tasks d) /\ t_task_id t = task_id /\ t_status t = 2.

Definition has_bundle (d : db) (task_id : string) : Prop :=
  exists r, In r (factor_analysis_results d) /\ r_task_id r = task_id.

End FactorAnalysis.

(* ===================================================================== *)
(** * The factor reader                                                    *)
(* ===================================================================== *)

Module FactorReader.

(** A frame of [traceback.extract_tb(e.__traceback__)]. *)
Record frame := {
  frame_name : string;
  frame_lineno : Z;
  frame_line : string
}.

(** An exception: whether it is a [SyntaxError] (with its [lineno],
    [offset] and [text]), [str(e)], [type(e)], and its traceback. *)
Record exn := {
  is_SyntaxError : bool;
  exn_str : string;
  exn_type : string;
  exn_lineno : option Z;
  exn_offset : option Z;
  exn_text : option string;
  exn_tb : list frame
}.

(** One [factor_logger.error(...)] call, by the message it formats. *)
Inductive error_log : Type :=
| banner (title : string)
| error_in_formula (formula : string)
| error_message (msg : string)
| occurred_at_line_offset (lineno offset : option Z)
| text_was (text : option string)
| occurred_at_line (lineno : Z)
| in_expression (line : string)
| error_in_formula_setup (msg : string)
| error_type (type : string)
| error_in_factor_calculation
| occurred_at_line_in_calculate (lineno : Z)
| in_code (line : string)
| error_in_class_execution (msg : string)
| error_in_factor_setup (msg : string).

(** [sub in s]. *)
Fixpoint contains (sub s : string) : bool :=
  String.prefix sub s
  || match s with
     | EmptyString => false
     | String _ s' => contains sub s'
     end.

Definition _print_formula_error (e : exn) (formula : string)
  : list error_log :=
  if is_SyntaxError e then
    [banner "=== Formula Syntax Error ==="; error_in_formula formula;
     error_message (exn_str e);
     occurred_at_line_offset (exn_lineno e) (exn_offset e);
     text_was (exn_text e)]
  else
    let tb := exn_tb e in
    if existsb (fun fr => contains "eval" (frame_name fr)) tb then
      [banner "=== Formula Execution Error ==="; error_in_formula formula;
       error_message (exn_str e)]
      ++ match List.find (fun fr => contains "eval" (frame_name fr))
                 (rev tb) with
         | Some last_frame =>
             [occurred_at_line (frame_lineno last_frame);
              in_expression (frame_line last_frame)]
         | None => []
         end
    else
      [banner "=== Formula Setup Error ===";
       error_in_formula_setup (exn_str e); error_type (exn_type e)].

Definition _print_class_error (e : exn) (code : string) : list error_log :=
  if is_SyntaxError e then
    [banner "=== Python Syntax Error ==="; error_message (exn_str e);
     occurred_at_line_offset (exn_lineno e) (exn_offset e);
     text_was (exn_text e)]
  else
    match List.find (fun fr => contains "calculate" (frame_name fr))
            (exn_tb e) with
    | Some calc_frame =>
        [banner "=== Factor Calculation Error ===";
         error_in_factor_calculation; error_message (exn_str e);
         occurred_at_line_in_calculate (frame_lineno calc_frame);
         in_code (frame_line calc_frame)]
    | None =>
        [banner "=== Factor Class Error ===";
         error_in_class_execution (exn_str e); error_type (exn_type e)]
    end.

Section Reader.

(** The table type, and [result.rename(columns={"value": factor_name})]. *)
Variable DataFrame : Type.
Variable rename_value : string -> DataFrame -> DataFrame.

(** What evaluating the factor code does: a table, no table, or an
    exception. *)
Inductive evaluation : Type :=
| computed (result : option DataFrame)
| raises (e : exn).

(** What the reader finds around it in one call: the persisted
    collection of the factor if there is one (and its rows in the date
    range, if any), the factor definition ([code_type], [code]), whether
    any symbol matches the pool and ST filters, what
    [MacroFactor.create_factor_from_formula] and
    [create_factor_from_class] do, and an exception raised by the store
    before the evaluation, if any. *)
Record surroundings := {
  persisted : option (option DataFrame);
  definition : option (string * string);
  symbols_found : bool;
  create_factor_from_formula : string -> evaluation;
  create_factor_from_class : string -> evaluation;
  store_raises : option exn
}.

(** [get_custom_factor]: the table or [None], and what it has sent to
    [factor_logger.error]. *)
Definition get_custom_factor (w : surroundings) (factor_name : string)
  : option DataFrame * list error_log :=
  match store_raises w with
  | Some e =>
      (None, [banner "=== Factor Setup Error ===";
              error_in_factor_setup (exn_str e); error_type (exn_type e)])
  | None =>
      match persisted w with
      | Some (Some df) => (Some df, [])
      | Some None => (None, [])
      | None =>
          match definition w with
          | None => (None, [])
          | Some (code_type, code) =>
              if negb (symbols_found w) then (None, [])
              else if String.eqb code_type "formula" then
                match create_factor_from_formula w code with
                | computed result =>
                    (option_map (rename_value factor_name) result, [])
                | raises e => (None, _print_formula_error e code)
                end
              else if String.eqb code_type "python" then
                match create_factor_from_class w code with
                | computed result =>
                    (option_map (rename_value factor_name) result, [])
                | raises e => (None, _print_class_error e code)
                end
              else (None, [])
          end
      end
  end.

(** The call takes the on-demand compute path and the evaluation of the
    factor's code raises [e]. *)
Definition compute_raises (w : surroundings) (code_type code : string)
    (e : exn) : Prop :=
  store_raises w = None /\ persisted w = None
  /\ definition w = Some (code_type, code) /\ symbols_found w = true
  /\ ((code_type = "formula"%string /\ create_factor_from_formula w code = raises e)
      \/ (code_type = "python"%string /\ create_factor_from_class w code = raises e)).

End Reader.

Arguments computed {DataFrame} result.
Arguments raises {DataFrame} e.

(** Messages that carry [str(e)]. *)
Definition mentions (msg : string) (l : error_log) : bool :=
  match l with
  | error_message m | error_in_formula_setup m | error_in_class_execution m
  | error_in_factor_setup m => String.eqb m msg
  | _ => false
  end.

(** Messages that carry a position in the user's code. *)
Definition is_position (l : error_log) : bool :=
  match l with
  | occurred_at_line_offset _ _ | occurred_at_line _
  | occurred_at_line_in_calculate _ => true
  | _ => false
  end.

(** The traceback leads through the code that was evaluated: a frame
    named after [eval] for a formula, after [calculate] for a class. *)
Definition located (code_type : string) (e : exn) : bool :=
  is_SyntaxError e
  || if String.eqb code_type "formula"
     then existsb (fun fr => contains "eval" (frame_name fr)) (exn_tb e)
     else existsb (fun fr => contains "calculate" (frame_name fr)) (exn_tb e).

(** Sample data: a division by zero inside a class factor's [calculate],
    and a reader whose class evaluation raises it. *)
Definition zero_division : exn :=
  {| is_SyntaxError := false; exn_str := "division by zero";
     exn_type := "<class 'ZeroDivisionError'>"; exn_lineno := None;
     exn_offset := None; exn_text := None;
     exn_tb := [ {| frame_name := "create_factor_from_class";
                    frame_lineno := 210; frame_line := "result = factor.calculate(data)" |};
                 {| frame_name := "calculate"; frame_lineno := 4;
                    frame_line := "return close / (open - open)" |} ] |}.

Definition failing_reader : surroundings unit :=
  {| persisted := None;
     definition := Some ("python"%string, "class F(Factor): ..."%string);
     symbols_found := true;
     create_factor_from_formula := fun _ => computed None;
     create_factor_from_class := fun _ => raises zero_division;
     store_raises := None |}.

(** Sample data: a factor named in the formula is unknown, which the
    factor builder finds out before it evaluates anything, and a reader
    whose formula evaluation raises that. *)
Definition unknown_factor : exn :=
  {| is_SyntaxError := false; exn_str := "Unknown factor: turnover5";
     exn_type := "<class 'ValueError'>"; exn_lineno := None;
     exn_offset := None; exn_text := None;
     exn_tb := [ {| frame_name := "create_factor_from_formula";
                    frame_lineno := 120;
                    frame_line := "raise ValueError(msg)" |} ] |}.

Definition setup_failing_reader : surroundings unit :=
  {| persisted := None;
     definition := Some ("formula"%string, "RANK(turnover5)"%string);
     symbols_found := true;
     create_factor_from_formula := fun _ => raises unknown_factor;
     create_factor_from_class := fun _ => computed None;
     store_raises := None |}.

End FactorReader.

(* ===================================================================== *)
(** * Python's list sort and slices                                        *)
(* ===================================================================== *)

Module Py.

Section Sort.
Context {A K : Type}.

(** [list.sort(key=.., reverse=..)] compares keys with [<] only and is
    stable.  [insert] puts [x] in front of the first element that is not
    below it, so that among elements neither below the other the one
    that came first stays first. *)
Fixpoint insert (lt : K -> K -> bool) (key : A -> K) (x : A) (l : list A)
  : list A :=
  match l with
  | [] => [x]
  | y :: l' =>
      if lt (key y) (key x) then y :: insert lt key x l'
      else x :: y :: l'
  end.

Definition sort_asc (lt : K -> K -> bool) (key : A -> K) (l : list A)
  : list A :=
  fold_right (insert lt key) [] l.

(** [a] is not after [b]: the key of [b] is not below the key of [a]. *)
Definition not_after (lt : K -> K -> bool) (key : A -> K) (a b : A) : Prop :=
  lt (key b) (key a) = false.

(** With [reverse=True] the order is descending and equal keys still keep
    their original order. *)
Definition sort (lt : K -> K -> bool) (key : A -> K) (reverse : bool)
    (l : list A) : list A :=
  if reverse then sort_asc (fun a b => lt b a) key l else sort_asc lt key l.

End Sort.

(** [l[start:stop]] for integers, negative ones counting from the end. *)
Definition clamp_index (len i : Z) : Z :=
  if i <? 0 then Z.max (i + len) 0 else Z.min i len.

Definition slice {A} (l : list A) (start stop : Z) : list A :=
  let len := Z.of_nat (length l) in
  let a := clamp_index len start in
  let b := clamp_index len stop in
  firstn (Z.to_nat (b - a)) (skipn (Z.to_nat a) l).

(** Comparison of floats, for finite values, on rationals. *)
Definition Qltb (a b : Q) : bool := negb (Qle_bool b a).

(** [round(x, 4)] on the rational value: to the nearest multiple of
    1/10000, ties to the even one. *)
Definition round4 (x : Q) : Q :=
  let n := Qnum x * 10000 in
  let d := Zpos (Qden x) in
  let fl := n / d in
  let r := n mod d in
  let up := match 2 * r ?= d with
            | Lt => false
            | Gt => true
            | Eq => Z.odd fl
            end in
  Qmake (if up then fl + 1 else fl) 10000.

End Py.

(* ===================================================================== *)
(** * The user factor service                                              *)
(* ===================================================================== *)

Module UserFactorService.
Import Mongo FactorAnalysisParams FactorAnalysis.

(** [ResultData.success(...)], [ResultData.fail(code, message)], a
    raised [HTTPException(status_code)], and a value returned as it is,
    outside [ResultData]. *)
Inductive response (A : Type) : Type :=
| success (data : A)
| fail (code : string) (message : string)
| HTTPException (status_code : Z)
| unwrapped (data : A).
Arguments success {A} data.
Arguments unwrapped {A} data.
Arguments fail {A} code message.
Arguments HTTPException {A} status_code.

(** [CreateFactorRequest].  The fields [factor_type], [is_persistent],
    [cron], [factor_start_day], [tags] and [describe] are stored with the
    factor and read by none of the functions below; they are left out of
    the request and of [factor_doc] alike. *)
Record CreateFactorRequest := {
  user_id : string;
  name : string;
  factor_name : string;
  code : string;
  code_type : string;
  status : Z;
  params : option params_dict
}.

(** Why [validate_factor_params] says no; each stands for the message the
    code builds there. *)
Inductive validation_error : Type :=
| conversion_failed
| unsupported_adjustment_cycle (v : Z)
| unsupported_stock_pool (pool : string)
| group_number_out_of_range (v : Z)
| unsupported_extreme_method (method : string)
| missing_start_date
| missing_end_date
| code_validation_failed
| code_validation_raised (msg : string).

(** What [MacroFactor.validate_factor] does with a factor's code. *)
Inductive code_check : Type :=
| code_valid
| code_invalid
| code_check_raises (msg : string).

(** What happens to [panda_data.get_custom_factor] and the conversion of
    its arguments in [run_factor_analysis]. *)
Inductive factor_data : Type :=
| data_raises (msg : string)
| data_none
| data_empty
| data_rows.

(** The answers of [run_factor]: the two successes, [fail("404", ..)],
    [fail("400", error_msg)] and the [HTTPException(400)] of a malformed
    factor id. *)
Inductive run_result : Type :=
| started (factor_id task_id : string)
| completed (factor_id task_id : string)
| not_found
| invalid (e : validation_error)
| bad_factor_id.

(** The thread that [run_factor] starts. *)
Record job := {
  job_task_id : string;
  job_object_id : nat;
  job_params : Params
}.

(** [str.split(sep)]. *)
Fixpoint split_on (sep : ascii) (s : string) : list string :=
  match s with
  | EmptyString => [EmptyString]
  | String c s' =>
      if Ascii.eqb c sep then EmptyString :: split_on sep s'
      else match split_on sep s' with
           | h :: t => String c h :: t
           | [] => [String c EmptyString]
           end
  end.

(** The factor id and the task id of a request: [message_id] split at
    its first two [$] when it has one, else the message itself and a new
    uuid. *)
Definition request_ids (new_uuid message_id : string) : string * string :=
  match split_on "$" message_id with
  | factor_id :: task_id :: _ => (factor_id, task_id)
  | _ => (message_id, new_uuid)
  end.

Section Service.

(** [date.fromisoformat(v).isoformat()], and
    [MacroFactor().validate_factor(code, code_type)] (macro_factor.py is
    not among the sources). *)
Variable fromisoformat : string -> option string.
Variable validate_factor : string -> string -> code_check.

Definition validate_factor_params (factor : factor_doc)
  : validation_error + Params :=
  match f_params factor with
  | None => inl conversion_failed
  | Some params_dict =>
      match make_Params fromisoformat params_dict with
      | None => inl conversion_failed
      | Some params =>
          if negb (existsb (Z.eqb (adjustment_cycle params))
                     [1; 3; 5; 10; 20; 30])
          then inl (unsupported_adjustment_cycle (adjustment_cycle params))
          else if negb (existsb (String.eqb (stock_pool params))
                          ["000300"; "000905"; "000852"; "000985"]%string)
          then inl (unsupported_stock_pool (stock_pool params))
          else if negb ((2 <=? group_number params)
                        && (group_number params <=? 20))
          then inl (group_number_out_of_range (group_number params))
          else if negb (existsb (String.eqb (extreme_value_processing params))
                          ["标准差"; "std"; "中位数"; "median"]%string)
          then inl (unsupported_extreme_method
                      (extreme_value_processing params))
          else if String.eqb (start_date params) ""
          then inl missing_start_date
          else if String.eqb (end_date params) ""
          then inl missing_end_date
          else match validate_factor (f_code factor) (f_code_type factor) with
               | code_check_raises msg => inl (code_validation_raised msg)
               | code_invalid => inl code_validation_failed
               | code_valid => inr params
               end
      end
  end.

(** [run_factor_analysis]: what it writes itself, in order.  Its calls
    on the logger are left out; among them is the ERROR logged when the
    factor data is empty, which the handler flushes at once, so that the
    branch without a write here does add log rows and sets
    [current_stage] and [last_log_*] on the task record. *)
Definition run_factor_analysis (o : oracle) (fd : factor_data)
    (task_id : string) (object_id : nat) : W unit :=
  try_except
    (match fd with
     | data_raises e => raise e
     | data_none => raise "'NoneType' object has no attribute 'tail'"
     | data_empty => mret tt
     | data_rows =>
         factor_analysis o task_id ;;
         tell (set_task_status task_id 2 (Some "分析完成"%string) None) ;;
         tell (set_factor_status object_id 2 (Some task_id)
                 (result_task_id task_id))
     end)
    (fun e =>
       let error_msg := ("因子分析失败: " ++ e)%string in
       tell (set_task_status task_id 3 None (Some error_msg)) ;;
       tell (set_factor_status object_id 3 None (result_error error_msg))).

(** [ObjectId(text)]: the ordinal the text denotes, or [None] where
    [bson] raises on a malformed id. *)
Variable ObjectId : string -> option nat.

Definition validate_object_id {A} (factor_id : string)
    (k : nat -> response A * db) (d : db) : response A * db :=
  match ObjectId factor_id with
  | Some oid => k oid
  | None => (HTTPException 400, d)
  end.

(** The query [{"user_id": .., "factor_name": .., "_id": {"$ne": ..}}]. *)
Definition same_name (user factor : string) (exclude : option nat)
    (f : factor_doc) : bool :=
  bool_decide (f_user_id f = user) && bool_decide (f_factor_name f = factor)
  && match exclude with
     | Some oid => negb (f_oid f =? oid)%nat
     | None => true
     end.

Definition check_factor_exists (d : db) (user factor : string)
    (exclude_id : option nat) : bool :=
  existsb (same_name user factor exclude_id) (user_factors d).

(** The document that [create_factor] inserts: [factor.dict()]. *)
Definition factor_of_request (r : CreateFactorRequest) (oid : nat)
  : factor_doc :=
  {| f_oid := oid; f_user_id := user_id r; f_name := name r;
     f_factor_name := factor_name r; f_code := code r;
     f_code_type := code_type r; f_params := params r; f_status := status r;
     f_current_task_id := None; f_result := None |}.

Definition create_factor (factor : CreateFactorRequest) (d : db)
  : response nat * db :=
  if check_factor_exists d (user_id factor) (factor_name factor) None
  then (fail "409" "同名因子已存在", d)
  else (success (next_oid d), insert_factor (factor_of_request factor) d).

(** The [$set] of [update_factor]: every field of the request. *)
Definition set_request (r : CreateFactorRequest) (f : factor_doc)
  : factor_doc :=
  {| f_oid := f_oid f; f_user_id := user_id r; f_name := name r;
     f_factor_name := factor_name r; f_code := code r;
     f_code_type := code_type r; f_params := params r; f_status := status r;
     f_current_task_id := f_current_task_id f; f_result := f_result f |}.

Definition oid_is (oid : nat) (f : factor_doc) : bool := (f_oid f =? oid)%nat.

Definition update_factor (factor : CreateFactorRequest) (factor_id : string)
    (d : db) : response string * db :=
  validate_object_id factor_id (fun object_id =>
    if negb (existsb (oid_is object_id) (user_factors d))
    then (fail "404" "未找到要更新的因子", d)
    else if check_factor_exists d (user_id factor) (factor_name factor)
              (if bool_decide (factor_id = ""%string) then None
               else Some object_id)
    then (fail "409" "同名因子已存在", d)
    else (success factor_id,
          with_user_factors
            (update_many (oid_is object_id) (set_request factor)) d)) d.

(** [str(oid)], the text of a storage ordinal. *)
Variable oid_text : nat -> string.

(** The cursor's [sort([("timestamp", 1)])], as a stable sort of the
    documents in storage order. *)
Fixpoint insert_by_timestamp (x : log_doc) (l : list log_doc) : list log_doc :=
  match l with
  | [] => [x]
  | y :: l' =>
      if l_timestamp y <? l_timestamp x then y :: insert_by_timestamp x l'
      else x :: y :: l'
  end.

Definition sort_by_timestamp (l : list log_doc) : list log_doc :=
  fold_right insert_by_timestamp [] l.

(** The query [{"task_id": .., "_id": {"$gt": ..}}]. *)
Definition log_matches (task_id : string) (after : option nat) (l : log_doc)
  : bool :=
  bool_decide (l_task_id l = task_id)
  && match after with
     | Some oid => (oid <? l_oid l)%nat
     | None => true
     end.

Definition find_logs (d : db) (task_id : string) (after : option nat)
  : list log_doc :=
  sort_by_timestamp
    (List.filter (log_matches task_id after) (factor_analysis_stage_logs d)).

(** One element of the returned [logs] list. *)
Record log_view := {
  v_message : string;
  v_loglevel : string;
  v_timestamp : Z
}.

Definition view_of (l : log_doc) : log_view :=
  {| v_message := l_message l; v_loglevel := l_level l;
     v_timestamp := l_timestamp l |}.

Record task_logs := {
  logs : list log_view;
  last_log_id : option string
}.

(** [str(logs[-1]["_id"]) if logs else None]. *)
Definition echo (docs : list log_doc) : option string :=
  match last docs with
  | Some l => Some (oid_text (l_oid l))
  | None => None
  end.

(** [get_task_logs].  A [last_log_id] that is [None] or empty asks for
    everything; a text that is no ObjectId raises inside the [try], which
    the handler turns into [HTTPException(500)].  Every stored log
    document has [message], [level] and [timestamp], so the loop keeps
    all of them. *)
Definition get_task_logs (d : db) (task_id : string)
    (last_log_id : option string) : response task_logs :=
  let after :=
    match last_log_id with
    | None => Some None
    | Some text =>
        if bool_decide (text = ""%string) then Some None
        else match ObjectId text with
             | Some oid => Some (Some oid)
             | None => None
             end
    end in
  match after with
  | None => HTTPException 500
  | Some after =>
      let logs := find_logs d task_id after in
      success {| logs := List.map view_of logs; last_log_id := echo logs |}
  end.

(** The stamps stored with a factor, which the document model leaves
    out, by storage ordinal. *)
Variable created_at_of : nat -> string.
Variable updated_at_of : nat -> string.

Record UserFactorListItem := {
  li_name : string;
  li_factor_id : string;
  li_factor_name : string;
  li_updated_at : string;
  li_created_at : string;
  li_return_ratio : string;
  li_sharpe_ratio : Q;
  li_maximum_drawdown : string;
  li_annualized_ratio : string;
  li_IC : Q;
  li_IR : Q
}.

Record UserFactorListResponse := {
  data : list UserFactorListItem;
  total : Z;
  page : Z;
  page_size : Z;
  total_pages : Z
}.

(** [factor_info] as first filled in: the defaults of the metrics. *)
Definition default_info (factor : factor_doc) : UserFactorListItem :=
  {| li_name := f_name factor;
     li_factor_id := oid_text (f_oid factor);
     li_factor_name := f_factor_name factor;
     li_updated_at := updated_at_of (f_oid factor);
     li_created_at := created_at_of (f_oid factor);
     li_return_ratio := "0.0%";
     li_sharpe_ratio := 0;
     li_maximum_drawdown := "0.0%";
     li_annualized_ratio := "0.0%";
     li_IC := 0;
     li_IR := 0 |}.

Definition update_one_group (og : one_group_data) (i : UserFactorListItem)
  : UserFactorListItem :=
  {| li_name := li_name i; li_factor_id := li_factor_id i;
     li_factor_name := li_factor_name i; li_updated_at := li_updated_at i;
     li_created_at := li_created_at i;
     li_return_ratio := og_return_ratio og;
     li_sharpe_ratio := og_sharpe_ratio og;
     li_maximum_drawdown := og_maximum_drawdown og;
     li_annualized_ratio := og_annualized_ratio og;
     li_IC := li_IC i; li_IR := li_IR i |}.

Definition set_IC (v : Q) (i : UserFactorListItem) : UserFactorListItem :=
  {| li_name := li_name i; li_factor_id := li_factor_id i;
     li_factor_name := li_factor_name i; li_updated_at := li_updated_at i;
     li_created_at := li_created_at i; li_return_ratio := li_return_ratio i;
     li_sharpe_ratio := li_sharpe_ratio i;
     li_maximum_drawdown := li_maximum_drawdown i;
     li_annualized_ratio := li_annualized_ratio i;
     li_IC := v; li_IR := li_IR i |}.

Definition set_IR (v : Q) (i : UserFactorListItem) : UserFactorListItem :=
  {| li_name := li_name i; li_factor_id := li_factor_id i;
     li_factor_name := li_factor_name i; li_updated_at := li_updated_at i;
     li_created_at := li_created_at i; li_return_ratio := li_return_ratio i;
     li_sharpe_ratio := li_sharpe_ratio i;
     li_maximum_drawdown := li_maximum_drawdown i;
     li_annualized_ratio := li_annualized_ratio i;
     li_IC := li_IC i; li_IR := v |}.

(** The loop over the rows of [factor_data_analysis]; a row is the
    indicator's name and its (numeric) value. *)
Definition read_ic_ir (rows : list (string * Q)) (i : UserFactorListItem)
  : UserFactorListItem :=
  fold_left
    (fun i row =>
       if String.eqb row.1 "IC_mean" then set_IC (Py.round4 row.2) i
       else if String.eqb row.1 "IC_IR" then set_IR (Py.round4 row.2) i
       else i)
    rows i.

(** One pass of the loop over the user's factors. *)
Definition factor_info (d : db) (factor : factor_doc) : UserFactorListItem :=
  let info := default_info factor in
  match f_current_task_id factor with
  | None => info
  | Some task_id =>
      if String.eqb task_id "" then info
      else
        match List.find (fun r => String.eqb (r_task_id r) task_id)
                (factor_analysis_results d) with
        | None => info
        | Some analysis_result =>
            let info :=
              match r_one_group_data analysis_result with
              | Some og => update_one_group og info
              | None => info
              end in
            match r_factor_data_analysis analysis_result with
            | Some rows => read_ic_ir rows info
            | None => info
            end
        end
  end.

(** [getattr(x, sort_field)] for the accepted sort fields: a text or a
    number, by the field. *)
Inductive sort_key : Type :=
| by_text (key : UserFactorListItem -> string)
| by_number (key : UserFactorListItem -> Q).

Definition sort_key_of (sort_field : string) : option sort_key :=
  if String.eqb sort_field "created_at" then Some (by_text li_created_at)
  else if String.eqb sort_field "return_ratio"
  then Some (by_text li_return_ratio)
  else if String.eqb sort_field "sharpe_ratio"
  then Some (by_number li_sharpe_ratio)
  else if String.eqb sort_field "maximum_drawdown"
  then Some (by_text li_maximum_drawdown)
  else if String.eqb sort_field "IC" then Some (by_number li_IC)
  else if String.eqb sort_field "IR" then Some (by_number li_IR)
  else None.

(** [result_list.sort(key=lambda x: getattr(x, sort_field), reverse=..)]:
    texts compare as Python strings do, numbers as numbers. *)
Definition sort_by (k : sort_key) (reverse : bool)
    (l : list UserFactorListItem) : list UserFactorListItem :=
  match k with
  | by_text key => Py.sort String.ltb key reverse l
  | by_number key => Py.sort Py.Qltb key reverse l
  end.

Definition sort_result_list (sort_field : string) (reverse : bool)
    (l : list UserFactorListItem) : option (list UserFactorListItem) :=
  match sort_key_of sort_field with
  | Some k => Some (sort_by k reverse l)
  | None => None
  end.

(** [a] may stand before [b] in the sorted list. *)
Definition in_order (k : sort_key) (reverse : bool)
    (a b : UserFactorListItem) : Prop :=
  match k with
  | by_text key =>
      if reverse then String.ltb (key a) (key b) = false
      else String.ltb (key b) (key a) = false
  | by_number key =>
      if reverse then (key b <= key a)%Q else (key a <= key b)%Q
  end.

Definition same_key (k : sort_key) (a b : UserFactorListItem) : bool :=
  match k with
  | by_text key => String.eqb (key a) (key b)
  | by_number key => Qeq_bool (key a) (key b)
  end.

Definition get_user_factor_list (d : db) (user_id : string)
    (page page_size : Z) (sort_field sort_order : string)
  : response UserFactorListResponse :=
  let factor_list :=
    List.filter (fun f => String.eqb (f_user_id f) user_id) (user_factors d) in
  let result_list := List.map (factor_info d) factor_list in
  let reverse := String.eqb sort_order "desc" in
  match sort_result_list sort_field reverse result_list with
  | None => HTTPException 400
  | Some sorted =>
      if negb (String.eqb sort_order "asc" || String.eqb sort_order "desc")
      then HTTPException 400
      else if page_size =? 0
      then fail "500" "获取因子列表失败: integer division or modulo by zero"
      else
        let total := Z.of_nat (length factor_list) in
        let total_pages := (total + page_size - 1) / page_size in
        if (total_pages <? page) && (0 <? total_pages)
        then unwrapped {| data := []; total := total; page := page;
                          page_size := page_size;
                          total_pages := total_pages |}
        else match factor_list with
             | [] => unwrapped {| data := []; total := 0; page := page;
                                  page_size := page_size; total_pages := 0 |}
             | _ =>
                 let start_idx := (page - 1) * page_size in
                 let end_idx :=
                   Z.min (start_idx + page_size)
                     (Z.of_nat (length sorted)) in
                 success {| data := Py.slice sorted start_idx end_idx;
                            total := total; page := page;
                            page_size := page_size;
                            total_pages := total_pages |}
             end
  end.

(** The [task_record] that [run_factor] inserts. *)
Definition task_record (task_id factor_id : string) (factor : factor_doc)
    (oid : nat) : task_doc :=
  {| t_oid := oid; t_task_id := task_id; t_factor_id := factor_id;
     t_user_id := f_user_id factor; t_factor_name := f_factor_name factor;
     t_task_type := "factor_analysis"; t_params := f_params factor;
     t_status := 1; t_error_message := None; t_result := None;
     t_process_status := None; t_current_stage := None;
     t_last_log_message := None; t_last_log_time := None;
     t_last_log_level := None |}.

(** A task record without the fields that only a flush of the log
    handler sets ([current_stage] and the three [last_log_*]). *)
Definition unlogged (t : task_doc) : task_doc :=
  {| t_oid := t_oid t; t_task_id := t_task_id t; t_factor_id := t_factor_id t;
     t_user_id := t_user_id t; t_factor_name := t_factor_name t;
     t_task_type := t_task_type t; t_params := t_params t;
     t_status := t_status t; t_error_message := t_error_message t;
     t_result := t_result t; t_process_status := t_process_status t;
     t_current_stage := None; t_last_log_message := None;
     t_last_log_time := None; t_last_log_level := None |}.

(** The store after the bookkeeping of [run_factor]: the task record
    inserted, the factor marked as running with the new task id. *)
Definition admitted (task_id factor_id : string) (object_id : nat)
    (factor : factor_doc) (d : db) : db :=
  with_user_factors
    (update_many (oid_is object_id)
       (factor_set_status 1 (Some task_id) (result_task_id task_id)))
    (insert_task (task_record task_id factor_id factor) d).

(** [run_factor(message_id, is_thread)].  [new_uuid] is the
    [str(uuid.uuid4()).replace("-", "")] drawn when the message carries no
    task id; [o] and [fd] decide the analysis when it runs inside the
    call ([is_thread = false]).  The answer comes with the store as the
    call leaves it and with the thread it has started, if any.

    The store is the one the writes of [run_factor] and of the analysis
    themselves make.  The calls on the task's logger are not part of
    this model: what its handler writes when it flushes (rows of
    [factor_analysis_stage_logs], and [current_stage] and [last_log_*]
    on task records, see [_flush_task_logs]) is missing from the store
    given here, and so is the wait of a call whose [add_log] reaches the
    buffer limit.  Statements about [run_factor] therefore speak of
    the other collections and of the other fields of task records. *)
Definition run_factor (o : oracle) (fd : factor_data) (new_uuid : string)
    (message_id : string) (is_thread : bool) (d : db)
  : run_result * db * option job :=
  let '(factor_id, task_id) := request_ids new_uuid message_id in
  match ObjectId factor_id with
  | None => (bad_factor_id, d, None)
  | Some object_id =>
      match List.filter (oid_is object_id) (user_factors d) with
      | [] => (not_found, d, None)
      | factor :: _ =>
          let d := admitted task_id factor_id object_id factor d in
          match validate_factor_params factor with
          | inl error_msg => (invalid error_msg, d, None)
          | inr params =>
              if is_thread then
                (started factor_id task_id, d,
                 Some {| job_task_id := task_id; job_object_id := object_id;
                         job_params := params |})
              else
                (completed factor_id task_id,
                 apply_writes d
                   (run_factor_analysis o fd task_id object_id).1,
                 None)
          end
      end
  end.

End Service.

(** The invariant of the specification: no two factors of
    [user_factors] share [(user_id, factor_name)]. *)
Definition factor_key (f : factor_doc) : string * string :=
  (f_user_id f, f_factor_name f).

Definition unique_names (d : db) : Prop :=
  List.NoDup (List.map factor_key (user_factors d)).

(** Storage ordinals are distinct and below the next one to hand out. *)
Definition unique_oids (d : db) : Prop :=
  List.NoDup (List.map f_oid (user_factors d)).

Definition oids_below_next (d : db) : Prop :=
  forall f, In f (user_factors d) -> (f_oid f < next_oid d)%nat.

Record factors_wf (d : db) : Prop := {
  wf_names : unique_names d;
  wf_oids : unique_oids d;
  wf_next : oids_below_next d
}.

(** Sample data: a store with one factor of user 2, a request for the
    same name, and an id parser that reads an id off its length. *)
Definition sample_factor : factor_doc :=
  {| f_oid := 0; f_user_id := "2"; f_name := "Grail";
     f_factor_name := "Grail"; f_code := "close / open - 1";
     f_code_type := "formula"; f_params := None; f_status := 0;
     f_current_task_id := None; f_result := None |}.

Definition sample_db : db :=
  {| user_factors := [sample_factor]; tasks := [];
     factor_analysis_stage_logs := []; factor_analysis_results := [];
     next_oid := 1 |}.

Definition sample_request : CreateFactorRequest :=
  {| user_id := "2"; name := "Grail again"; factor_name := "Grail";
     code := "close"; code_type := "formula"; status := 0; params := None |}.

Definition sample_ObjectId (text : string) : option nat :=
  match String.length text with
  | O => None
  | S n => Some n
  end.

Fixpoint sample_oid_text (n : nat) : string :=
  match n with
  | O => "a"
  | S n' => String "a" (sample_oid_text n')
  end.

(** What the incremental reads rely on: the collection is in storage
    order, and the task's entries carry timestamps that grow with it. *)
Definition oids_increasing (l : list log_doc) : Prop :=
  StronglySorted (fun a b => (l_oid a < l_oid b)%nat) l.

Definition timestamps_increasing (task_id : string) (l : list log_doc) : Prop :=
  StronglySorted (fun a b => l_timestamp a < l_timestamp b)
    (List.filter (log_matches task_id None) l).

Definition by_timestamp (a b : log_doc) : Prop :=
  l_timestamp a <= l_timestamp b.

(** The reading of the claim that a full read followed by a read at the
    ordinal it returned adds up to the full read. *)
Definition reads_add_up (ObjectId : string -> option nat)
    (oid_text : nat -> string) (d : db) (task_id : string) : Prop :=
  forall r1 r2,
    get_task_logs ObjectId oid_text d task_id None = success r1 ->
    get_task_logs ObjectId oid_text d task_id (last_log_id r1) = success r2 ->
    logs r1 ++ logs r2 = logs r1.

(** The reading of the claim that a rejected [run_factor] leaves no
    trace: no task record, and the factors as they were. *)
Definition rejects_cleanly (fromisoformat : string -> option string)
    (validate_factor : string -> string -> code_check)
    (ObjectId : string -> option nat) (o : oracle) (fd : factor_data)
    (new_uuid message_id : string) (is_thread : bool) (d : db) : Prop :=
  forall e d' j,
    run_factor fromisoformat validate_factor ObjectId o fd new_uuid
      message_id is_thread d = (invalid e, d', j) ->
    tasks d' = tasks d /\ user_factors d' = user_factors d.

(** Sample data: two list items, one with return 9.0% and Sharpe ratio 9,
    one with return 10.0% and Sharpe ratio 10. *)
Definition sample_item (ratio : string) (sharpe : Q) : UserFactorListItem :=
  {| li_name := "f"; li_factor_id := "a"; li_factor_name := "f";
     li_updated_at := ""; li_created_at := ""; li_return_ratio := ratio;
     li_sharpe_ratio := sharpe; li_maximum_drawdown := ratio;
     li_annualized_ratio := ratio; li_IC := sharpe; li_IR := sharpe |}.

Definition item9 : UserFactorListItem := sample_item "9.0%" 9.
Definition item10 : UserFactorListItem := sample_item "10.0%" 10.

(** Sample data: three factors of user 2.  The first has a bundle with
    return 9.0% and Sharpe ratio 9, the second one with 10.0% and 10, the
    third has not been run. *)
Definition listed_factor (oid : nat) (task : option string) : factor_doc :=
  {| f_oid := oid; f_user_id := "2"; f_name := "f"; f_factor_name := "f";
     f_code := "close"; f_code_type := "formula"; f_params := None;
     f_status := 0; f_current_task_id := task; f_result := None |}.

Definition listed_bundle (oid : nat) (task ratio : string) (sharpe : Q)
  : result_doc :=
  {| r_oid := oid; r_task_id := task;
     r_one_group_data :=
       Some {| og_return_ratio := ratio; og_annualized_ratio := ratio;
               og_sharpe_ratio := sharpe; og_maximum_drawdown := ratio |};
     r_factor_data_analysis := Some [("IC_mean"%string, sharpe / 100)%Q] |}.

Definition listed_db : db :=
  {| user_factors := [listed_factor 0 (Some "T9"%string);
                      listed_factor 1 (Some "T10"%string);
                      listed_factor 2 None];
     tasks := []; factor_analysis_stage_logs := [];
     factor_analysis_results := [listed_bundle 3 "T9" "9.0%" 9;
                                 listed_bundle 4 "T10" "10.0%" 10];
     next_oid := 5 |}.

Definition listed (sort_field sort_order : string)
  : option (list (string * string)) :=
  match get_user_factor_list sample_oid_text (fun _ => ""%string)
          (fun _ => ""%string) listed_db "2" 1 10 sort_field sort_order with
  | success r =>
      Some (List.map (fun i => (li_factor_id i, li_return_ratio i)) (data r))
  | _ => None
  end.

(** Sample data: a factor whose [adjustment_cycle] is 7, a date parser
    that accepts ten-character texts, and a code validator that accepts
    everything. *)
Definition cycle7_params : params_dict :=
  {| pd_start_date := Some "2024-01-01"%string;
     pd_end_date := Some "2024-03-01"%string;
     pd_adjustment_cycle := Some 7;
     pd_stock_pool := Some "000300"%string;
     pd_factor_direction := Some true;
     pd_group_number := Some 5;
     pd_include_st := Some false;
     pd_extreme_value_processing := Some "std"%string |}.

Definition cycle7_factor : factor_doc :=
  {| f_oid := 0; f_user_id := "2"; f_name := "Grail";
     f_factor_name := "Grail"; f_code := "close / open - 1";
     f_code_type := "formula"; f_params := Some cycle7_params; f_status := 0;
     f_current_task_id := None; f_result := None |}.

Definition cycle7_db : db :=
  {| user_factors := [cycle7_factor]; tasks := [];
     factor_analysis_stage_logs := []; factor_analysis_results := [];
     next_oid := 1 |}.

Definition sample_fromisoformat (v : string) : option string :=
  if (String.length v =? 10)%nat then Some v else None.

Definition sample_validate_factor (code code_type : string) : code_check :=
  code_valid.

(** A store in which task T1 is running. *)
Definition running_db : db :=
  {| user_factors := [cycle7_factor];
     tasks := [task_record "T1" "a" cycle7_factor 1];
     factor_analysis_stage_logs := []; factor_analysis_results := [];
     next_oid := 2 |}.

(** Sample data: a run in which no step raises, and one whose grouping
    step raises. *)
Definition smooth_run : oracle :=
  {| raises := fun _ => None; bundle_one_group_data := None;
     bundle_factor_data_analysis := None |}.

Definition grouping_fails : oracle :=
  {| raises := fun s => match s with
                        | grouping => Some "bins must increase"%string
                        | _ => None
                        end;
     bundle_one_group_data := None;
     bundle_factor_data_analysis := None |}.

(** Sample data: two entries of task T1 whose timestamps run against
    their storage order (the entry stamped 5 was buffered first). *)
Definition sample_log (oid : nat) (ts : Z) : log_doc :=
  {| l_oid := oid; l_log_id := oid; l_task_id := "T1"; l_factor_id := "F1";
     l_message := "step"; l_level := "INFO"; l_timestamp := ts;
     l_stage := "default"; l_details := None |}.

Definition disordered_db : db :=
  {| user_factors := []; tasks := [];
     factor_analysis_stage_logs := [sample_log 0 5; sample_log 1 3];
     factor_analysis_results := []; next_oid := 2 |}.

Definition ordered_db : db :=
  {| user_factors := []; tasks := [];
     factor_analysis_stage_logs := [sample_log 0 3; sample_log 1 5];
     factor_analysis_results := []; next_oid := 2 |}.

End UserFactorService.

(* ===================================================================== *)
(** * The rest of the log handler                                          *)
(* ===================================================================== *)

Module LogFlush.
Import Mongo LogHandler.

Section Handler.

(** [list(self.log_buffer.keys())]: the task ids in the order the dict
    has them, which the map does not record. *)
Variable keys : gmap string (list log_entry) -> list string.

(** [str(uuid.uuid4())] for the n-th draw, and the reading of
    [datetime.now()] taken for the entry with that id. *)
Variable uuid_text : nat -> string.
Variable now : nat -> Z.

(** The [for task_id in task_ids] loop of [flush_all]. *)
Fixpoint flush_each (me : thread) (task_ids : list string) : M unit :=
  match task_ids with
  | [] => mret tt
  | task_id :: rest => _flush_task_logs me task_id ;; flush_each me rest
  end.

Definition flush_all (me : thread) : M unit :=
  task_ids ← with_lock me (buf ← get_buffer; mret (keys buf));
  flush_each me task_ids.

(** What [emit] reads off a [logging.LogRecord]: the level name, the
    formatted message, the [stage] attribute if the caller has set one,
    and the [details] mapping, each value as [str] prints it. *)
Record LogRecord := {
  levelname : string;
  formatted : string;
  stage : option string;
  details : list (string * string)
}.

Definition main_entry (task_id factor_id : string) (record : LogRecord)
    (u : nat) : log_entry :=
  {| le_log_id := uuid_text u; le_task_id := task_id;
     le_factor_id := factor_id; le_level := levelname record;
     le_message := formatted record; le_timestamp := now u;
     le_stage := Some (default "default"%string (stage record));
     le_details := None |}.

Definition debug_entry (task_id factor_id : string) (record : LogRecord)
    (kv : string * string) (u : nat) : log_entry :=
  {| le_log_id := uuid_text u; le_task_id := task_id;
     le_factor_id := factor_id; le_level := "DEBUG";
     le_message := (kv.1 ++ ": " ++ kv.2)%string; le_timestamp := now u;
     le_stage := Some (default "default"%string (stage record));
     le_details := None |}.

(** The [for key, value in details.items()] loop of [emit]. *)
Fixpoint add_details (me : thread) (task_id factor_id : string)
    (record : LogRecord) (kvs : list (string * string)) : M unit :=
  match kvs with
  | [] => mret tt
  | kv :: rest =>
      u ← uuid4;
      add_log me task_id (debug_entry task_id factor_id record kv u) ;;
      add_details me task_id factor_id record rest
  end.

Definition is_urgent (level : string) : bool :=
  String.eqb level "ERROR" || String.eqb level "CRITICAL"
  || String.eqb level "WARNING".

(** [FactorAnalysisLogHandler.emit] of the handler of task [task_id] and
    factor [factor_id]. *)
Definition emit (me : thread) (task_id factor_id : string)
    (record : LogRecord) : M unit :=
  u ← uuid4;
  add_log me task_id (main_entry task_id factor_id record u) ;;
  add_details me task_id factor_id record (details record) ;;
  if is_urgent (levelname record) then flush_all me else mret tt.

(** The entries one [emit] buffers, given the number of uuid draws so
    far. *)
Fixpoint detail_entries (task_id factor_id : string) (record : LogRecord)
    (kvs : list (string * string)) (u : nat) : list log_entry :=
  match kvs with
  | [] => []
  | kv :: rest =>
      debug_entry task_id factor_id record kv u
      :: detail_entries task_id factor_id record rest (S u)
  end.

Definition emitted (task_id factor_id : string) (record : LogRecord)
    (u : nat) : list log_entry :=
  main_entry task_id factor_id record u
  :: detail_entries task_id factor_id record (details record) (S u).

(** The manager once the entries of one [emit] are in the buffer. *)
Definition after_adds (task_id factor_id : string) (record : LogRecord)
    (m : manager) : manager :=
  {| log_buffer :=
       <[task_id := buffered m task_id
                    ++ emitted task_id factor_id record (uuid_count m)]>
         (log_buffer m);
     buffer_lock := buffer_lock m;
     max_buffer_size := max_buffer_size m;
     store := store m;
     uuid_count := (uuid_count m + S (length (details record)))%nat |}.

End Handler.

(** [keys] lists each task id of the buffer once. *)
Definition keys_ok (keys : gmap string (list log_entry) -> list string)
  : Prop :=
  forall buf, NoDup (keys buf) /\ forall t, is_Some (buf !! t) -> t ∈ keys buf.

(** The [mongo_update] that closes a flush of [es]: the task records of
    the newest entry's task take its stage, message, time and level. *)
Definition note_latest (es : list log_entry) (ts : list task_doc)
  : list task_doc :=
  match last es with
  | Some latest =>
      update_many (task_id_is (le_task_id latest)) (set_last_log latest) ts
  | None => ts
  end.

(** What a task record shows once the entries [es] buffered for its task
    have been flushed. *)
Definition shows_latest (es : list log_entry) (t : task_doc) : task_doc :=
  match last es with
  | Some latest => set_last_log latest t
  | None => t
  end.

(** Every entry sits under the key of its own task, as [emit] files it. *)
Definition well_keyed (m : manager) : Prop :=
  forall t e, e ∈ buffered m t -> le_task_id e = t.

(** The keys of the buffer as the map lists them. *)
Definition map_keys (buf : gmap string (list log_entry)) : list string :=
  (map_to_list buf).*1.

(** Everything the manager holds, task by task in the given order. *)
Definition all_buffered (m : manager) (task_ids : list string)
  : list log_entry :=
  concat (List.map (buffered m) task_ids).

(** Sample data: a manager holding two entries of T1 and one of T2, over
    a store with a record of task T2; an error record and an info record
    with one detail each; a uuid source and a clock. *)
Definition entry_T2 : log_entry :=
  {| le_log_id := "u"; le_task_id := "T2"; le_factor_id := "F2";
     le_level := "INFO"; le_message := "grouping done"; le_timestamp := 7;
     le_stage := Some "grouping"%string; le_details := None |}.

Definition task_T2 (oid : nat) : task_doc :=
  {| t_oid := oid; t_task_id := "T2"; t_factor_id := "F2"; t_user_id := "U";
     t_factor_name := "alpha"; t_task_type := "factor_analysis";
     t_params := None; t_status := 0; t_error_message := None;
     t_result := None; t_process_status := Some 1; t_current_stage := None;
     t_last_log_message := None; t_last_log_time := None;
     t_last_log_level := None |}.

Definition two_tasks : manager :=
  set_buffer {[ "T1"%string := sample_entries 2;
                "T2"%string := [entry_T2] ]}
    (new_manager (insert_task task_T2 empty_db)).

Definition error_record : LogRecord :=
  {| levelname := "ERROR"; formatted := "merge data failed";
     stage := None; details := [("rows", "0")]%string |}.

Definition info_record : LogRecord :=
  {| levelname := "INFO"; formatted := "data loaded";
     stage := Some "data_loading"%string;
     details := [("rows", "1200")]%string |}.

Definition sample_uuid_text (n : nat) : string := pretty n.

Definition sample_now (n : nat) : Z := Z.of_nat n.

End LogFlush.

(* ===================================================================== *)
(** * The market data reader                                               *)
(* ===================================================================== *)

Module MarketData.
Import MarketDataReader.

(** A document of [stock_market] or [future_market], with the fields the
    query reads.  [date] is the day ordinal of the document's YYYYMMDD
    text, so the text comparisons of [$gte] and [$lte] are comparisons of
    ordinals. *)
Record market_doc := {
  date : Z;
  symbol : string;
  underlying_symbol : string;
  index_component : string;
  name : string;
  values : list (string * Q)
}.

Record database := {
  stock_market : list market_doc;
  future_market : list market_doc
}.

(** The [query] dict of [_get_chunk_data], key by key. *)
Inductive date_cond :=
| date_is (d : Z)
| date_between (gte lte : Z).

Record query := {
  q_date : date_cond;
  q_index_component : option string;
  q_name_not_regex : option string;
  q_expr_main_contract : bool
}.

Record query_params := {
  symbols : list string;
  fields : list string;
  indicator : string;
  st : bool
}.

Definition index_component_of (indicator : string) : option string :=
  if negb (String.eqb indicator "000985") then
    if String.eqb indicator "000300" then Some "100"%string
    else if String.eqb indicator "000905" then Some "010"%string
    else if String.eqb indicator "000852" then Some "001"%string
    else None
  else None.

Definition is_future (type : string) : bool := String.eqb type "future".

Definition build_query (chunk_dates : chunk) (query_params : query_params)
    (type : string) : query :=
  let start_date := chunk_dates.1 in
  let end_date := chunk_dates.2 in
  {| q_date := if start_date =? end_date then date_is start_date
               else date_between start_date end_date;
     q_index_component := index_component_of (indicator query_params);
     q_name_not_regex := if negb (st query_params) then Some "ST"%string
                         else None;
     q_expr_main_contract := is_future type |}.

(** [projection]: [None] when no fields are asked for. *)
Definition projection_of (fields : list string)
  : option (list (string * Z)) :=
  match fields with
  | [] => None
  | _ =>
      Some (List.map (fun field => (field, 1))
              (fields ++ ["date"; "symbol"]%string)
            ++ (if bool_decide ("_id"%string ∈ fields) then []
                else [("_id"%string, 0)]))
  end.

Definition estimated_doc_size (fields : list string) : Z :=
  match fields with
  | [] => 200
  | _ => Z.of_nat (length fields) * 20
  end.

(** [int(10 * 1024 * 1024 / estimated_doc_size)] is the integer quotient:
    the sizes are positive. *)
Definition target_batch_size (fields : list string) : Z :=
  Z.min (Z.max (10 * 1024 * 1024 / estimated_doc_size fields) 2000) 10000.

(** Which documents a [find(query)] returns. *)
Definition date_matches (c : date_cond) (d : market_doc) : bool :=
  match c with
  | date_is x => date d =? x
  | date_between gte lte => (gte <=? date d) && (date d <=? lte)
  end.

Definition attributes_match (q : query) (d : market_doc) : bool :=
  match q_index_component q with
  | Some c => String.eqb (index_component d) c
  | None => true
  end
  && match q_name_not_regex q with
     | Some r => negb (FactorReader.contains r (name d))
     | None => true
     end
  && (if q_expr_main_contract q
      then String.eqb (symbol d) (underlying_symbol d ++ "88")
      else true).

Definition matches (q : query) (d : market_doc) : bool :=
  date_matches (q_date q) d && attributes_match q d.

(** [symbols] given as one code, [fields] given as one name: both are
    turned into lists. *)
Inductive arg :=
| one (s : string)
| several (l : list string).

Definition listify (a : arg) : list string :=
  match a with
  | one s => [s]
  | several l => l
  end.

Section Reader.

(** A row of the resulting [DataFrame]; what MongoDB's projection makes
    of a document; the row without its [_id] column. *)
Variable row : Type.
Variable project : option (list (string * Z)) -> market_doc -> row.
Variable drop_id : row -> row.

(** The order in which [concurrent.futures.as_completed] hands the
    results over. *)
Variable as_completed : list (option (list row)) -> list (option (list row)).

(** [self.all_symbols], read when the reader is built. *)
Variable all_symbols : list string.

Definition _get_chunk_data (db : database) (chunk_dates : chunk)
    (query_params : query_params) (type : string) : option (list row) :=
  let query := build_query chunk_dates query_params type in
  let projection := projection_of (fields query_params) in
  let collection := if is_future type then future_market db
                    else stock_market db in
  let chunk_df := List.map (project projection)
                    (List.filter (matches query) collection) in
  match chunk_df with
  | [] => None
  | _ => Some (List.map drop_id chunk_df)
  end.

(** The [for future in as_completed(futures)] loop. *)
Fixpoint collect (results : list (option (list row))) (dfs : list (list row))
  : list (list row) :=
  match results with
  | [] => dfs
  | Some (r :: chunk_df) :: rest => collect rest (dfs ++ [r :: chunk_df])
  | _ :: rest => collect rest dfs
  end.

(** The outer [None] is the loop of [_chunk_date_range] out of fuel; the
    inner one is Python's.  Nothing catches the [OverflowError] of
    [_chunk_date_range], so the call raises it too. *)
Definition get_market_data (fuel : nat) (db : database)
    (symbols : option arg) (start_date end_date : option Z)
    (indicator : string) (st : bool) (fields : option arg) (type : string)
  : option (may_overflow (option (list row))) :=
  match start_date, end_date with
  | Some start_date, Some end_date =>
      let symbols := default all_symbols (listify <$> symbols) in
      let fields := default [] (listify <$> fields) in
      let query_params :=
        {| symbols := symbols; fields := fields; indicator := indicator;
           st := st |} in
      date_chunks ←
        _chunk_date_range fuel start_date end_date default_chunk_months;
      match date_chunks with
      | OverflowError => Some OverflowError
      | finished date_chunks =>
          let futures :=
            List.map (fun chunk => _get_chunk_data db chunk query_params type)
              date_chunks in
          match collect (as_completed futures) [] with
          | [] => Some (finished None)
          | dfs => Some (finished (Some (concat dfs)))
          end
      end
  | _, _ => Some (finished None)
  end.

End Reader.

(** Sample data: three documents of the first half of 2024, one of them
    an ST stock outside the CSI 300. *)
Definition doc_jan : market_doc :=
  {| date := 738900; symbol := "000001.SZ"; underlying_symbol := "";
     index_component := "100"; name := "PAYH";
     values := [("close"%string, 10 # 1)] |}.

Definition doc_apr : market_doc :=
  {| date := 738990; symbol := "000002.SZ"; underlying_symbol := "";
     index_component := "100"; name := "WKA";
     values := [("close"%string, 8 # 1)] |}.

Definition doc_st : market_doc :=
  {| date := 738991; symbol := "000003.SZ"; underlying_symbol := "";
     index_component := "000"; name := "*ST GX";
     values := [("close"%string, 2 # 1)] |}.

Definition sample_market : database :=
  {| stock_market := [doc_apr; doc_jan; doc_st]; future_market := [] |}.

Definition sample_project (projection : option (list (string * Z)))
    (d : market_doc) : market_doc :=
  match projection with
  | None => d
  | Some p =>
      {| date := date d; symbol := symbol d;
         underlying_symbol := underlying_symbol d;
         index_component := index_component d; name := name d;
         values := List.filter
                     (fun kv => bool_decide (kv.1 ∈ List.map fst p))
                     (values d) |}
  end.

End MarketData.

(* ===================================================================== *)
(** * Deleting factors and polling for status                              *)
(* ===================================================================== *)

Module FactorQueries.
Import Mongo FactorAnalysisParams FactorAnalysis UserFactorService.

(** [mongo_delete]: [delete_many(query).deleted_count], and what is left
    of the collection. *)
Definition mongo_delete {A} (matches : A -> bool) (c : list A)
  : nat * list A :=
  (length (List.filter matches c),
   List.filter (fun x => negb (matches x)) c).

(** Modelled from the spec: [TaskResult] (the response models are not
    among the sources) holds the fields [query_task_status] gives it. *)
Record TaskResult := {
  tr_process_status : option Z;
  tr_error_message : option string;
  tr_result : option string;
  tr_last_log_message : option string;
  tr_last_log_time : option Z;
  tr_task_id : string;
  tr_factor_id : string;
  tr_user_id : string;
  tr_factor_name : string
}.

Section Queries.

Variable ObjectId : string -> option nat.

Definition delete_factor (factor_id : string) (d : db)
  : response string * db :=
  validate_object_id ObjectId factor_id (fun object_id =>
    let result := mongo_delete (oid_is object_id) (user_factors d) in
    let d := with_user_factors (fun _ => result.2) d in
    if (0 <? result.1)%nat then (success factor_id, d)
    else (fail "404" "未找到用户因子", d)) d.

(** The answer carries [status] and [task_id]. *)
Definition query_factor_status (factor_id : string) (d : db)
  : response (Z * string) :=
  (validate_object_id ObjectId factor_id (fun object_id =>
     match List.filter (oid_is object_id) (user_factors d) with
     | [] => (fail "404" "未找到指定因子", d)
     | factor :: _ =>
         (success (f_status factor,
                   default "unknown"%string (f_current_task_id factor)), d)
     end) d).1.

Definition query_task_status (task_id : string) (d : db)
  : response TaskResult :=
  match List.filter (task_is task_id) (tasks d) with
  | [] => fail "404" "未找到指定任务"
  | task :: _ =>
      success {| tr_process_status := t_process_status task;
                 tr_error_message := t_error_message task;
                 tr_result := t_result task;
                 tr_last_log_message := t_last_log_message task;
                 tr_last_log_time := t_last_log_time task;
                 tr_task_id := t_task_id task;
                 tr_factor_id := t_factor_id task;
                 tr_user_id := t_user_id task;
                 tr_factor_name := t_factor_name task |}
  end.

End Queries.

(** [mongo_find_one("panda", "factor_analysis_results", {"task_id": ..})],
    the lookup of every chart and table query. *)
Definition find_result (task_id : string) (d : db) : option result_doc :=
  List.find (fun r => String.eqb (r_task_id r) task_id)
    (factor_analysis_results d).

(** What one write of a run makes of a task record and of a factor. *)
Definition task_after (w : write) (t : task_doc) : task_doc :=
  match w with
  | set_process_status id v =>
      if task_is id t then task_set_process_status v t else t
  | set_failed id msg => if task_is id t then task_set_failed msg t else t
  | set_task_status id v result error =>
      if task_is id t then task_set_status v result error t else t
  | _ => t
  end.

Definition factor_after (w : write) (f : factor_doc) : factor_doc :=
  match w with
  | set_factor_status oid v current result =>
      if factor_is oid f then factor_set_status v current result f else f
  | _ => f
  end.

(** The [process_status] a reader finds on the records of a task. *)
Definition read_process_status (d : db) (task_id : string)
  : list (option Z) :=
  List.map t_process_status (List.filter (task_is task_id) (tasks d)).

(** A write that, when it is one on [tasks], names the task. *)
Definition for_task (task_id : string) (w : write) : Prop :=
  match w with
  | set_process_status id _ | set_failed id _ | set_task_status id _ _ _ =>
      id = task_id
  | _ => True
  end.

(** The ways a run fails: the factor data cannot be had, or a step of
    the analysis raises. *)
Definition run_fails (o : oracle) (fd : factor_data) : Prop :=
  match fd with
  | data_raises _ | data_none => True
  | data_empty => False
  | data_rows => exists s e, raises o s = Some e
  end.

(** Sample data: a factor whose parameters pass validation, alone in the
    store, and a run whose bundle has metrics. *)
Definition valid_params : params_dict :=
  {| pd_start_date := Some "2024-01-01"%string;
     pd_end_date := Some "2024-03-01"%string;
     pd_adjustment_cycle := Some 5;
     pd_stock_pool := Some "000300"%string;
     pd_factor_direction := Some true;
     pd_group_number := Some 5;
     pd_include_st := Some false;
     pd_extreme_value_processing := Some "std"%string |}.

Definition valid_factor : factor_doc :=
  {| f_oid := 0; f_user_id := "2"; f_name := "Grail";
     f_factor_name := "Grail"; f_code := "close / open - 1";
     f_code_type := "formula"; f_params := Some valid_params; f_status := 0;
     f_current_task_id := None; f_result := None |}.

Definition valid_db : db :=
  {| user_factors := [valid_factor]; tasks := [];
     factor_analysis_stage_logs := []; factor_analysis_results := [];
     next_oid := 1 |}.

Definition other_request : CreateFactorRequest :=
  {| user_id := "2"; name := "Momentum"; factor_name := "Momentum";
     code := "close / delay(close, 20) - 1"; code_type := "formula";
     status := 0; params := Some valid_params |}.


End FactorQueries.

(* ===================================================================== *)
(** * The chat service                                                     *)
(* ===================================================================== *)

Module ChatService.

(** [panda_llm.models.chat]: the two pydantic models. *)
Record Message := {
  m_role : string;
  m_content : string;
  m_timestamp : string
}.

Record ChatSession := {
  s_id : string;
  s_user_id : string;
  s_messages : list Message;
  s_created_at : string;
  s_updated_at : string
}.

(** A document of collection [chat_sessions]: the fields of
    [session.dict()] under the [_id] of the document, which is an
    ObjectId when the driver has made it and any value, here a text, when
    the document came with one. *)
Inductive doc_id : Type :=
| by_oid (o : nat)
| by_text (s : string).

#[export] Instance doc_id_eq_dec : EqDecision doc_id.
Proof. solve_decision. Defined.

Record session_doc := {
  d_id : doc_id;
  d_body : ChatSession
}.

(** A message as the API of the model takes it: [{"role": .., "content":
    ..}]. *)
Record chat_entry := {
  e_role : string;
  e_content : string
}.

(** What a call works on: the collection with the ordinal of the next
    ObjectId, the number of [uuid.uuid4()] draws and of
    [datetime.now()] readings so far, and the requests that have gone to
    the model, oldest first. *)
Record world := {
  chat_sessions : list session_doc;
  next_oid : nat;
  uuids : nat;
  clock : nat;
  requests : list (list chat_entry)
}.

Inductive error : Type :=
| ValueError (text : string)
| ApiError (text : string).

Inductive result (A : Type) : Type :=
| returned (a : A)
| raised (e : error).
Arguments returned {A} a.
Arguments raised {A} e.

(** A call returns or raises, and leaves a world either way. *)
Definition Chat (A : Type) : Type := world -> result A * world.

Definition ret {A} (a : A) : Chat A := fun w => (returned a, w).

Definition bind {A B} (k : A -> Chat B) (c : Chat A) : Chat B :=
  fun w => match c w with
           | (returned a, w') => k a w'
           | (raised e, w') => (raised e, w')
           end.

#[export] Instance Chat_ret : MRet Chat := @ret.
#[export] Instance Chat_bind : MBind Chat := @bind.

Definition raise {A} (e : error) : Chat A := fun w => (raised e, w).

Definition with_sessions (f : list session_doc -> list session_doc)
    (w : world) : world :=
  {| chat_sessions := f (chat_sessions w); next_oid := next_oid w;
     uuids := uuids w; clock := clock w; requests := requests w |}.

Definition with_messages (l : list Message) (s : ChatSession) : ChatSession :=
  {| s_id := s_id s; s_user_id := s_user_id s; s_messages := l;
     s_created_at := s_created_at s; s_updated_at := s_updated_at s |}.

(** [session.messages.append(msg)]. *)
Definition append_message (msg : Message) (s : ChatSession) : ChatSession :=
  with_messages (s_messages s ++ [msg]) s.

Definition has_id (k : doc_id) (d : session_doc) : bool :=
  bool_decide (d_id d = k).

(** [update_one(query, {"$set": session.dict()})]: the first document
    the query matches takes the five fields of the session and keeps its
    [_id]; without a match nothing is written. *)
Fixpoint update_one (k : doc_id) (s : ChatSession) (docs : list session_doc)
  : list session_doc :=
  match docs with
  | [] => []
  | d :: rest =>
      if has_id k d then {| d_id := d_id d; d_body := s |} :: rest
      else d :: update_one k s rest
  end.

(** [delete_one(query)]: the first match goes. *)
Fixpoint delete_one (k : doc_id) (docs : list session_doc)
  : list session_doc :=
  match docs with
  | [] => []
  | d :: rest => if has_id k d then rest else d :: delete_one k rest
  end.

(** The message of a pydantic model as the comprehension of
    [process_message_stream] writes it. *)
Definition dict_of (m : Message) : gmap string string :=
  {[ "role"%string := m_role m; "content"%string := m_content m ]}.

(** What [_prepare_messages] is handed: model objects or dicts. *)
Inductive message_arg : Type :=
| as_object (m : Message)
| as_dict (d : gmap string string).

Section Service.

(** [bson.ObjectId(text)]: the ObjectId a text of 24 hex digits names,
    [None] where the constructor raises; and [str] of an ObjectId. *)
Variable ObjectId : string -> option nat.
Variable oid_text : nat -> string.

(** [str(uuid.uuid4())] for the n-th draw and
    [datetime.now().isoformat()] for the n-th reading. *)
Variable uuid_text : nat -> string.
Variable now : nat -> string.

(** The system prompt, a constant text of [LLMService.__init__]. *)
Variable system_content : string.

(** [client.chat.completions.create] with [stream=False]: the [content]
    of the first choice, which may be [None], unless the call raises; and
    with [stream=True]: the [delta.content] of the chunks that arrive,
    and the exception, if any, that ends the iteration.  Building the
    client ([LLMService()]) and the calls of the Mongo driver are taken
    to succeed. *)
Variable completions_create : list chat_entry -> result (option string).
Variable completions_stream :
  list chat_entry -> list (option string) * option error.

Definition uuid4 : Chat string :=
  fun w => (returned (uuid_text (uuids w)),
            {| chat_sessions := chat_sessions w; next_oid := next_oid w;
               uuids := S (uuids w); clock := clock w;
               requests := requests w |}).

Definition now_isoformat : Chat string :=
  fun w => (returned (now (clock w)),
            {| chat_sessions := chat_sessions w; next_oid := next_oid w;
               uuids := uuids w; clock := S (clock w);
               requests := requests w |}).

Definition sent (formatted : list chat_entry) (w : world) : world :=
  {| chat_sessions := chat_sessions w; next_oid := next_oid w;
     uuids := uuids w; clock := clock w;
     requests := requests w ++ [formatted] |}.

(** ** [MongoDBService] *)

(** The query the three keyed methods build: [{"_id":
    ObjectId(session_id)}], or [{"_id": session_id}] when the text is no
    ObjectId. *)
Definition query_of (session_id : string) : doc_id :=
  match ObjectId session_id with
  | Some o => by_oid o
  | None => by_text session_id
  end.

(** [insert_one(session.dict())]: the dict has no [_id], so the driver
    makes one. *)
Definition create_chat_session (session : ChatSession) : Chat string :=
  fun w => (returned (oid_text (next_oid w)),
            {| chat_sessions :=
                 chat_sessions w
                 ++ [{| d_id := by_oid (next_oid w); d_body := session |}];
               next_oid := S (next_oid w); uuids := uuids w;
               clock := clock w; requests := requests w |}).

Definition get_chat_session (session_id : string)
  : Chat (option ChatSession) :=
  fun w => (returned
              (option_map d_body
                 (List.find (has_id (query_of session_id))
                    (chat_sessions w))), w).

Definition update_chat_session (session_id : string) (session : ChatSession)
  : Chat unit :=
  fun w => (returned tt,
            with_sessions (update_one (query_of session_id) session) w).

Definition delete_chat_session (session_id : string) : Chat unit :=
  fun w => (returned tt, with_sessions (delete_one (query_of session_id)) w).

Definition get_user_sessions_of (user_id : string) : Chat (list ChatSession) :=
  fun w => (returned
              (List.map d_body
                 (List.filter
                    (fun d => bool_decide (s_user_id (d_body d) = user_id))
                    (chat_sessions w))), w).

(** ** [LLMService] *)

Definition system_message : chat_entry :=
  {| e_role := "system"; e_content := system_content |}.

(** The loop of [_prepare_messages]: an object gives its [role] and
    [content], a dict with both keys gives theirs, anything else is
    left out. *)
Definition formatted_of (msg : message_arg) : option chat_entry :=
  match msg with
  | as_object m => Some {| e_role := m_role m; e_content := m_content m |}
  | as_dict d =>
      match d !! "role"%string, d !! "content"%string with
      | Some r, Some c => Some {| e_role := r; e_content := c |}
      | _, _ => None
      end
  end.

Definition _prepare_messages (messages : list message_arg)
  : list chat_entry :=
  system_message :: omap formatted_of messages.

Definition chat_completion (messages : list message_arg) : Chat string :=
  fun w =>
    let formatted_messages := _prepare_messages messages in
    let w' := sent formatted_messages w in
    match completions_create formatted_messages with
    | returned (Some content) => (returned content, w')
    | returned None => (returned ""%string, w')
    | raised e => (raised e, w')
    end.

(** The chunks [chat_completion_stream] yields: those with a content
    that is neither [None] nor empty. *)
Definition yielded (chunks : list (option string)) : list string :=
  List.filter (fun c => negb (String.eqb c ""))
    (omap (fun c => c) chunks).

(** ** [ChatService] *)

Definition process_message (session_id user_message user_id : string)
  : Chat string :=
  found ← get_chat_session session_id;
  session ← match found with
             | Some session => mret session
             | None =>
                 id ← uuid4;
                 created_at ← now_isoformat;
                 updated_at ← now_isoformat;
                 let session :=
                   {| s_id := id; s_user_id := user_id; s_messages := [];
                      s_created_at := created_at;
                      s_updated_at := updated_at |} in
                 _ ← create_chat_session session;
                 mret session
             end;
  timestamp ← now_isoformat;
  let user_msg := {| m_role := "user"; m_content := user_message;
                     m_timestamp := timestamp |} in
  let session := append_message user_msg session in
  _ ← update_chat_session (s_id session) session;
  ai_response ← chat_completion (List.map as_object (s_messages session));
  timestamp ← now_isoformat;
  let ai_msg := {| m_role := "assistant"; m_content := ai_response;
                   m_timestamp := timestamp |} in
  let session := append_message ai_msg session in
  _ ← update_chat_session (s_id session) session;
  mret ai_response.

Definition get_session_messages (session_id : string) : Chat (list Message) :=
  found ← get_chat_session session_id;
  mret (match found with
        | Some session => s_messages session
        | None => []
        end).

Definition clear_session (session_id : string) : Chat unit :=
  delete_chat_session session_id.

(** [if session_id:] on an optional text. *)
Definition given (session_id : option string) : option string :=
  match session_id with
  | Some text => if String.eqb text "" then None else Some text
  | None => None
  end.

(** [process_message_stream] up to the call of the model: the session
    it goes on with. *)
Definition open_session (user_id message : string)
    (session_id : option string) : Chat ChatSession :=
  timestamp ← now_isoformat;
  let user_message := {| m_role := "user"; m_content := message;
                         m_timestamp := timestamp |} in
  session ← match given session_id with
             | Some session_id =>
                 found ← get_chat_session session_id;
                 match found with
                 | Some session => mret session
                 | None => raise (ValueError ("会话不存在: " ++ session_id))
                 end
             | None =>
                 id ← uuid4;
                 created_at ← now_isoformat;
                 updated_at ← now_isoformat;
                 let session :=
                   {| s_id := id; s_user_id := user_id;
                      s_messages := [user_message];
                      s_created_at := created_at;
                      s_updated_at := updated_at |} in
                 _ ← create_chat_session session;
                 mret session
             end;
  let session := append_message user_message session in
  _ ← update_chat_session (s_id session) session;
  mret session.

(** The generator run to its end: the chunks it yields, and how it ends.
    Nothing is written between the chunks; the answer is appended after
    the last one. *)
Definition process_message_stream (user_id message : string)
    (session_id : option string) (w : world)
  : list string * result unit * world :=
  match open_session user_id message session_id w with
  | (raised e, w1) => ([], raised e, w1)
  | (returned session, w1) =>
      let messages := List.map (fun msg => as_dict (dict_of msg))
                        (s_messages session) in
      let formatted_messages := _prepare_messages messages in
      let w2 := sent formatted_messages w1 in
      let (chunks, failure) := completions_stream formatted_messages in
      match failure with
      | Some e => (yielded chunks, raised e, w2)
      | None =>
          let full_response := String.concat "" (yielded chunks) in
          let (r, w3) :=
            (timestamp ← now_isoformat;
             let ai_msg := {| m_role := "assistant";
                              m_content := full_response;
                              m_timestamp := timestamp |} in
             let session := append_message ai_msg session in
             update_chat_session (s_id session) session) w2 in
          (yielded chunks, r, w3)
      end
  end.

(** [sessions[:limit]] of the user's sessions. *)
Definition get_user_sessions (user_id : string) (limit : Z)
  : Chat (list ChatSession) :=
  sessions ← get_user_sessions_of user_id;
  mret (Py.slice sessions 0 limit).

End Service.

(** A collection that only this service has written: every [_id] is an
    ObjectId the driver has handed out, no two alike, and every session
    id a [uuid4] text. *)
Record made_by_service (uuid_text : nat -> string) (w : world) : Prop := {
  made_oid : forall d, In d (chat_sessions w) ->
                       exists o, d_id d = by_oid o /\ (o < next_oid w)%nat;
  made_uuid : forall d, In d (chat_sessions w) ->
                        exists n, s_id (d_body d) = uuid_text n;
  made_distinct : NoDup (List.map d_id (chat_sessions w))
}.

(** What a uuid4 text is not: empty, or an ObjectId. *)
Definition uuid_texts (ObjectId : string -> option nat)
    (uuid_text : nat -> string) : Prop :=
  forall n, ObjectId (uuid_text n) = None /\ uuid_text n <> ""%string.

Definition entry_of (m : Message) : chat_entry :=
  {| e_role := m_role m; e_content := m_content m |}.

(** Samples: ObjectIds are the texts [o], [ox], [oxx], .., uuids the
    texts [u0], [u1], ... *)
Definition sample_ObjectId (text : string) : option nat :=
  match text with
  | String "o" rest =>
      if forallb (fun c => Ascii.eqb c "x") (list_ascii_of_string rest)
      then Some (String.length rest) else None
  | _ => None
  end.

Fixpoint xs (n : nat) : string :=
  match n with
  | O => ""
  | S n' => String "x" (xs n')
  end.

Definition sample_oid_text (n : nat) : string := String "o" (xs n).

Definition sample_uuid_text (n : nat) : string := String "u" (pretty n).

Definition sample_now (n : nat) : string := pretty n.

Definition sample_create (l : list chat_entry) : result (option string) :=
  returned (Some "RANK(CLOSE)"%string).

Definition sample_stream (l : list chat_entry)
  : list (option string) * option error :=
  ([Some "RANK"%string; None; Some ""%string; Some "(CLOSE)"%string], None).

Definition empty_world : world :=
  {| chat_sessions := []; next_oid := 0; uuids := 0; clock := 0;
     requests := [] |}.

Definition sample_system_content : string :=
  "You are PandaAI Factor Development Assistant".

(** The world after one streamed question of [user1] that opened a
    session. *)
Definition asked_session : ChatSession :=
  {| s_id := "u0"; s_user_id := "user1";
     s_messages := [{| m_role := "user"; m_content := "momentum?";
                       m_timestamp := "0" |}];
     s_created_at := "1"; s_updated_at := "2" |}.

Definition asked_world : world :=
  {| chat_sessions := [{| d_id := by_oid 0; d_body := asked_session |}];
     next_oid := 1; uuids := 1; clock := 4;
     requests := [[{| e_role := "system";
                      e_content := sample_system_content |};
                   {| e_role := "user"; e_content := "momentum?" |};
                   {| e_role := "user"; e_content := "momentum?" |}]] |}.

End ChatService.

(* ===================================================================== *)
(** * Theorems                                                             *)
(* ===================================================================== *)

(** ** Range chunking *)

Section ChunkDateRange.
Import MarketDataReader.

Lemma tiles_nonempty w a b cs : tiles w a b cs -> cs <> [].
Proof. destruct 1; discriminate. Qed.

Lemma tiles_head w a b cs :
  tiles w a b cs -> exists c cs', cs = c :: cs' /\ c.1 = a.
Proof. destruct 1; eauto. Qed.

Lemma tiles_last_end w a b cs :
  tiles w a b cs -> exists cs' c, cs = cs' ++ [c] /\ c.2 = b.
Proof.
  induction 1 as [a b Hab Hw | a b cs Hlt Ht (cs' & c & -> & Hc)].
  - exists [], (a, b). split; reflexivity.
  - exists ((a, a + w - 1) :: cs'), c. split; [reflexivity | exact Hc].
Qed.

Lemma tiles_width_pos w a b cs : tiles w a b cs -> 1 <= w.
Proof. induction 1; lia. Qed.

(** Every day of the range lies in some window, and only those days. *)
Lemma tiles_cover w a b cs :
  tiles w a b cs ->
  forall d, a <= d <= b <-> exists c, In c cs /\ in_chunk d c.
Proof.
  unfold in_chunk.
  induction 1 as [a b Hab Hw | a b cs Hlt Ht IH]; intros d; split.
  - intros Hd. exists (a, b). split; [left; reflexivity | exact Hd].
  - intros (c & [<- | []] & Hd). exact Hd.
  - intros Hd. destruct (Z_lt_le_dec d (a + w)) as [Hl | Hr].
    + exists (a, a + w - 1). split; [left; reflexivity | simpl; lia].
    + destruct (proj1 (IH d)) as (c & Hin & Hc); [lia |].
      exists c. split; [right; exact Hin | exact Hc].
  - intros (c & [<- | Hin] & Hd).
    + simpl in Hd. lia.
    + assert (a + w <= d <= b) by (apply IH; eauto).
      pose proof (tiles_width_pos _ _ _ _ Ht). lia.
Qed.

(** Each window starts the day after the previous one ends. *)
Lemma tiles_adjacent w a b (cs : list chunk) :
  tiles w a b cs ->
  forall (i : nat) c1 c2,
    cs !! i = Some c1 -> cs !! S i = Some c2 -> c2.1 = c1.2 + 1.
Proof.
  induction 1 as [a b Hab Hw | a b cs Hlt Ht IH]; intros i c1 c2 H1 H2.
  - destruct i; discriminate.
  - destruct i as [| i]; simpl in H1, H2.
    + injection H1 as <-.
      destruct (tiles_head _ _ _ _ Ht) as (c & cs' & -> & Hc).
      simpl in H2. injection H2 as <-. simpl. lia.
    + eapply IH; eassumption.
Qed.

(** Every window lies inside the range it tiles. *)
Lemma tiles_bounds w a b (cs : list chunk) :
  tiles w a b cs ->
  forall (i : nat) c, cs !! i = Some c -> a <= c.1 /\ c.1 <= c.2 /\ c.2 <= b.
Proof.
  induction 1 as [a b Hab Hw | a b cs Hlt Ht IH]; intros i c Hi.
  - destruct i; [| discriminate]. injection Hi as <-. simpl. lia.
  - pose proof (tiles_width_pos _ _ _ _ Ht) as Hpos.
    destruct i as [| i]; simpl in Hi.
    + injection Hi as <-. simpl. lia.
    + destruct (IH _ _ Hi) as (? & ? & ?). lia.
Qed.

(** Windows at different positions share no day. *)
Lemma tiles_disjoint w a b (cs : list chunk) :
  tiles w a b cs ->
  forall (i j : nat) c1 c2,
    (i < j)%nat -> cs !! i = Some c1 -> cs !! j = Some c2 -> c1.2 < c2.1.
Proof.
  induction 1 as [a b Hab Hw | a b cs Hlt Ht IH]; intros i j c1 c2 Hij H1 H2.
  - destruct j; [lia |]. discriminate.
  - destruct j as [| j]; [lia |]. simpl in H2.
    destruct i as [| i]; simpl in H1.
    + injection H1 as <-. simpl.
      destruct (tiles_bounds _ _ _ _ Ht _ _ H2) as (? & _). lia.
    + apply (IH i j); [lia | assumption | assumption].
Qed.

(** All windows but the last span exactly [w] days; the last at most. *)
Lemma tiles_width w a b (cs : list chunk) :
  tiles w a b cs ->
  forall (i : nat) c, cs !! i = Some c ->
    c.2 <= c.1 + w - 1 /\ ((S i < length cs)%nat -> c.2 = c.1 + w - 1).
Proof.
  induction 1 as [a b Hab Hw | a b cs Hlt Ht IH]; intros i c Hi.
  - destruct i; [| discriminate]. injection Hi as <-. simpl. split; [lia |].
    intros; lia.
  - destruct i as [| i]; simpl in Hi.
    + injection Hi as <-. simpl. split; [lia | reflexivity].
    + destruct (IH _ _ Hi) as (? & Hn). split; [assumption |].
      intros Hlen. apply Hn. simpl in Hlen. lia.
Qed.

Lemma plus_days_date d n :
  1 <= d + n <= date_max -> plus_days d n = Some (d + n).
Proof.
  intros H. unfold plus_days.
  destruct (Z.leb_spec 1 (d + n)); [| lia].
  destruct (Z.leb_spec (d + n) date_max); [reflexivity | lia].
Qed.

Lemma plus_days_beyond d n : date_max < d + n -> plus_days d n = None.
Proof.
  intros H. unfold plus_days.
  destruct (Z.leb_spec (d + n) date_max); [lia |].
  rewrite andb_false_r. reflexivity.
Qed.

Lemma last_start_near w s e :
  1 <= w -> s <= e -> e <= s + w - 1 -> last_start w s e = s.
Proof.
  intros Hw Hse Hfit. unfold last_start.
  rewrite Z.div_small by lia. lia.
Qed.

Lemma last_start_next w s e :
  1 <= w -> last_start w (s + w) e = last_start w s e.
Proof.
  intros Hw. unfold last_start.
  replace (e - (s + w)) with (e - s + (-1) * w) by lia.
  rewrite Z.div_add by lia. lia.
Qed.

(** That window starts no later than [e], so its nominal end is a date
    whenever [e + w - 1] is one. *)
Lemma last_start_le w s e : 1 <= w -> s <= e -> last_start w s e <= e.
Proof.
  intros Hw Hse. unfold last_start.
  pose proof (Z.mul_div_le (e - s) w ltac:(lia)). lia.
Qed.

(** The loop, started at a date [s <= e] with enough fuel, appends a
    tiling of [s..e] to what it was given, provided the nominal end of
    the last window is a date. *)
Lemma chunk_loop_tiles cm (Hcm : 1 <= cm) fuel :
  forall s e acc,
    1 <= s -> s <= e -> (Z.to_nat (e - s) < fuel)%nat ->
    last_start (cm * 30) s e + (cm * 30 - 1) <= date_max ->
    exists cs, chunk_loop fuel cm s e acc = Some (finished (acc ++ cs))
               /\ tiles (cm * 30) s e cs.
Proof.
  induction fuel as [| fuel IH]; intros s e acc Hs Hse Hfuel Hlast; [lia |].
  cbn [chunk_loop]. destruct (Z.leb_spec s e) as [_ | ?]; [| lia].
  destruct (Z.le_gt_cases e (s + (cm * 30 - 1))) as [Hfit | Hmore].
  - rewrite last_start_near in Hlast by lia.
    rewrite plus_days_date by lia. cbv zeta.
    rewrite Z.min_r by lia.
    destruct (Z.geb_spec e e) as [_ | ?]; [| lia].
    exists [(s, e)]. split; [reflexivity |].
    constructor; lia.
  - assert (Hle : s + cm * 30 <= last_start (cm * 30) s e).
    { rewrite <- (last_start_next (cm * 30) s e) by lia.
      unfold last_start.
      assert (0 <= (e - (s + cm * 30)) / (cm * 30))
        by (apply Z.div_pos; lia).
      nia. }
    rewrite plus_days_date by lia. cbv zeta.
    rewrite Z.min_l by lia.
    destruct (Z.geb_spec (s + (cm * 30 - 1)) e) as [? | _]; [lia |].
    rewrite plus_days_date by lia.
    destruct (IH (s + (cm * 30 - 1) + 1) e (acc ++ [(s, s + (cm * 30 - 1))]))
      as (cs & Hrun & Ht); [lia | lia | lia | |].
    { replace (s + (cm * 30 - 1) + 1) with (s + cm * 30) by lia.
      rewrite last_start_next by lia. exact Hlast. }
    exists ((s, s + (cm * 30 - 1)) :: cs). split.
    + rewrite Hrun, <- app_assoc. reflexivity.
    + replace (s + (cm * 30 - 1)) with (s + cm * 30 - 1) by lia.
      constructor; [lia |].
      replace (s + cm * 30) with (s + (cm * 30 - 1) + 1) by lia. exact Ht.
Qed.

(** And when that nominal end lies beyond [date_max], the loop raises
    on reaching the last window. *)
Lemma chunk_loop_overflows cm (Hcm : 1 <= cm) fuel :
  forall s e acc,
    1 <= s -> s <= e -> e <= date_max ->
    (Z.to_nat (e - s) < fuel)%nat ->
    date_max < last_start (cm * 30) s e + (cm * 30 - 1) ->
    chunk_loop fuel cm s e acc = Some OverflowError.
Proof.
  induction fuel as [| fuel IH]; intros s e acc Hs Hse He Hfuel Hlast;
    [lia |].
  cbn [chunk_loop]. destruct (Z.leb_spec s e) as [_ | ?]; [| lia].
  destruct (Z.le_gt_cases e (s + (cm * 30 - 1))) as [Hfit | Hmore].
  - rewrite last_start_near in Hlast by lia.
    rewrite plus_days_beyond by lia. reflexivity.
  - rewrite plus_days_date by lia. cbv zeta.
    rewrite Z.min_l by lia.
    destruct (Z.geb_spec (s + (cm * 30 - 1)) e) as [? | _]; [lia |].
    rewrite plus_days_date by lia.
    apply IH; [lia | lia | lia | lia |].
    replace (s + (cm * 30 - 1) + 1) with (s + cm * 30) by lia.
    rewrite last_start_next by lia. exact Hlast.
Qed.

Lemma chunk_date_range_tiles cm (Hcm : 1 <= cm) s e fuel :
  1 <= s -> s <= e -> (chunk_fuel s e <= fuel)%nat ->
  s = e \/ last_start (cm * 30) s e + (cm * 30 - 1) <= date_max ->
  exists cs, _chunk_date_range fuel s e cm = Some (finished cs)
             /\ tiles (cm * 30) s e cs.
Proof.
  intros Hs Hse Hfuel Hlast. unfold _chunk_date_range, chunk_fuel in *.
  destruct (Z.eqb_spec s e) as [-> | Hne].
  - exists [(e, e)]. split; [reflexivity |]. constructor; lia.
  - destruct Hlast as [? | Hlast]; [contradiction |].
    destruct (chunk_loop_tiles cm Hcm fuel s e []) as (cs & Hrun & Ht);
      [lia | lia | lia | exact Hlast |].
    exists cs. split; [exact Hrun | exact Ht].
Qed.

Lemma chunk_date_range_overflows cm (Hcm : 1 <= cm) s e fuel :
  1 <= s -> s < e -> e <= date_max -> (chunk_fuel s e <= fuel)%nat ->
  date_max < last_start (cm * 30) s e + (cm * 30 - 1) ->
  _chunk_date_range fuel s e cm = Some OverflowError.
Proof.
  intros Hs Hse He Hfuel Hlast. unfold _chunk_date_range, chunk_fuel in *.
  destruct (Z.eqb_spec s e) as [? | _]; [lia |].
  apply (chunk_loop_overflows cm Hcm); [lia | lia | lia | lia | exact Hlast].
Qed.

Lemma tiles_windows_ok w a b cs : tiles w a b cs -> windows_ok w a b cs.
Proof.
  intros Ht. constructor.
  - exact (tiles_head _ _ _ _ Ht).
  - exact (tiles_last_end _ _ _ _ Ht).
  - exact (tiles_adjacent _ _ _ _ Ht).
  - exact (tiles_disjoint _ _ _ _ Ht).
  - exact (tiles_cover _ _ _ _ Ht).
  - intros i c Hi.
    destruct (tiles_bounds _ _ _ _ Ht _ _ Hi) as (_ & ? & _).
    destruct (tiles_width _ _ _ _ Ht _ _ Hi) as (? & ?). auto.
Qed.

Lemma tiles_unique w a b cs1 :
  tiles w a b cs1 -> forall cs2, tiles w a b cs2 -> cs1 = cs2.
Proof.
  induction 1 as [a b Hab Hw | a b cs Hlt Ht IH]; intros cs2 H2;
    inversion H2; subst; try lia; [reflexivity |].
  f_equal. apply IH. assumption.
Qed.

Example ordinals_2024 :
  toordinal 2024 1 1 = 738886 /\ toordinal 2024 3 30 = 738975
  /\ toordinal 2024 3 31 = 738976 /\ toordinal 2024 12 31 = 739251.
Proof. repeat split; reflexivity. Qed.

Example ordinals_of_bounds :
  toordinal 1000 1 1 = year_1000 /\ toordinal 9999 12 31 = date_max
  /\ toordinal 9999 11 1 = 3651999 /\ toordinal 9999 10 3 = 3651970.
Proof. repeat split; reflexivity. Qed.

(** The 2024 calendar year, as ordinals: 20240101 is day 738886 and
    20241231 is day 739251.  Four windows of 90 days (the first ends on
    20240330) and a last one of 6. *)
Example chunk_date_range_2024 :
  _chunk_date_range 10 738886 739251 default_chunk_months
  = Some (finished [(738886, 738975); (738976, 739065); (739066, 739155);
                    (739156, 739245); (739246, 739251)]).
Proof. reflexivity. Qed.

(** C6.  For dates of the years 1000 to 9999 with [start <= end]:
    when [start = end], or when the window that holds [end] has its
    nominal end (its start plus 89 days) no later than 9999-12-31,
    [_chunk_date_range] returns (with any fuel from [chunk_fuel] on,
    always the same list) a list of windows that begins at [start], ends
    at [end], is adjacent and non-overlapping, covers exactly the days of
    [start..end], and has windows of 90 days (three months of 30 days)
    except for the last, which is cut at [end]; when [start = end] the
    list is the single window [(start, end)].  Otherwise, with
    [start < end] and that nominal end beyond 9999-12-31, the call
    raises [OverflowError] and returns no window. *)
Theorem chunk_date_range_spec (start_date end_date : Z) :
  year_1000 <= start_date ->
  start_date <= end_date ->
  end_date <= date_max ->
  (start_date = end_date
   \/ last_start 90 start_date end_date + 89 <= date_max ->
   exists cs,
     (forall fuel, (chunk_fuel start_date end_date <= fuel)%nat ->
        _chunk_date_range fuel start_date end_date default_chunk_months
        = Some (finished cs))
     /\ windows_ok 90 start_date end_date cs
     /\ (start_date = end_date -> cs = [(start_date, end_date)]))
  /\ (start_date < end_date ->
      date_max < last_start 90 start_date end_date + 89 ->
      forall fuel, (chunk_fuel start_date end_date <= fuel)%nat ->
        _chunk_date_range fuel start_date end_date default_chunk_months
        = Some OverflowError).
Proof.
  intros Hyear Hse Hmax.
  assert (Hs : 1 <= start_date) by (unfold year_1000 in Hyear; lia).
  assert (Hcm : 1 <= default_chunk_months) by (unfold default_chunk_months; lia).
  split.
  - intros Hlast.
    destruct (chunk_date_range_tiles _ Hcm start_date end_date
                (chunk_fuel start_date end_date) Hs Hse (le_n _) Hlast)
      as (cs & _ & Ht).
    exists cs. split; [| split].
    + intros fuel Hfuel.
      destruct (chunk_date_range_tiles _ Hcm start_date end_date fuel Hs Hse
                  Hfuel Hlast) as (cs' & Hrun & Ht').
      rewrite Hrun. do 2 f_equal. exact (tiles_unique _ _ _ _ Ht' _ Ht).
    + apply tiles_windows_ok. exact Ht.
    + intros ->. apply (tiles_unique _ _ _ _ Ht). constructor; lia.
  - intros Hlt Hlast fuel Hfuel.
    apply (chunk_date_range_overflows _ Hcm); [lia | lia | lia | lia |].
    exact Hlast.
Qed.

Lemma chunk_date_range_spec_witness :
  year_1000 <= 738886 /\ 738886 <= 739251 /\ 739251 <= date_max /\
  (738886 = 739251 \/ last_start 90 738886 739251 + 89 <= date_max) /\
  exists cs,
    (forall fuel, (chunk_fuel 738886 739251 <= fuel)%nat ->
       _chunk_date_range fuel 738886 739251 default_chunk_months
       = Some (finished cs))
    /\ windows_ok 90 738886 739251 cs
    /\ (738886 = 739251 -> cs = [(738886, 739251)]).
Proof.
  assert (H1 : year_1000 <= 738886) by (unfold year_1000; lia).
  assert (H2 : 739251 <= date_max) by (unfold date_max; lia).
  assert (H3 : 738886 = 739251
               \/ last_start 90 738886 739251 + 89 <= date_max)
    by (right; vm_compute; discriminate).
  split; [exact H1 |]. split; [lia |]. split; [exact H2 |].
  split; [exact H3 |].
  apply (proj1 (chunk_date_range_spec 738886 739251 H1 ltac:(lia) H2)).
  exact H3.
Defined.

(** The pair 9999-11-01, 9999-12-31 is a valid pair with [start < end],
    and the call returns no windows for it: the first window's nominal
    end, 89 days after the start, is past [datetime.max], and the
    addition raises before [min] can cut the window at [end]. *)
Lemma chunk_date_range_overflow_counterexample :
  year_1000 <= toordinal 9999 11 1
  /\ toordinal 9999 11 1 <= toordinal 9999 12 31
  /\ toordinal 9999 12 31 <= date_max
  /\ (forall fuel, (1 <= fuel)%nat ->
        _chunk_date_range fuel (toordinal 9999 11 1) (toordinal 9999 12 31)
          default_chunk_months
        = Some OverflowError)
  /\ ~ exists cs,
        (forall fuel,
           (chunk_fuel (toordinal 9999 11 1) (toordinal 9999 12 31) <= fuel)%nat ->
           _chunk_date_range fuel (toordinal 9999 11 1)
             (toordinal 9999 12 31) default_chunk_months
           = Some (finished cs))
        /\ windows_ok 90 (toordinal 9999 11 1) (toordinal 9999 12 31) cs.
Proof.
  assert (Hrun : forall fuel, (1 <= fuel)%nat ->
            _chunk_date_range fuel (toordinal 9999 11 1)
              (toordinal 9999 12 31) default_chunk_months
            = Some OverflowError).
  { intros [| fuel] Hfuel; [lia |]. reflexivity. }
  split; [vm_compute; discriminate |]. split; [vm_compute; discriminate |].
  split; [vm_compute; discriminate |]. split; [exact Hrun |].
  intros (cs & Hcs & _).
  specialize (Hcs _ (le_n _)). rewrite Hrun in Hcs; [discriminate |].
  vm_compute. lia.
Qed.

End ChunkDateRange.

(** ** The log buffer *)

Section LogBuffer.
Import Mongo LogHandler.

Implicit Types (m : manager) (me : thread) (task_id : string).

Ltac run_M :=
  unfold add_log, _flush_task_logs, with_lock, acquire, release, get_buffer,
    put_buffer, get_max_buffer_size, mbind, mret, M_bind, M_ret, bind, ret;
  simpl.

(** Below the threshold [add_log] only appends to the task's buffer. *)
Lemma add_log_below me task_id e m :
  buffer_lock m = None ->
  (length (buffered m task_id) + 1 < max_buffer_size m)%nat ->
  add_log me task_id e m
  = Returned tt (set_buffer (<[task_id := buffered m task_id ++ [e]]>
                               (log_buffer m)) m).
Proof.
  intros Hfree Hlen. unfold buffered in *. destruct m as [buf lk mx st uc].
  simpl in *. subst lk. run_M.
  destruct (buf !! task_id) as [es |] eqn:Hb; simpl in *.
  - rewrite Hb. simpl. rewrite length_app. simpl.
    destruct (Nat.leb_spec mx (length es + 1)) as [? | _]; [lia |].
    reflexivity.
  - rewrite lookup_insert_eq. simpl.
    destruct (Nat.leb_spec mx 1) as [? | _]; [lia |].
    rewrite insert_insert_eq. reflexivity.
Qed.

(** At the threshold [add_log] calls [_flush_task_logs] while it is still
    inside its own [with self.buffer_lock] block; the acquire in
    [_flush_task_logs] finds the lock held by the caller. *)
Lemma add_log_at_threshold me task_id e m :
  buffer_lock m = None ->
  (max_buffer_size m <= length (buffered m task_id) + 1)%nat ->
  add_log me task_id e m
  = Blocked me (set_lock (Some me)
                  (set_buffer (<[task_id := buffered m task_id ++ [e]]>
                                 (log_buffer m)) m)).
Proof.
  intros Hfree Hlen. unfold buffered in *. destruct m as [buf lk mx st uc].
  simpl in *. subst lk. run_M.
  destruct (buf !! task_id) as [es |] eqn:Hb; simpl in *.
  - rewrite Hb. simpl. rewrite length_app. simpl.
    destruct (Nat.leb_spec mx (length es + 1)) as [_ | ?]; [| lia].
    reflexivity.
  - rewrite lookup_insert_eq. simpl.
    destruct (Nat.leb_spec mx 1) as [_ | ?]; [| lia].
    rewrite insert_insert_eq. reflexivity.
Qed.

Lemma add_logs_below me task_id es : forall m,
  buffer_lock m = None ->
  (length (buffered m task_id) + length es < max_buffer_size m)%nat ->
  exists m',
    add_logs me task_id es m = Returned tt m'
    /\ store m' = store m /\ buffer_lock m' = None
    /\ max_buffer_size m' = max_buffer_size m
    /\ uuid_count m' = uuid_count m
    /\ buffered m' task_id = buffered m task_id ++ es.
Proof.
  induction es as [| e es IH]; intros m Hfree Hlen.
  - exists m. rewrite app_nil_r. repeat split; auto.
  - simpl in Hlen.
    destruct (IH (set_buffer (<[task_id := buffered m task_id ++ [e]]>
                                (log_buffer m)) m))
      as (m' & Hrun & Hst & Hlk & Hmx & Huc & Hbuf).
    + exact Hfree.
    + unfold buffered at 1. simpl. rewrite lookup_insert_eq. simpl.
      rewrite length_app. simpl. lia.
    + exists m'. split.
      * change (add_logs me task_id (e :: es) m)
          with (bind (fun _ => add_logs me task_id es) (add_log me task_id e) m).
        unfold bind. rewrite add_log_below by (assumption || lia). exact Hrun.
      * repeat split; try assumption.
        rewrite Hbuf. unfold buffered at 1. simpl. rewrite lookup_insert_eq.
        simpl. rewrite <- app_assoc. reflexivity.
Qed.

Lemma save_logs_run logs : forall m,
  exists m',
    save_logs logs m = Returned tt m'
    /\ log_buffer m' = log_buffer m /\ buffer_lock m' = buffer_lock m
    /\ max_buffer_size m' = max_buffer_size m
    /\ user_factors (store m') = user_factors (store m)
    /\ tasks (store m') = tasks (store m)
    /\ factor_analysis_results (store m') = factor_analysis_results (store m)
    /\ factor_analysis_stage_logs (store m')
       = factor_analysis_stage_logs (store m)
         ++ rows_of (uuid_count m) (next_oid (store m)) logs.
Proof.
  induction logs as [| log rest IH]; intros m.
  - exists m. simpl. rewrite app_nil_r. repeat split; reflexivity.
  - destruct m as [buf lk mx st uc]. simpl.
    unfold mbind, M_bind, bind, uuid4, on_store. simpl.
    match goal with |- context [save_logs rest ?m1] =>
      destruct (IH m1) as (m' & Hrun & ? & ? & ? & ? & ? & ? & Hrows) end.
    exists m'. rewrite Hrun. simpl in *. repeat split; try assumption.
    rewrite Hrows, <- app_assoc. reflexivity.
Qed.

(** The flush itself is right when it is entered with the lock free, as
    [flush_all] enters it from the timer: the buffered entries go to the
    log collection in enqueue order, the task record takes the newest
    entry's message, time and level, and the buffer is emptied. *)
Lemma flush_task_logs_free me task_id m es latest :
  buffer_lock m = None ->
  log_buffer m !! task_id = Some es ->
  last es = Some latest ->
  exists m',
    _flush_task_logs me task_id m = Returned tt m'
    /\ buffer_lock m' = None
    /\ log_buffer m' = <[task_id := []]> (log_buffer m)
    /\ factor_analysis_stage_logs (store m')
       = factor_analysis_stage_logs (store m)
         ++ rows_of (uuid_count m) (next_oid (store m)) es
    /\ tasks (store m')
       = update_many (task_id_is (le_task_id latest)) (set_last_log latest)
           (tasks (store m)).
Proof.
  intros Hfree Hbuf Hlast. destruct m as [buf lk mx st uc]. simpl in *.
  subst lk. run_M. rewrite Hbuf.
  destruct es as [| e es]; [discriminate |]. cbn -[save_logs last].
  rewrite Hlast. cbn -[save_logs].
  match goal with |- context [save_logs (e :: es) ?m1] =>
    destruct (save_logs_run (e :: es) m1)
      as (m' & Hrun & Hb & Hl & ? & ? & Ht & ? & Hrows) end.
  rewrite Hrun. eexists. split; [reflexivity |]. simpl in *.
  repeat split; try assumption. unfold update_many. rewrite Ht. reflexivity.
Qed.

(** C4.  Starting from an empty buffer, 49 consecutive [add_log] calls
    for a task return and persist nothing: the store is as before and the
    49 entries sit in the buffer.  The 50th call reaches the threshold
    and calls [_flush_task_logs] from inside its own locked block; it
    stops at that acquire with all 50 entries still buffered, no row
    appended to the log collection and the task record untouched.  The
    flush that the claim describes does not happen on this path. *)
Theorem add_log_fiftieth_blocks_before_flush d me task_id es e :
  length es = 49%nat ->
  exists m49 m50,
    add_logs me task_id es (new_manager d) = Returned tt m49
    /\ store m49 = d /\ buffered m49 task_id = es
    /\ add_log me task_id e m49 = Blocked me m50
    /\ store m50 = d /\ buffered m50 task_id = es ++ [e].
Proof.
  intros Hlen.
  destruct (add_logs_below me task_id es (new_manager d))
    as (m49 & Hrun & Hst & Hlk & Hmx & _ & Hbuf).
  - reflexivity.
  - unfold buffered. simpl. rewrite lookup_empty. simpl. lia.
  - unfold buffered at 2 in Hbuf. simpl in Hbuf. rewrite lookup_empty in Hbuf.
    simpl in Hbuf, Hst, Hmx.
    exists m49. eexists. split; [exact Hrun |]. split; [exact Hst |].
    split; [exact Hbuf |]. split.
    + apply add_log_at_threshold; [exact Hlk |]. rewrite Hmx, Hbuf. lia.
    + simpl. split; [exact Hst |]. unfold buffered at 1. simpl.
      rewrite lookup_insert_eq. simpl. rewrite Hbuf. reflexivity.
Qed.

Lemma add_log_fiftieth_blocks_before_flush_witness :
  length (sample_entries 49) = 49%nat /\
  exists m49 m50,
    add_logs 0%nat "T1" (sample_entries 49) (new_manager empty_db)
    = Returned tt m49
    /\ store m49 = empty_db /\ buffered m49 "T1" = sample_entries 49
    /\ add_log 0%nat "T1" (sample_entry 49) m49 = Blocked 0%nat m50
    /\ store m50 = empty_db
    /\ buffered m50 "T1" = sample_entries 49 ++ [sample_entry 49].
Proof.
  split; [reflexivity |].
  apply (add_log_fiftieth_blocks_before_flush empty_db 0%nat "T1"
           (sample_entries 49) (sample_entry 49)).
  reflexivity.
Defined.

(** C9.  [add_log], entered with the lock free, does not return when the
    new entry brings the task's buffer to [max_buffer_size]: it holds
    [buffer_lock], calls [_flush_task_logs], and that call's acquire of
    the same non-reentrant lock finds it held by the calling thread.  The
    call stops there with the lock still held and the store unchanged. *)
Theorem add_log_blocks_at_threshold me task_id e m :
  buffer_lock m = None ->
  (max_buffer_size m <= length (buffered m task_id) + 1)%nat ->
  exists m',
    add_log me task_id e m = Blocked me m'
    /\ buffer_lock m' = Some me /\ store m' = store m.
Proof.
  intros Hfree Hlen. eexists. split.
  - apply add_log_at_threshold; assumption.
  - split; reflexivity.
Qed.

Lemma add_log_blocks_at_threshold_witness :
  buffer_lock sample_manager = None /\
  (max_buffer_size sample_manager
   <= length (buffered sample_manager "T1") + 1)%nat /\
  exists m',
    add_log 7%nat "T1" (sample_entry 49) sample_manager = Blocked 7%nat m'
    /\ buffer_lock m' = Some 7%nat /\ store m' = store sample_manager.
Proof.
  split; [reflexivity |]. split; [vm_compute; lia |].
  apply (add_log_blocks_at_threshold 7%nat "T1" (sample_entry 49)
           sample_manager).
  - reflexivity.
  - vm_compute. lia.
Defined.

End LogBuffer.

(** ** The lock among threads *)

Section BufferLockSteps.
Import BufferLock.

(** The methods take and give back the lock in blocks: a thread about to
    run one is outside a block. *)
Lemma methods_start_outside b n :
  outside_block (add_log_steps b) /\ outside_block flush_task_logs_steps
  /\ outside_block (flush_all_steps n).
Proof. repeat split; exact I. Qed.

(** A thread that waits for the lock it holds itself waits for ever:
    whatever the threads do, as long as the others are outside a block
    when it starts to wait, it holds the lock and has the same acquire
    before it. *)
Lemma waits_for_itself s t rest :
  owner s = Some t -> todo s t = acquire :: rest ->
  (forall u, u <> t -> outside_block (todo s u)) ->
  forall s', rtc step s s' ->
    owner s' = Some t /\ todo s' t = acquire :: rest.
Proof.
  intros Hown Htodo Hout s' Hsteps. revert Hown Htodo Hout.
  induction Hsteps as [s | s s1 s' Hstep _ IH]; intros Hown Htodo Hout;
    [split; assumption |].
  apply IH; clear IH.
  - destruct Hstep as [s u r Hu Hfree | s u r Hu | s u r Hu]; simpl.
    + congruence.
    + destruct (Nat.eq_dec u t) as [-> | Hne]; [congruence |].
      specialize (Hout u Hne). rewrite Hu in Hout. destruct Hout.
    + exact Hown.
  - destruct Hstep as [s u r Hu Hfree | s u r Hu | s u r Hu]; simpl;
      (destruct (Nat.eqb_spec t u) as [-> | _]; [congruence | exact Htodo]).
  - intros v Hv.
    destruct Hstep as [s u r Hu Hfree | s u r Hu | s u r Hu]; simpl;
      (destruct (Nat.eqb_spec v u) as [-> | _]; [| exact (Hout v Hv)]).
    + congruence.
    + specialize (Hout u Hv). rewrite Hu in Hout. destruct Hout.
    + specialize (Hout u Hv). rewrite Hu in Hout. exact Hout.
Qed.

(** [add_log] at the threshold: after its acquire and its append, the
    calling thread holds the lock and has the acquire of
    [_flush_task_logs] before it.  From there on it never finishes. *)
Lemma threshold_add_log_never_returns s t :
  owner s = Some t ->
  todo s t = drop 2 (add_log_steps true) ->
  (forall u, u <> t -> outside_block (todo s u)) ->
  forall s', rtc step s s' -> todo s' t <> [].
Proof.
  intros Hown Htodo Hout s' Hsteps.
  destruct (waits_for_itself s t _ Hown Htodo Hout s' Hsteps) as [_ Hw].
  rewrite Hw. discriminate.
Qed.

End BufferLockSteps.

(** ** Uniqueness of factor names *)

Section FactorNames.
Import Mongo UserFactorService.

Variable ObjectId : string -> option nat.

Lemma same_name_spec user factor exclude f :
  same_name user factor exclude f = true <->
  factor_key f = (user, factor)
  /\ match exclude with Some oid => f_oid f <> oid | None => True end.
Proof.
  unfold same_name, factor_key.
  rewrite !andb_true_iff, !bool_decide_eq_true.
  destruct exclude as [oid |].
  - rewrite negb_true_iff, Nat.eqb_neq. split.
    + intros [[-> ->] ?]. auto.
    + intros [[= -> ->] ?]. auto.
  - split.
    + intros [[-> ->] _]. auto.
    + intros [[= -> ->] _]. auto.
Qed.

Lemma check_factor_exists_false d user factor exclude :
  check_factor_exists d user factor exclude = false ->
  forall f, In f (user_factors d) -> factor_key f = (user, factor) ->
    match exclude with Some oid => f_oid f = oid | None => False end.
Proof.
  unfold check_factor_exists. intros Hex f Hin Hkey.
  destruct exclude as [oid |].
  - destruct (Nat.eq_dec (f_oid f) oid) as [? | Hne]; [assumption |].
    assert (existsb (same_name user factor (Some oid)) (user_factors d) = true);
      [| congruence].
    apply existsb_exists. exists f. split; [assumption |].
    apply same_name_spec. auto.
  - assert (existsb (same_name user factor None) (user_factors d) = true);
      [| congruence].
    apply existsb_exists. exists f. split; [assumption |].
    apply same_name_spec. auto.
Qed.

Lemma check_factor_exists_true d user factor exclude f :
  In f (user_factors d) -> factor_key f = (user, factor) ->
  match exclude with Some oid => f_oid f <> oid | None => True end ->
  check_factor_exists d user factor exclude = true.
Proof.
  intros Hin Hkey Hex. apply existsb_exists. exists f.
  split; [assumption |]. apply same_name_spec. auto.
Qed.

(** Re-keying the one document with ordinal [oid] keeps keys distinct
    when no other document has the new key. *)
Lemma update_keeps_keys_distinct r oid (fs : list factor_doc) :
  List.NoDup (List.map factor_key fs) ->
  List.NoDup (List.map f_oid fs) ->
  (forall f, In f fs -> factor_key f = (user_id r, factor_name r) ->
             f_oid f = oid) ->
  List.NoDup
    (List.map factor_key (update_many (oid_is oid) (set_request r) fs)).
Proof.
  unfold update_many, oid_is.
  induction fs as [| a fs IH]; intros Hk Ho Hfree; simpl; [constructor |].
  simpl in Hk, Ho. apply List.NoDup_cons_iff in Hk as [Hka Hk].
  apply List.NoDup_cons_iff in Ho as [Hoa Ho].
  apply List.NoDup_cons_iff. split.
  2: { apply IH; auto. intros f Hf. apply Hfree. right. exact Hf. }
  rewrite in_map_iff. intros (g' & Hkey & Hin).
  apply in_map_iff in Hin as (g & <- & Hg).
  assert (Hg_oid : f_oid g <> f_oid a).
  { intros E. apply Hoa. rewrite <- E. apply in_map. exact Hg. }
  destruct (Nat.eqb_spec (f_oid a) oid) as [Ea | Na].
  - destruct (Nat.eqb_spec (f_oid g) oid) as [Eg | Ng]; [congruence |].
    apply Ng. apply Hfree; [right; exact Hg |]. exact Hkey.
  - destruct (Nat.eqb_spec (f_oid g) oid) as [Eg | Ng].
    + apply Na. apply Hfree; [left; reflexivity |].
      rewrite <- Hkey. reflexivity.
    + apply Hka. rewrite <- Hkey. apply in_map. exact Hg.
Qed.

Lemma update_many_oids r oid (fs : list factor_doc) :
  List.map f_oid (update_many (oid_is oid) (set_request r) fs)
  = List.map f_oid fs.
Proof.
  unfold update_many. rewrite List.map_map. apply List.map_ext.
  intros f. destruct (oid_is oid f); reflexivity.
Qed.

Lemma create_factor_wf r d : factors_wf d -> factors_wf (create_factor r d).2.
Proof.
  intros [Hn Ho Hb]. unfold create_factor.
  destruct (check_factor_exists d (user_id r) (factor_name r) None) eqn:Hex;
    simpl; [constructor; assumption |].
  pose proof (check_factor_exists_false _ _ _ _ Hex) as Hfree. simpl in Hfree.
  constructor.
  - unfold unique_names in *. simpl. rewrite List.map_app. simpl.
    apply List.NoDup_app; [assumption | repeat constructor; simpl; tauto |].
    intros k Hk [<- | []]. apply in_map_iff in Hk as (f & Hkey & Hf).
    exact (Hfree f Hf Hkey).
  - unfold unique_oids in *. simpl. rewrite List.map_app. simpl.
    apply List.NoDup_app; [assumption | repeat constructor; simpl; tauto |].
    intros k Hk [<- | []]. apply in_map_iff in Hk as (f & Hoid & Hf).
    specialize (Hb f Hf). lia.
  - intros f Hf. simpl in *. apply in_app_iff in Hf as [Hf | [<- | []]].
    + specialize (Hb f Hf). lia.
    + simpl. lia.
Qed.

Lemma update_factor_wf r id d :
  factors_wf d -> factors_wf (update_factor ObjectId r id d).2.
Proof.
  intros [Hn Ho Hb]. unfold update_factor, validate_object_id.
  destruct (ObjectId id) as [oid |]; simpl; [| constructor; assumption].
  destruct (negb (existsb (oid_is oid) (user_factors d)));
    simpl; [constructor; assumption |].
  destruct (bool_decide (id = ""%string)) eqn:Hid.
  - (* an empty id text excludes nothing *)
    destruct (check_factor_exists d (user_id r) (factor_name r) None) eqn:Hex;
      simpl; [constructor; assumption |].
    pose proof (check_factor_exists_false _ _ _ _ Hex) as Hfree.
    simpl in Hfree. constructor.
    + unfold unique_names in *. simpl.
      apply update_keeps_keys_distinct; try assumption.
      intros f Hf Hk. destruct (Hfree f Hf Hk).
    + unfold unique_oids in *. simpl. rewrite update_many_oids. assumption.
    + intros f Hf. simpl in *. unfold update_many in Hf.
      apply in_map_iff in Hf as (g & <- & Hg). specialize (Hb g Hg).
      destruct (oid_is oid g); simpl; assumption.
  - destruct (check_factor_exists d (user_id r) (factor_name r) (Some oid))
      eqn:Hex; simpl; [constructor; assumption |].
    pose proof (check_factor_exists_false _ _ _ _ Hex) as Hfree.
    simpl in Hfree. constructor.
    + unfold unique_names in *. simpl.
      apply update_keeps_keys_distinct; assumption.
    + unfold unique_oids in *. simpl. rewrite update_many_oids. assumption.
    + intros f Hf. simpl in *. unfold update_many in Hf.
      apply in_map_iff in Hf as (g & <- & Hg). specialize (Hb g Hg).
      destruct (oid_is oid g); simpl; assumption.
Qed.

(** C8.  In a store whose factors have distinct [(user_id, factor_name)]
    (and distinct storage ordinals): a [create_factor] request whose
    [(user_id, factor_name)] is already taken is answered with code 409
    and the store is left as it was; an [update_factor] that would give
    a factor the [(user_id, factor_name)] of another factor is answered
    with 409 and the store is left as it was; and after any
    [create_factor] or [update_factor] the factors still have distinct
    [(user_id, factor_name)]. *)
Theorem create_update_keep_names_unique d r id :
  factors_wf d ->
  ((exists f, In f (user_factors d)
              /\ factor_key f = (user_id r, factor_name r)) ->
   create_factor r d = (fail "409" "同名因子已存在", d))
  /\ (forall oid,
        ObjectId id = Some oid -> id <> ""%string ->
        In oid (List.map f_oid (user_factors d)) ->
        (exists f, In f (user_factors d) /\ f_oid f <> oid
                   /\ factor_key f = (user_id r, factor_name r)) ->
        update_factor ObjectId r id d = (fail "409" "同名因子已存在", d))
  /\ factors_wf (create_factor r d).2
  /\ factors_wf (update_factor ObjectId r id d).2.
Proof.
  intros Hwf. split; [| split; [| split]].
  - intros (f & Hf & Hk). unfold create_factor.
    rewrite (check_factor_exists_true d _ _ None f Hf Hk I). reflexivity.
  - intros oid Hoid Hid Hin (f & Hf & Hne & Hk).
    unfold update_factor, validate_object_id. rewrite Hoid.
    assert (existsb (oid_is oid) (user_factors d) = true) as ->.
    { apply in_map_iff in Hin as (g & Hg & Hgin). apply existsb_exists.
      exists g. split; [assumption |]. unfold oid_is.
      apply Nat.eqb_eq. exact Hg. }
    simpl. rewrite bool_decide_eq_false_2 by assumption.
    rewrite (check_factor_exists_true d _ _ (Some oid) f Hf Hk Hne).
    reflexivity.
  - apply create_factor_wf. exact Hwf.
  - apply update_factor_wf. exact Hwf.
Qed.

End FactorNames.

Lemma sample_db_wf : UserFactorService.factors_wf UserFactorService.sample_db.
Proof.
  constructor.
  - repeat constructor; simpl; tauto.
  - repeat constructor; simpl; tauto.
  - intros f [<- | []]. simpl. lia.
Defined.

Lemma create_update_keep_names_unique_witness :
  UserFactorService.factors_wf UserFactorService.sample_db
  /\ UserFactorService.create_factor UserFactorService.sample_request
       UserFactorService.sample_db
     = (UserFactorService.fail "409" "同名因子已存在",
        UserFactorService.sample_db)
  /\ UserFactorService.factors_wf
       (UserFactorService.update_factor UserFactorService.sample_ObjectId
          UserFactorService.sample_request "ab"
          UserFactorService.sample_db).2.
Proof.
  split; [exact sample_db_wf |].
  destruct (create_update_keep_names_unique UserFactorService.sample_ObjectId
              UserFactorService.sample_db UserFactorService.sample_request
              "ab" sample_db_wf) as (Hcreate & _ & _ & Hupdate).
  split; [| exact Hupdate].
  apply Hcreate. exists UserFactorService.sample_factor.
  split; [left; reflexivity | reflexivity].
Defined.

(** ** Incremental log reads *)

Section TaskLogs.
Import Mongo UserFactorService.

Lemma insert_by_timestamp_perm x l :
  Permutation (insert_by_timestamp x l) (x :: l).
Proof.
  induction l as [| y l IH]; simpl; [reflexivity |].
  destruct (l_timestamp y <? l_timestamp x); [| reflexivity].
  rewrite IH. apply perm_swap.
Qed.

Lemma sort_by_timestamp_perm l : Permutation (sort_by_timestamp l) l.
Proof.
  induction l as [| x l IH]; simpl; [reflexivity |].
  rewrite insert_by_timestamp_perm. constructor. exact IH.
Qed.

Lemma insert_by_timestamp_sorted x l :
  Sorted by_timestamp l -> Sorted by_timestamp (insert_by_timestamp x l).
Proof.
  unfold by_timestamp.
  induction 1 as [| y l Hs IH Hhd]; simpl; [repeat constructor |].
  destruct (Z.ltb_spec (l_timestamp y) (l_timestamp x)) as [Hlt | Hge].
  - constructor; [exact IH |].
    destruct l as [| z l]; simpl.
    + constructor. lia.
    + destruct (Z.ltb_spec (l_timestamp z) (l_timestamp x)).
      * constructor. inversion Hhd; assumption.
      * constructor. lia.
  - constructor; [constructor; assumption |]. constructor. exact Hge.
Qed.

Lemma sort_by_timestamp_sorted l : Sorted by_timestamp (sort_by_timestamp l).
Proof.
  induction l as [| x l IH]; simpl; [constructor |].
  apply insert_by_timestamp_sorted. exact IH.
Qed.

(** A list whose timestamps already grow is left as it is. *)
Lemma sort_by_timestamp_id l :
  StronglySorted (fun a b => l_timestamp a < l_timestamp b) l ->
  sort_by_timestamp l = l.
Proof.
  induction 1 as [| x l Hs IH Hall]; simpl; [reflexivity |].
  rewrite IH. destruct l as [| y l]; simpl; [reflexivity |].
  inversion Hall as [| ? ? Hxy _]; subst.
  destruct (Z.ltb_spec (l_timestamp y) (l_timestamp x)); [lia | reflexivity].
Qed.

Lemma StronglySorted_app_inv {A} (R : A -> A -> Prop) l1 l2 :
  StronglySorted R (l1 ++ l2) ->
  StronglySorted R l1 /\ StronglySorted R l2
  /\ forall a b, In a l1 -> In b l2 -> R a b.
Proof.
  induction l1 as [| x l1 IH]; simpl; intros Hs.
  - split; [constructor |]. split; [exact Hs |]. intros a b [].
  - inversion Hs as [| ? ? Hs' Hall]; subst.
    destruct (IH Hs') as (H1 & H2 & H12). rewrite Forall_app in Hall.
    destruct Hall as [Ha1 Ha2]. split; [constructor; assumption |].
    split; [assumption |].
    intros a b [<- | Ha] Hb; [| auto].
    rewrite List.Forall_forall in Ha2. auto.
Qed.

Lemma StronglySorted_filter_bool {A} (R : A -> A -> Prop) f l :
  StronglySorted R l -> StronglySorted R (List.filter f l).
Proof.
  induction 1 as [| x l Hs IH Hall]; simpl; [constructor |].
  destruct (f x); [| exact IH]. constructor; [exact IH |].
  rewrite List.Forall_forall in *. intros y Hy.
  apply List.filter_In in Hy as [Hy _]. auto.
Qed.

(** In a list in storage order, the last element has the greatest
    ordinal. *)
Lemma last_is_greatest (l : list log_doc) x :
  oids_increasing l -> last l = Some x ->
  forall y, In y l -> (l_oid y <= l_oid x)%nat.
Proof.
  unfold oids_increasing.
  induction 1 as [| a l Hs IH Hall]; simpl; intros Hlast y Hy; [destruct Hy |].
  destruct l as [| b l].
  - injection Hlast as <-. destruct Hy as [<- | []]. lia.
  - change (last (a :: b :: l)) with (last (b :: l)) in Hlast.
    destruct Hy as [<- | Hy]; [| auto].
    rewrite List.Forall_forall in Hall.
    assert (In x (b :: l)) as Hx.
    { apply list_elem_of_In. eapply last_Some_elem_of. exact Hlast. }
    specialize (Hall x Hx). lia.
Qed.

Lemma filter_implied {A} (f g : A -> bool) l :
  (forall x, f x = true -> g x = true) ->
  List.filter f l = List.filter f (List.filter g l).
Proof.
  intros Himp. induction l as [| x l IH]; simpl; [reflexivity |].
  destruct (f x) eqn:Hf.
  - rewrite (Himp x Hf). simpl. rewrite Hf, IH. reflexivity.
  - destruct (g x); simpl; [rewrite Hf |]; exact IH.
Qed.

Variable ObjectId : string -> option nat.
Variable oid_text : nat -> string.

(** One read, for a well-formed [last_log_id]. *)
Lemma get_task_logs_read d task_id after :
  (forall n, ObjectId (oid_text n) = Some n) ->
  (forall n, oid_text n <> ""%string) ->
  get_task_logs ObjectId oid_text d task_id (option_map oid_text after)
  = success {| logs := List.map view_of (find_logs d task_id after);
               last_log_id := echo oid_text (find_logs d task_id after) |}.
Proof.
  intros Hrt Hne. unfold get_task_logs. destruct after as [oid |]; simpl.
  - rewrite bool_decide_eq_false_2 by apply Hne. rewrite Hrt. reflexivity.
  - reflexivity.
Qed.

Lemma find_logs_growing d task_id after :
  timestamps_increasing task_id (factor_analysis_stage_logs d) ->
  find_logs d task_id after
  = List.filter (log_matches task_id after) (factor_analysis_stage_logs d).
Proof.
  intros Hts. unfold find_logs. apply sort_by_timestamp_id.
  unfold timestamps_increasing in Hts.
  rewrite (filter_implied (log_matches task_id after)
             (log_matches task_id None)).
  - apply StronglySorted_filter_bool. exact Hts.
  - intros x. unfold log_matches. rewrite !andb_true_iff. tauto.
Qed.

Lemma filter_none {A} (f : A -> bool) l :
  (forall x, In x l -> f x = false) -> List.filter f l = [].
Proof.
  induction l as [| x l IH]; simpl; intros Hf; [reflexivity |].
  rewrite (Hf x) by (left; reflexivity). apply IH. intros y Hy. apply Hf.
  right. exact Hy.
Qed.

(** C5, as the code has it.  For a well-formed [last_log_id] (absent, or
    the text of an ordinal) [get_task_logs] returns exactly the task's
    entries with a storage ordinal strictly greater than it (all of the
    task's entries when it is absent), ordered by timestamp, and echoes
    the ordinal of the last entry of that list ([None] for an empty
    list).  When the collection is in storage order and the task's
    timestamps grow with it, the echoed ordinal is the greatest one read,
    and a full read followed, after the collection has grown by [new],
    by a read at the echoed ordinal adds up to a full read of the grown
    collection. *)
Theorem get_task_logs_incremental d new task_id after :
  (forall n, ObjectId (oid_text n) = Some n) ->
  (forall n, oid_text n <> ""%string) ->
  (exists docs,
     get_task_logs ObjectId oid_text d task_id (option_map oid_text after)
     = success {| logs := List.map view_of docs;
                  last_log_id := echo oid_text docs |}
     /\ Permutation docs
          (List.filter (log_matches task_id after)
             (factor_analysis_stage_logs d))
     /\ Sorted by_timestamp docs)
  /\ (oids_increasing (factor_analysis_stage_logs d ++ new) ->
      timestamps_increasing task_id (factor_analysis_stage_logs d ++ new) ->
      exists r1 r2 r,
        get_task_logs ObjectId oid_text d task_id None = success r1
        /\ get_task_logs ObjectId oid_text
             (with_stage_logs (fun l => l ++ new) d) task_id (last_log_id r1)
           = success r2
        /\ get_task_logs ObjectId oid_text
             (with_stage_logs (fun l => l ++ new) d) task_id None
           = success r
        /\ logs r1 ++ logs r2 = logs r
        /\ forall l, In l (find_logs d task_id None) ->
             exists x, last_log_id r1 = Some (oid_text (l_oid x))
                       /\ In x (find_logs d task_id None)
                       /\ (l_oid l <= l_oid x)%nat).
Proof.
  intros Hrt Hne. split.
  { exists (find_logs d task_id after). split; [| split].
    - apply get_task_logs_read; assumption.
    - apply sort_by_timestamp_perm.
    - apply sort_by_timestamp_sorted. }
  intros Hoid Hts.
  set (L := factor_analysis_stage_logs d) in *.
  set (d' := with_stage_logs (fun l => l ++ new) d).
  set (f0 := log_matches task_id None).
  destruct (StronglySorted_app_inv _ _ _ Hoid) as (HoL & _ & Hcross).
  assert (Hts' : timestamps_increasing task_id (factor_analysis_stage_logs d')).
  { exact Hts. }
  assert (HtsL : timestamps_increasing task_id (factor_analysis_stage_logs d)).
  { unfold timestamps_increasing in *. fold L. rewrite List.filter_app in Hts.
    apply StronglySorted_app_inv in Hts. tauto. }
  pose proof (get_task_logs_read d task_id None Hrt Hne) as Hr1.
  pose proof (get_task_logs_read d' task_id None Hrt Hne) as Hr.
  simpl in Hr1, Hr.
  rewrite (find_logs_growing d task_id None HtsL) in *. fold L f0 in Hr1 |- *.
  rewrite (find_logs_growing d' task_id None Hts') in Hr.
  change (factor_analysis_stage_logs d') with (L ++ new) in Hr.
  fold f0 in Hr. rewrite List.filter_app, List.map_app in Hr.
  eexists _, _, _. split; [exact Hr1 |]. simpl.
  unfold echo. destruct (last (List.filter f0 L)) as [x |] eqn:Hlast.
  - (* the full read ends with [x] *)
    assert (Hx : In x (List.filter f0 L)).
    { apply list_elem_of_In. eapply last_Some_elem_of. exact Hlast. }
    pose proof (get_task_logs_read d' task_id (Some (l_oid x)) Hrt Hne) as Hr2.
    simpl in Hr2.
    rewrite (find_logs_growing d' task_id (Some (l_oid x)) Hts') in Hr2.
    change (factor_analysis_stage_logs d') with (L ++ new) in Hr2.
    rewrite List.filter_app in Hr2.
    assert (Hmax : forall y, In y (List.filter f0 L) ->
                             (l_oid y <= l_oid x)%nat).
    { apply last_is_greatest; [| exact Hlast].
      apply StronglySorted_filter_bool. exact HoL. }
    rewrite (filter_none (log_matches task_id (Some (l_oid x))) L) in Hr2.
    2: { intros y Hy. unfold log_matches.
         destruct (bool_decide (l_task_id y = task_id)) eqn:Hty;
           [| reflexivity]. simpl.
         apply Nat.ltb_ge. apply Hmax. apply List.filter_In.
         split; [exact Hy |]. unfold f0, log_matches. rewrite Hty.
         reflexivity. }
    rewrite (List.filter_ext_in (log_matches task_id (Some (l_oid x))) f0 new)
      in Hr2.
    2: { intros y Hy. unfold f0, log_matches. f_equal.
         apply Nat.ltb_lt. apply Hcross; [| exact Hy].
         apply List.filter_In in Hx. tauto. }
    simpl in Hr2. split; [exact Hr2 |]. split; [exact Hr |].
    split; [reflexivity |]. intros l Hl. exists x. auto.
  - apply last_None in Hlast. rewrite Hlast in *. simpl in *.
    split; [exact Hr |]. split; [exact Hr |]. split; [reflexivity |].
    intros l [].
Qed.

End TaskLogs.

Lemma sample_oid_text_length n :
  String.length (UserFactorService.sample_oid_text n) = S n.
Proof. induction n as [| n IH]; simpl; [reflexivity | rewrite IH; reflexivity]. Defined.

Lemma sample_oid_roundtrip n :
  UserFactorService.sample_ObjectId (UserFactorService.sample_oid_text n)
  = Some n.
Proof.
  unfold UserFactorService.sample_ObjectId. rewrite sample_oid_text_length.
  reflexivity.
Defined.

Lemma sample_oid_nonempty n : UserFactorService.sample_oid_text n <> ""%string.
Proof. destruct n; discriminate. Defined.

(** The claim of C5 fails on a store whose timestamps run against the
    storage order: the full read of T1 lists the entry stamped 3 (ordinal
    1) before the entry stamped 5 (ordinal 0) and echoes ordinal 0, which
    is not the greatest; the read at that ordinal returns the entry with
    ordinal 1 a second time. *)
Lemma get_task_logs_disordered_counterexample :
  ~ UserFactorService.reads_add_up UserFactorService.sample_ObjectId
      UserFactorService.sample_oid_text UserFactorService.disordered_db "T1".
Proof.
  intros Hclaim.
  specialize (Hclaim
    {| UserFactorService.logs :=
         [UserFactorService.view_of (UserFactorService.sample_log 1 3);
          UserFactorService.view_of (UserFactorService.sample_log 0 5)];
       UserFactorService.last_log_id := Some "a"%string |}
    {| UserFactorService.logs :=
         [UserFactorService.view_of (UserFactorService.sample_log 1 3)];
       UserFactorService.last_log_id := Some "aa"%string |}
    eq_refl eq_refl).
  discriminate Hclaim.
Qed.

Lemma get_task_logs_incremental_witness :
  (forall n, UserFactorService.sample_ObjectId
               (UserFactorService.sample_oid_text n) = Some n)
  /\ (forall n, UserFactorService.sample_oid_text n <> ""%string)
  /\ exists docs,
       UserFactorService.get_task_logs UserFactorService.sample_ObjectId
         UserFactorService.sample_oid_text UserFactorService.ordered_db "T1"
         (option_map UserFactorService.sample_oid_text (Some 0%nat))
       = UserFactorService.success
           {| UserFactorService.logs :=
                List.map UserFactorService.view_of docs;
              UserFactorService.last_log_id :=
                UserFactorService.echo UserFactorService.sample_oid_text docs |}
       /\ Permutation docs
            (List.filter (UserFactorService.log_matches "T1" (Some 0%nat))
               (Mongo.factor_analysis_stage_logs UserFactorService.ordered_db))
       /\ Sorted UserFactorService.by_timestamp docs.
Proof.
  split; [exact sample_oid_roundtrip |]. split; [exact sample_oid_nonempty |].
  exact (proj1 (get_task_logs_incremental UserFactorService.sample_ObjectId
                  UserFactorService.sample_oid_text
                  UserFactorService.ordered_db
                  [UserFactorService.sample_log 2 7] "T1" (Some 0%nat)
                  sample_oid_roundtrip sample_oid_nonempty)).
Defined.

(** ** Stage order and the point of commit *)

Section StageOrder.
Import Mongo FactorAnalysis UserFactorService.

Lemma apply_writes_app d ws1 ws2 :
  apply_writes d (ws1 ++ ws2) = apply_writes (apply_writes d ws1) ws2.
Proof. apply fold_left_app. Qed.

(** Only the write of [status = 2] makes a task read as succeeded. *)
Lemma succeeded_after_write d task_id w :
  succeeded (apply_write d w) task_id ->
  succeeded d task_id \/ is_success_write task_id w.
Proof.
  intros (t & Hin & Hid & Hst).
  destruct w as [id v | id msg | id og fda | id v result error | oid v c r];
    simpl in Hin.
  - apply in_map_iff in Hin as (t0 & <- & Hin0). left. exists t0.
    destruct (task_is id t0); simpl in *; auto.
  - apply in_map_iff in Hin as (t0 & <- & Hin0). left. exists t0.
    destruct (task_is id t0); simpl in *; auto.
  - left. exists t. auto.
  - apply in_map_iff in Hin as (t0 & <- & Hin0).
    destruct (task_is id t0) eqn:Hm; simpl in *.
    + right. unfold task_is in Hm. apply bool_decide_eq_true_1 in Hm.
      exists result, error. congruence.
    + left. exists t0. auto.
  - left. exists t. auto.
Qed.

Lemma succeeded_after_writes ws : forall d task_id,
  succeeded (apply_writes d ws) task_id ->
  succeeded d task_id \/ exists w, In w ws /\ is_success_write task_id w.
Proof.
  induction ws as [| w ws IH]; simpl; intros d task_id Hs; [left; exact Hs |].
  destruct (IH _ _ Hs) as [Hs' | (w' & Hin & Hw)].
  - destruct (succeeded_after_write _ _ _ Hs') as [? | ?]; [left; assumption |].
    right. exists w. auto.
  - right. exists w'. auto.
Qed.

(** Bundles are only ever added. *)
Lemma has_bundle_after_write d task_id w :
  has_bundle d task_id \/ is_bundle_write task_id w ->
  has_bundle (apply_write d w) task_id.
Proof.
  intros [(r & Hin & Hid) | (og & fda & ->)].
  - exists r. split; [| exact Hid].
    destruct w; simpl; try exact Hin. apply in_app_iff. left. exact Hin.
  - simpl. eexists. split; [apply in_app_iff; right; left; reflexivity |].
    reflexivity.
Qed.

Lemma has_bundle_after_writes ws : forall d task_id,
  has_bundle d task_id \/ (exists w, In w ws /\ is_bundle_write task_id w) ->
  has_bundle (apply_writes d ws) task_id.
Proof.
  induction ws as [| w ws IH]; simpl; intros d task_id H.
  - destruct H as [H | (w & [] & _)]. exact H.
  - apply IH. destruct H as [H | (w' & [<- | Hin] & Hw)].
    + left. apply has_bundle_after_write. left. exact H.
    + left. apply has_bundle_after_write. right. exact Hw.
    + right. exists w'. auto.
Qed.

Ltac split_step o s :=
  match goal with
  | |- context [raises o s] => destruct (raises o s) eqn:?; cbn
  end.

(** One goal per way a run can go: by what the factor data is, and by
    the first step that raises. *)
Ltac run_cases o fd :=
  unfold run_factor_analysis, factor_analysis, persist_bundle, attempt;
  destruct fd; cbn;
  try split_step o latest_date; try split_step o fetch_k_data;
  try split_step o clean_factor_data; try split_step o merge_data;
  try split_step o lagged_returns; try split_step o grouping;
  try split_step o backtest; try split_step o inset_to_database.

(** The stage markers of a run: none when there is nothing to analyse,
    1 to 9 when every step succeeds, and otherwise 1 up to the last
    stage reached followed by -1. *)
Lemma run_process_statuses o fd task_id object_id :
  let ws := (run_factor_analysis o fd task_id object_id).1 in
  process_statuses ws = []
  \/ process_statuses ws = [1; 2; 3; 4; 5; 6; 7; 8; 9]
  \/ exists k, (1 <= k <= 8)%nat
              /\ process_statuses ws = List.map Z.of_nat (seq 1 k) ++ [-1].
Proof.
  run_cases o fd; auto;
    right; right;
    first [ exists 1%nat; split; [lia | reflexivity]
          | exists 2%nat; split; [lia | reflexivity]
          | exists 3%nat; split; [lia | reflexivity]
          | exists 4%nat; split; [lia | reflexivity]
          | exists 5%nat; split; [lia | reflexivity]
          | exists 6%nat; split; [lia | reflexivity]
          | exists 7%nat; split; [lia | reflexivity]
          | exists 8%nat; split; [lia | reflexivity] ].
Qed.

(** When every step succeeds the run writes the stages 1..8, the bundle,
    stage 9, and only then the two [status = 2] updates. *)
Lemma run_all_steps_succeed o task_id object_id :
  (forall s, raises o s = None) ->
  run_factor_analysis o data_rows task_id object_id
  = ([set_process_status task_id 1; set_process_status task_id 2;
      set_process_status task_id 3; set_process_status task_id 4;
      set_process_status task_id 5; set_process_status task_id 6;
      set_process_status task_id 7; set_process_status task_id 8;
      insert_bundle task_id (bundle_one_group_data o)
        (bundle_factor_data_analysis o);
      set_process_status task_id 9;
      set_task_status task_id 2 (Some "分析完成"%string) None;
      set_factor_status object_id 2 (Some task_id) (result_task_id task_id)],
     ok tt).
Proof.
  intros Hok.
  unfold run_factor_analysis, factor_analysis, persist_bundle, attempt.
  rewrite !Hok. reflexivity.
Qed.

(** -1 is written only when a step has raised, and then the run never
    writes [status = 2]. *)
Lemma run_failure_marker o fd task_id object_id :
  let ws := (run_factor_analysis o fd task_id object_id).1 in
  In (-1) (process_statuses ws) ->
  (exists s e, raises o s = Some e)
  /\ forall w, In w ws -> ~ is_success_write task_id w.
Proof.
  run_cases o fd; intros Hin;
    try (simpl in Hin; exfalso; intuition discriminate);
    (split; [eauto |]);
    intros w Hw (r & e & ->); simpl in Hw; intuition discriminate.
Qed.

(** In every prefix of the run's writes that contains the [status = 2]
    update, the bundle insert and all nine stage markers come first. *)
Lemma success_write_after_bundle o fd task_id object_id n :
  let ws := (run_factor_analysis o fd task_id object_id).1 in
  (exists w, In w (take n ws) /\ is_success_write task_id w) ->
  (exists w, In w (take n ws) /\ is_bundle_write task_id w)
  /\ process_statuses (take n ws) = [1; 2; 3; 4; 5; 6; 7; 8; 9].
Proof.
  intros ws (w & Hin & r & e & ->). subst ws. revert Hin.
  run_cases o fd; intros Hin;
    do 13 (try (destruct n as [| n]; simpl in Hin |- *));
    try (exfalso; clear -Hin; simpl in Hin; intuition discriminate);
    (split; [| reflexivity]);
    eexists; (split; [do 8 right; left; reflexivity |]);
    eexists _, _; reflexivity.
Qed.

Lemma task_known_after_write d w task_id :
  task_known d task_id -> task_known (apply_write d w) task_id.
Proof.
  intros (t & Hin & Hid).
  destruct w as [id v | id msg | id og fda | id v result error | oid v c r];
    simpl; try (exists t; split; assumption);
    match goal with
    | |- task_known (with_tasks (update_many ?m ?f) d) _ =>
        exists (if m t then f t else t); split;
          [apply (in_map (fun x => if m x then f x else x)); exact Hin
          | destruct (m t); exact Hid]
    end.
Qed.

Lemma success_write_succeeds d task_id result error :
  task_known d task_id ->
  succeeded (apply_write d (set_task_status task_id 2 result error)) task_id.
Proof.
  intros (t & Hin & Hid). simpl.
  exists (task_set_status 2 result error t). split; [| split].
  - apply in_map_iff. exists t. split; [| exact Hin].
    unfold task_is. rewrite bool_decide_eq_true_2 by exact Hid. reflexivity.
  - exact Hid.
  - reflexivity.
Qed.

Lemma succeeded_after_factor_write d task_id oid v c r :
  succeeded d task_id ->
  succeeded (apply_write d (set_factor_status oid v c r)) task_id.
Proof. intros H. exact H. Qed.

End StageOrder.


(** ** Admission of a run *)

Section RunFactor.
Import Mongo FactorAnalysisParams FactorAnalysis UserFactorService.

Variable fromisoformat : string -> option string.
Variable validate_factor : string -> string -> code_check.
Variable ObjectId : string -> option nat.

Lemma make_Params_fields pd params :
  make_Params fromisoformat pd = Some params ->
  adjustment_cycle params = default 1 (pd_adjustment_cycle pd)
  /\ stock_pool params = default "000300"%string (pd_stock_pool pd)
  /\ group_number params = default 5 (pd_group_number pd)
  /\ 2 <= group_number params <= 20.
Proof.
  unfold make_Params.
  destruct (fromisoformat _); [| discriminate].
  destruct (fromisoformat _); [| discriminate].
  destruct (_ && _) eqn:Hgn; [| discriminate].
  intros [= <-]. simpl. apply andb_true_iff in Hgn as [H1 H2].
  apply Z.leb_le in H1, H2. repeat split; try reflexivity; lia.
Qed.

(** The violations the claim lists are all turned down. *)
Lemma validate_factor_params_rejects factor pd :
  f_params factor = Some pd ->
  ~ In (default 1 (pd_adjustment_cycle pd)) [1; 3; 5; 10; 20; 30]
  \/ ~ In (default "000300"%string (pd_stock_pool pd))
         ["000300"; "000905"; "000852"; "000985"]%string
  \/ ~ 2 <= default 5 (pd_group_number pd) <= 20
  \/ validate_factor (f_code factor) (f_code_type factor) <> code_valid ->
  exists e, validate_factor_params fromisoformat validate_factor factor = inl e.
Proof.
  intros Hpd Hbad. unfold validate_factor_params. rewrite Hpd.
  destruct (make_Params fromisoformat pd) as [params |] eqn:Hmk; [| eauto].
  destruct (make_Params_fields _ _ Hmk) as (Hac & Hsp & Hgn & Hrange).
  repeat match goal with
         | |- context [if ?c then _ else _] => destruct c eqn:?; [eauto |]
         end.
  destruct (validate_factor _ _) eqn:Hcode; eauto.
  exfalso. destruct Hbad as [Hb | [Hb | [Hb | Hb]]].
  - apply Hb. rewrite <- Hac.
    match goal with H : negb (existsb (Z.eqb _) _) = false |- _ =>
      apply negb_false_iff, existsb_exists in H; destruct H as (x & Hx & Heq)
    end.
    apply Z.eqb_eq in Heq. congruence.
  - apply Hb. rewrite <- Hsp.
    match goal with
    | H : negb (existsb (String.eqb (stock_pool _)) _) = false |- _ =>
        apply negb_false_iff, existsb_exists in H; destruct H as (x & Hx & Heq)
    end.
    apply String.eqb_eq in Heq. congruence.
  - apply Hb. rewrite <- Hgn. exact Hrange.
  - apply Hb. reflexivity.
Qed.

(** C1, as the code has it.  A request for a factor whose parameters
    or code fail validation (an [adjustment_cycle] outside 1, 3, 5, 10,
    20, 30, a [stock_pool] outside the four codes, a [group_number]
    outside 2..20, code that does not validate) is answered with the
    validation error ([fail("400", error_msg)]) and no analysis is
    started.  But validation comes after the bookkeeping: whenever
    [run_factor] answers with a validation error, the task record of the
    run (status 1, no stage, error or result) is already the last
    document of [tasks], the factor already has status 1 and the new task
    id as its [current_task_id], and the result bundles are untouched.
    The task records are given up to the fields that a flush of the log
    handler sets ([unlogged]), as the model leaves the logger out. *)
Theorem run_factor_rejects_after_insert o fd new_uuid message_id is_thread d :
  (forall object_id factor rest pd,
     ObjectId (request_ids new_uuid message_id).1 = Some object_id ->
     List.filter (oid_is object_id) (user_factors d) = factor :: rest ->
     f_params factor = Some pd ->
     ~ In (default 1 (pd_adjustment_cycle pd)) [1; 3; 5; 10; 20; 30]
     \/ ~ In (default "000300"%string (pd_stock_pool pd))
            ["000300"; "000905"; "000852"; "000985"]%string
     \/ ~ 2 <= default 5 (pd_group_number pd) <= 20
     \/ validate_factor (f_code factor) (f_code_type factor) <> code_valid ->
     exists e d',
       run_factor fromisoformat validate_factor ObjectId o fd new_uuid
         message_id is_thread d
       = (invalid e, d', None))
  /\ (forall e d' j,
        run_factor fromisoformat validate_factor ObjectId o fd new_uuid
          message_id is_thread d = (invalid e, d', j) ->
        j = None
        /\ exists factor_id task_id object_id factor,
            (factor_id, task_id) = request_ids new_uuid message_id
            /\ ObjectId factor_id = Some object_id
            /\ In factor (user_factors d) /\ f_oid factor = object_id
            /\ validate_factor_params fromisoformat validate_factor factor
               = inl e
            /\ List.map unlogged (tasks d')
               = List.map unlogged
                   (tasks d
                    ++ [task_record task_id factor_id factor (next_oid d)])
            /\ user_factors d'
               = update_many (oid_is object_id)
                   (factor_set_status 1 (Some task_id) (result_task_id task_id))
                   (user_factors d)
            /\ factor_analysis_results d' = factor_analysis_results d).
Proof.
  unfold run_factor.
  destruct (request_ids new_uuid message_id) as [factor_id task_id].
  split.
  - intros object_id factor rest pd Hoid Hfind Hpd Hbad. simpl in *.
    destruct (validate_factor_params_rejects factor pd Hpd Hbad) as (e & He).
    exists e. rewrite Hoid, Hfind, He. eexists. reflexivity.
  - intros e d' j.
    destruct (ObjectId factor_id) as [object_id |] eqn:Hoid; [| discriminate].
    destruct (List.filter (oid_is object_id) (user_factors d))
      as [| factor rest] eqn:Hfind; [discriminate |].
    destruct (validate_factor_params fromisoformat validate_factor factor)
      as [err | params] eqn:Hval.
    2: { destruct is_thread; discriminate. }
    intros [= <- <- <-]. split; [reflexivity |].
    assert (Hin : In factor (List.filter (oid_is object_id) (user_factors d))).
    { rewrite Hfind. left. reflexivity. }
    apply List.filter_In in Hin as [Hin Hm].
    exists factor_id, task_id, object_id, factor.
    repeat split; try reflexivity; try assumption.
    apply Nat.eqb_eq. exact Hm.
Qed.

End RunFactor.

(** The claim of C1 fails for the factor whose [adjustment_cycle] is 7:
    the request is turned down, and [tasks] has one record more. *)
Lemma run_factor_cycle7_counterexample :
  ~ UserFactorService.rejects_cleanly UserFactorService.sample_fromisoformat
      UserFactorService.sample_validate_factor
      UserFactorService.sample_ObjectId UserFactorService.smooth_run
      UserFactorService.data_rows "T7" "a" true UserFactorService.cycle7_db.
Proof.
  intros Hclaim.
  destruct (Hclaim (UserFactorService.unsupported_adjustment_cycle 7) _ _
              eq_refl) as [Htasks _].
  discriminate Htasks.
Qed.

Lemma run_factor_rejects_after_insert_witness :
  exists e d',
    UserFactorService.run_factor UserFactorService.sample_fromisoformat
      UserFactorService.sample_validate_factor
      UserFactorService.sample_ObjectId UserFactorService.smooth_run
      UserFactorService.data_rows "T7" "a" true UserFactorService.cycle7_db
    = (UserFactorService.invalid e, d', None).
Proof.
  apply (proj1 (run_factor_rejects_after_insert
                  UserFactorService.sample_fromisoformat
                  UserFactorService.sample_validate_factor
                  UserFactorService.sample_ObjectId
                  UserFactorService.smooth_run UserFactorService.data_rows
                  "T7" "a" true UserFactorService.cycle7_db)
           0%nat UserFactorService.cycle7_factor []
           UserFactorService.cycle7_params eq_refl eq_refl eq_refl).
  left. simpl. intros H. repeat destruct H as [H | H]; discriminate || exact H.
Defined.

(** ** The sort of the factor list *)

Section StableSort.
Context {A K : Type} (lt : K -> K -> bool) (key : A -> K).

Hypothesis lt_asym : forall a b, lt a b = true -> lt b a = false.

Lemma insert_perm x l : Permutation (Py.insert lt key x l) (x :: l).
Proof.
  induction l as [| y l IH]; simpl; [reflexivity |].
  destruct (lt (key y) (key x)); [| reflexivity].
  rewrite IH. apply perm_swap.
Qed.

Lemma sort_asc_perm l : Permutation (Py.sort_asc lt key l) l.
Proof.
  induction l as [| x l IH]; simpl; [reflexivity |].
  rewrite insert_perm. constructor. exact IH.
Qed.

Lemma insert_sorted x l :
  Sorted (Py.not_after lt key) l ->
  Sorted (Py.not_after lt key) (Py.insert lt key x l).
Proof.
  unfold Py.not_after.
  induction 1 as [| y l Hs IH Hhd]; simpl; [repeat constructor |].
  destruct (lt (key y) (key x)) eqn:Hyx.
  - constructor; [exact IH |].
    destruct l as [| z l]; simpl.
    + constructor. apply lt_asym. exact Hyx.
    + destruct (lt (key z) (key x)).
      * constructor. inversion Hhd; assumption.
      * constructor. apply lt_asym. exact Hyx.
  - constructor; [constructor; assumption |]. constructor. exact Hyx.
Qed.

Lemma sort_asc_sorted l : Sorted (Py.not_after lt key) (Py.sort_asc lt key l).
Proof.
  induction l as [| x l IH]; simpl; [constructor |].
  apply insert_sorted. exact IH.
Qed.

(** Stability: the elements whose key equals a given one come out in the
    order they went in. *)
Variable eqk : K -> K -> bool.
Hypothesis eqk_lt : forall k a b,
  eqk k a = true -> eqk k b = true -> lt a b = false.

Lemma insert_stable k x l :
  List.filter (fun y => eqk k (key y)) (Py.insert lt key x l)
  = List.filter (fun y => eqk k (key y)) (x :: l).
Proof.
  induction l as [| y l IH]; [reflexivity |].
  simpl Py.insert. destruct (lt (key y) (key x)) eqn:Hyx; [| reflexivity].
  change (List.filter (fun y0 => eqk k (key y0)) (y :: Py.insert lt key x l))
    with (if eqk k (key y)
          then y :: List.filter (fun y0 => eqk k (key y0)) (Py.insert lt key x l)
          else List.filter (fun y0 => eqk k (key y0)) (Py.insert lt key x l)).
  rewrite IH. simpl.
  destruct (eqk k (key y)) eqn:Hy, (eqk k (key x)) eqn:Hx; try reflexivity.
  rewrite (eqk_lt k _ _ Hy Hx) in Hyx. discriminate.
Qed.

Lemma sort_asc_stable k l :
  List.filter (fun y => eqk k (key y)) (Py.sort_asc lt key l)
  = List.filter (fun y => eqk k (key y)) l.
Proof.
  induction l as [| x l IH]; [reflexivity |].
  simpl Py.sort_asc. rewrite insert_stable. simpl. rewrite IH. reflexivity.
Qed.

End StableSort.

Section FactorList.
Import Mongo UserFactorService.

Lemma string_ltb_asym a b : String.ltb a b = true -> String.ltb b a = false.
Proof.
  unfold String.ltb. rewrite (String.compare_antisym b a).
  destruct (String.compare a b); simpl; congruence.
Qed.

Lemma string_ltb_irrefl a : String.ltb a a = false.
Proof.
  destruct (String.ltb a a) eqn:H; [| reflexivity].
  rewrite (string_ltb_asym _ _ H) in H. discriminate.
Qed.

Lemma string_eqb_ltb k a b :
  String.eqb k a = true -> String.eqb k b = true -> String.ltb a b = false.
Proof.
  intros Ha Hb. apply String.eqb_eq in Ha, Hb. subst. apply string_ltb_irrefl.
Qed.

Lemma Qltb_asym a b : Py.Qltb a b = true -> Py.Qltb b a = false.
Proof.
  unfold Py.Qltb. rewrite negb_true_iff, negb_false_iff. intros H.
  apply Qle_bool_iff. destruct (Qlt_le_dec a b) as [Hlt | Hle].
  - apply Qlt_le_weak. exact Hlt.
  - apply Qle_bool_iff in Hle. congruence.
Qed.

Lemma Qeqb_ltb k a b :
  Qeq_bool k a = true -> Qeq_bool k b = true -> Py.Qltb a b = false.
Proof.
  intros Ha Hb. apply Qeq_bool_iff in Ha, Hb. unfold Py.Qltb.
  apply negb_false_iff, Qle_bool_iff. rewrite <- Ha, <- Hb. apply Qle_refl.
Qed.

Lemma Qltb_false a b : Py.Qltb a b = false <-> (b <= a)%Q.
Proof. unfold Py.Qltb. rewrite negb_false_iff. apply Qle_bool_iff. Qed.

Lemma Sorted_mono {A} (R1 R2 : A -> A -> Prop) l :
  (forall a b, R1 a b -> R2 a b) -> Sorted R1 l -> Sorted R2 l.
Proof.
  intros Himp. induction 1 as [| x l Hs IH Hhd]; constructor; [exact IH |].
  destruct Hhd; constructor. auto.
Qed.

Variable oid_text : nat -> string.
Variable created_at_of updated_at_of : nat -> string.

Local Abbreviation factor_info :=
  (factor_info oid_text created_at_of updated_at_of).
Local Abbreviation default_info :=
  (default_info oid_text created_at_of updated_at_of).
Local Abbreviation get_user_factor_list :=
  (get_user_factor_list oid_text created_at_of updated_at_of).

(** The sort returns the same items, in the order of the key, and keeps
    items with equal keys in the order they had. *)
Lemma sort_by_spec k reverse l :
  Permutation (sort_by k reverse l) l
  /\ Sorted (in_order k reverse) (sort_by k reverse l)
  /\ forall x, List.filter (same_key k x) (sort_by k reverse l)
               = List.filter (same_key k x) l.
Proof.
  destruct k as [key | key], reverse; unfold sort_by, Py.sort;
    (split; [| split]).
  - apply sort_asc_perm.
  - apply (sort_asc_sorted (fun a b => String.ltb b a) key).
    intros a b. apply string_ltb_asym.
  - intros x.
    apply (sort_asc_stable (fun a b => String.ltb b a) key String.eqb).
    intros k0 a b Ha Hb. exact (string_eqb_ltb k0 b a Hb Ha).
  - apply sort_asc_perm.
  - apply (sort_asc_sorted String.ltb key). apply string_ltb_asym.
  - intros x. apply (sort_asc_stable String.ltb key String.eqb).
    apply string_eqb_ltb.
  - apply sort_asc_perm.
  - eapply Sorted_mono;
      [| apply (sort_asc_sorted (fun a b => Py.Qltb b a) key);
         intros a b; apply Qltb_asym].
    intros a b. unfold Py.not_after. simpl. apply Qltb_false.
  - intros x.
    apply (sort_asc_stable (fun a b => Py.Qltb b a) key Qeq_bool).
    intros k0 a b Ha Hb. exact (Qeqb_ltb k0 b a Hb Ha).
  - apply sort_asc_perm.
  - eapply Sorted_mono;
      [| apply (sort_asc_sorted Py.Qltb key); apply Qltb_asym].
    intros a b. unfold Py.not_after. simpl. apply Qltb_false.
  - intros x. apply (sort_asc_stable Py.Qltb key Qeq_bool).
    apply Qeqb_ltb.
Qed.

(** Rows other than [IC_mean] and [IC_IR] leave the defaults alone. *)
Lemma read_ic_ir_other rows : forall i,
  (forall row, In row rows -> row.1 <> "IC_mean"%string) ->
  li_IC (read_ic_ir rows i) = li_IC i.
Proof.
  unfold read_ic_ir.
  induction rows as [| row rows IH]; simpl; intros i Hrows; [reflexivity |].
  rewrite IH by (intros r Hr; apply Hrows; right; exact Hr).
  destruct (String.eqb_spec row.1 "IC_mean") as [E | _].
  - destruct (Hrows row (or_introl eq_refl) E).
  - destruct (String.eqb row.1 "IC_IR"); reflexivity.
Qed.

Lemma read_ic_ir_other_IR rows : forall i,
  (forall row, In row rows -> row.1 <> "IC_IR"%string) ->
  li_IR (read_ic_ir rows i) = li_IR i.
Proof.
  unfold read_ic_ir.
  induction rows as [| row rows IH]; simpl; intros i Hrows; [reflexivity |].
  rewrite IH by (intros r Hr; apply Hrows; right; exact Hr).
  destruct (String.eqb row.1 "IC_mean"); [reflexivity |].
  destruct (String.eqb_spec row.1 "IC_IR") as [E | _]; [| reflexivity].
  destruct (Hrows row (or_introl eq_refl) E).
Qed.

Lemma read_ic_ir_texts rows : forall i,
  li_return_ratio (read_ic_ir rows i) = li_return_ratio i
  /\ li_maximum_drawdown (read_ic_ir rows i) = li_maximum_drawdown i
  /\ (li_sharpe_ratio (read_ic_ir rows i) = li_sharpe_ratio i).
Proof.
  unfold read_ic_ir.
  induction rows as [| row rows IH]; simpl; intros i; [auto |].
  destruct (IH (if String.eqb row.1 "IC_mean" then set_IC (Py.round4 row.2) i
                else if String.eqb row.1 "IC_IR"
                     then set_IR (Py.round4 row.2) i else i))
    as (-> & -> & ->).
  destruct (String.eqb row.1 "IC_mean"); [auto |].
  destruct (String.eqb row.1 "IC_IR"); auto.
Qed.

(** A factor with no current task, or whose task has no bundle, is
    listed with the defaults. *)
Lemma factor_info_no_bundle d factor :
  (forall task_id r, f_current_task_id factor = Some task_id ->
                     In r (factor_analysis_results d) ->
                     r_task_id r <> task_id) ->
  factor_info d factor = default_info factor.
Proof.
  intros Hno. unfold UserFactorService.factor_info.
  destruct (f_current_task_id factor) as [task_id |]; [| reflexivity].
  destruct (String.eqb task_id ""); [reflexivity |].
  destruct (List.find _ _) as [r |] eqn:Hfind; [| reflexivity].
  apply List.find_some in Hfind as [Hin Heq].
  apply String.eqb_eq in Heq. destruct (Hno task_id r eq_refl Hin Heq).
Qed.

Lemma get_user_factor_list_page d user page page_size sort_field sort_order k :
  sort_key_of sort_field = Some k ->
  sort_order = "asc"%string \/ sort_order = "desc"%string ->
  page_size <> 0 ->
  List.filter (fun f => String.eqb (f_user_id f) user) (user_factors d) <> [] ->
  page <= (Z.of_nat (length (List.filter
                               (fun f => String.eqb (f_user_id f) user)
                               (user_factors d)))
           + page_size - 1) / page_size ->
  exists r,
    get_user_factor_list d user page page_size sort_field sort_order
    = success r
    /\ data r
       = Py.slice
           (sort_by k (String.eqb sort_order "desc")
              (List.map (factor_info d)
                 (List.filter (fun f => String.eqb (f_user_id f) user)
                    (user_factors d))))
           ((page - 1) * page_size)
           (Z.min ((page - 1) * page_size + page_size)
              (Z.of_nat (length
                 (sort_by k (String.eqb sort_order "desc")
                    (List.map (factor_info d)
                       (List.filter (fun f => String.eqb (f_user_id f) user)
                          (user_factors d))))))).
Proof.
  intros Hk Hord Hps Hne Hpage.
  unfold UserFactorService.get_user_factor_list, sort_result_list.
  rewrite Hk.
  assert (String.eqb sort_order "asc" || String.eqb sort_order "desc" = true)
    as ->.
  { destruct Hord as [-> | ->]; reflexivity. }
  simpl negb. cbv iota.
  destruct (Z.eqb_spec page_size 0) as [? | _]; [contradiction |].
  match goal with
  | |- context [(?tp <? page) && (0 <? ?tp)] =>
      destruct (Z.ltb_spec tp page) as [? | _]; [lia |]
  end.
  simpl andb. cbv iota.
  destruct (List.filter _ (user_factors d)) as [| f fs] eqn:Hf;
    [contradiction |].
  eexists. split; reflexivity.
Qed.

(** The list of user 2 by return: as texts, 0.0% < 10.0% < 9.0%.  By
    Sharpe ratio: 0 < 9 < 10. *)
Example listed_by_return_ratio :
  listed "return_ratio" "asc"
  = Some [("aaa", "0.0%"); ("aa", "10.0%"); ("a", "9.0%")]%string
  /\ listed "return_ratio" "desc"
     = Some [("a", "9.0%"); ("aa", "10.0%"); ("aaa", "0.0%")]%string
  /\ listed "sharpe_ratio" "asc"
     = Some [("aaa", "0.0%"); ("a", "9.0%"); ("aa", "10.0%")]%string.
Proof. repeat split; vm_compute; reflexivity. Qed.

Example slice_page :
  Py.slice [1; 2; 3; 4; 5] 2 4 = [3; 4] /\ Py.slice [1; 2; 3; 4; 5] 4 10 = [5]
  /\ Py.slice [1; 2; 3; 4; 5] (-2) 5 = [4; 5].
Proof. repeat split; reflexivity. Qed.

(** C10.  In [get_user_factor_list] the sort key of [return_ratio] and of
    [maximum_drawdown] is the text of the list item, compared as Python
    compares strings (so the text 10.0% is below the text 9.0%, and an
    ascending sort lists the item with 10.0% first), while that of
    [sharpe_ratio], [IC] and [IR] is a number (9 before 10).  For either
    kind of key and either direction the sort returns the same items,
    ordered by the key, and items with equal keys keep the order they
    had.  A factor without current task or without bundle takes part
    with the defaults 0.0% and 0.0, and so does a metric whose row the
    bundle lacks.  The page returned is a slice of that sorted list. *)
Theorem factor_list_sort_keys d :
  (sort_key_of "return_ratio" = Some (by_text li_return_ratio)
   /\ sort_key_of "maximum_drawdown" = Some (by_text li_maximum_drawdown)
   /\ sort_key_of "sharpe_ratio" = Some (by_number li_sharpe_ratio)
   /\ sort_key_of "IC" = Some (by_number li_IC)
   /\ sort_key_of "IR" = Some (by_number li_IR))
  /\ (String.ltb "10.0%" "9.0%" = true
      /\ sort_result_list "return_ratio" false [item9; item10]
         = Some [item10; item9]
      /\ sort_result_list "sharpe_ratio" false [item9; item10]
         = Some [item9; item10])
  /\ (forall k reverse l,
        Permutation (sort_by k reverse l) l
        /\ Sorted (in_order k reverse) (sort_by k reverse l)
        /\ forall x, List.filter (same_key k x) (sort_by k reverse l)
                     = List.filter (same_key k x) l)
  /\ (forall factor,
        (forall task_id r, f_current_task_id factor = Some task_id ->
                           In r (factor_analysis_results d) ->
                           r_task_id r <> task_id) ->
        factor_info d factor = default_info factor
        /\ li_return_ratio (default_info factor) = "0.0%"%string
        /\ li_maximum_drawdown (default_info factor) = "0.0%"%string
        /\ li_sharpe_ratio (default_info factor) = 0%Q
        /\ li_IC (default_info factor) = 0%Q
        /\ li_IR (default_info factor) = 0%Q)
  /\ (forall rows i,
        ((forall row, In row rows -> row.1 <> "IC_mean"%string) ->
         li_IC (read_ic_ir rows i) = li_IC i)
        /\ ((forall row, In row rows -> row.1 <> "IC_IR"%string) ->
            li_IR (read_ic_ir rows i) = li_IR i))
  /\ (forall user page page_size sort_field sort_order k,
        sort_key_of sort_field = Some k ->
        sort_order = "asc"%string \/ sort_order = "desc"%string ->
        page_size <> 0 ->
        List.filter (fun f => String.eqb (f_user_id f) user) (user_factors d)
        <> [] ->
        page <= (Z.of_nat (length (List.filter
                                     (fun f => String.eqb (f_user_id f) user)
                                     (user_factors d)))
                 + page_size - 1) / page_size ->
        exists r,
          get_user_factor_list d user page page_size sort_field sort_order
          = success r
          /\ data r
             = Py.slice
                 (sort_by k (String.eqb sort_order "desc")
                    (List.map (factor_info d)
                       (List.filter (fun f => String.eqb (f_user_id f) user)
                          (user_factors d))))
                 ((page - 1) * page_size)
                 (Z.min ((page - 1) * page_size + page_size)
                    (Z.of_nat (length
                       (sort_by k (String.eqb sort_order "desc")
                          (List.map (factor_info d)
                             (List.filter
                                (fun f => String.eqb (f_user_id f) user)
                                (user_factors d)))))))).
Proof.
  split; [repeat split; reflexivity |].
  split; [repeat split; reflexivity |].
  split; [intros k reverse l; apply sort_by_spec |].
  split.
  { intros factor Hno. split; [apply factor_info_no_bundle; exact Hno |].
    repeat split; reflexivity. }
  split.
  { intros rows i. split; [apply read_ic_ir_other | apply read_ic_ir_other_IR]. }
  intros user page page_size sort_field sort_order k.
  apply get_user_factor_list_page.
Qed.

End FactorList.

(** ** The extreme value method *)

Section ExtremeValues.
Import FactorAnalysis.

(** C2.  Whatever [ext_out_3std_list] does to a cross-section,
    [factor_analysis] applies it for every selection: the frame cleaned
    under the median selection ([median], [中位数]) is the frame cleaned
    under the std selection ([std], [标准差]).  On the cross-section
    0, 0, 0, 0, 1 the two rules of the specification differ: no value is
    outside mean +- 3 std, so the 3-sigma rule keeps the 1, while the
    median is 0 and the median absolute deviation is 0, so the MAD rule
    clips the 1 to 0.  With a trimmer that keeps this cross-section, as
    the 3-sigma rule does, the median selection therefore returns the 1
    unclipped. *)
Theorem median_selection_runs_three_sigma :
  (forall trim z_score df,
     extreme_value_step trim "median" df = extreme_value_step trim "std" df
     /\ extreme_value_step trim "中位数" df = extreme_value_step trim "标准差" df
     /\ clean_factor trim z_score "median" df = clean_factor trim z_score "std" df
     /\ extreme_value_step trim "median" df = groupby_date_apply trim df)
  /\ three_sigma_keeps lone_outlier = true
  /\ List.map Qred (mad_clip lone_outlier) = [0; 0; 0; 0; 0]%Q
  /\ (forall trim, trim lone_outlier = lone_outlier ->
        extreme_value_step trim "median" [("20240102"%string, lone_outlier)]
        = [("20240102"%string, lone_outlier)]).
Proof.
  split; [| split; [| split]].
  - intros trim z_score df. repeat split; reflexivity.
  - vm_compute. reflexivity.
  - vm_compute. reflexivity.
  - intros trim Hkeep. unfold extreme_value_step, groupby_date_apply. simpl.
    rewrite Hkeep. reflexivity.
Qed.

End ExtremeValues.

(** ** Failure of the on-demand computation *)

Section ComputeFailure.
Import FactorReader.

Variable DataFrame : Type.
Variable rename_value : string -> DataFrame -> DataFrame.

Lemma find_existsb {A} (f : A -> bool) l :
  existsb f l = true -> exists x, List.find f l = Some x.
Proof.
  induction l as [| a l IH]; simpl; [discriminate |].
  destruct (f a); [eauto | exact IH].
Qed.

Lemma existsb_rev {A} (f : A -> bool) l : existsb f (rev l) = existsb f l.
Proof.
  induction l as [| a l IH]; simpl; [reflexivity |].
  rewrite existsb_app, IH. simpl. rewrite orb_false_r. apply orb_comm.
Qed.

(** C7.  When [get_custom_factor] takes the on-demand compute path and
    the evaluation of the factor's code raises [e], the call returns
    [None] and has sent to the factor logger exactly what the error
    printer of the code type writes: a titled block with [str(e)].  The
    block carries a position exactly when the exception is a syntax
    error or its traceback leads through the evaluated code: line and
    offset of a syntax error, the line of the last [eval] frame for a
    formula, the line of the first [calculate] frame for a class.  For
    any other exception the block is the setup or class error block,
    which names the type of the exception and no position. *)
Theorem get_custom_factor_compute_failure w factor_name code_type code e :
  compute_raises DataFrame w code_type code e ->
  exists logs,
    get_custom_factor DataFrame rename_value w factor_name = (None, logs)
    /\ logs = (if String.eqb code_type "formula"
               then _print_formula_error e code
               else _print_class_error e code)
    /\ (exists title rest,
          logs = banner title :: rest
          /\ existsb (mentions (exn_str e)) rest = true)
    /\ existsb is_position logs = located code_type e
    /\ (located code_type e = false ->
        exists title msg,
          logs = [banner title; msg; error_type (exn_type e)]
          /\ mentions (exn_str e) msg = true)
    /\ (is_SyntaxError e = true ->
        In (occurred_at_line_offset (exn_lineno e) (exn_offset e)) logs)
    /\ (is_SyntaxError e = false -> code_type = "formula"%string ->
        forall fr,
          List.find (fun fr => contains "eval" (frame_name fr)) (rev (exn_tb e))
          = Some fr ->
          In (occurred_at_line (frame_lineno fr)) logs)
    /\ (is_SyntaxError e = false -> code_type = "python"%string ->
        forall fr,
          List.find (fun fr => contains "calculate" (frame_name fr)) (exn_tb e)
          = Some fr ->
          In (occurred_at_line_in_calculate (frame_lineno fr)) logs).
Proof.
  intros (Hstore & Hpers & Hdef & Hsym & Hraise).
  exists (if String.eqb code_type "formula"
          then _print_formula_error e code
          else _print_class_error e code).
  split.
  { unfold get_custom_factor. rewrite Hstore, Hpers, Hdef, Hsym. simpl.
    destruct Hraise as [[-> Hr] | [-> Hr]]; simpl; rewrite Hr; reflexivity. }
  assert (Hct : String.eqb code_type "formula" = true
                \/ (String.eqb code_type "formula" = false
                    /\ code_type = "python"%string)).
  { destruct Hraise as [[-> _] | [-> _]]; [left | right; split]; reflexivity. }
  split; [reflexivity |].
  destruct Hct as [Hf | [Hf ->]].
  - (* a formula *)
    apply String.eqb_eq in Hf. subst code_type. simpl String.eqb. cbv iota.
    unfold located, _print_formula_error. simpl String.eqb. cbv iota.
    destruct (is_SyntaxError e) eqn:Hsyn.
    + split; [eexists _, _; split; [reflexivity |];
              simpl; rewrite String.eqb_refl; reflexivity |].
      split; [reflexivity |]. split; [discriminate |].
      split; [intros _; simpl; auto |].
      split; [discriminate |]. intros _ [=].
    + destruct (existsb _ (exn_tb e)) eqn:Hev.
      * rewrite <- existsb_rev in Hev.
        destruct (find_existsb _ _ Hev) as (fr & Hfr). rewrite Hfr.
        split; [eexists _, _; split; [reflexivity |];
                simpl; rewrite String.eqb_refl; reflexivity |].
        split; [reflexivity |]. split; [discriminate |].
        split; [discriminate |].
        split; [| intros _ [=]].
        intros _ _ fr' [= <-]. simpl. auto.
      * split; [eexists _, _; split; [reflexivity |];
                simpl; rewrite String.eqb_refl; reflexivity |].
        split; [reflexivity |].
        split; [intros _; eexists _, _; split; [reflexivity |];
                simpl; apply String.eqb_refl |].
        split; [discriminate |].
        split; [| intros _ [=]].
        intros _ _ fr Hfr. apply List.find_some in Hfr as [Hin Hp].
        apply List.in_rev in Hin.
        assert (existsb (fun fr => contains "eval" (frame_name fr)) (exn_tb e)
                = true) as Hev'.
        { apply existsb_exists. eauto. }
        congruence.
  - (* a class *)
    simpl String.eqb. cbv iota.
    unfold located, _print_class_error. simpl String.eqb. cbv iota.
    destruct (is_SyntaxError e) eqn:Hsyn.
    + split; [eexists _, _; split; [reflexivity |];
              simpl; rewrite String.eqb_refl; reflexivity |].
      split; [reflexivity |]. split; [discriminate |].
      split; [intros _; simpl; auto |].
      split; [intros _ [=] | discriminate].
    + destruct (List.find _ (exn_tb e)) as [fr |] eqn:Hfr.
      * assert (Hex : existsb (fun fr => contains "calculate" (frame_name fr))
                        (exn_tb e) = true).
        { apply List.find_some in Hfr as [Hin Hp]. apply existsb_exists.
          eauto. }
        rewrite Hex.
        split; [eexists _, _; split; [reflexivity |];
                simpl; rewrite String.eqb_refl; rewrite ?orb_true_r;
                reflexivity |].
        split; [reflexivity |]. split; [discriminate |].
        split; [discriminate |].
        split; [intros _ [=] |].
        intros _ _ fr' [= <-]. simpl. auto.
      * assert (Hex : existsb (fun fr => contains "calculate" (frame_name fr))
                        (exn_tb e) = false).
        { destruct (existsb _ (exn_tb e)) eqn:Hex; [| reflexivity].
          apply find_existsb in Hex as (x & Hx). congruence. }
        rewrite Hex.
        split; [eexists _, _; split; [reflexivity |];
                simpl; rewrite String.eqb_refl; reflexivity |].
        split; [reflexivity |].
        split; [intros _; eexists _, _; split; [reflexivity |];
                simpl; apply String.eqb_refl |].
        split; [discriminate |]. split; [intros _ [=] |].
        intros _ _ fr [=].
Qed.

End ComputeFailure.

Lemma failing_reader_raises :
  FactorReader.compute_raises unit FactorReader.failing_reader "python"
    "class F(Factor): ..." FactorReader.zero_division.
Proof. repeat split; try reflexivity. right. split; reflexivity. Qed.

Lemma get_custom_factor_compute_failure_witness :
  FactorReader.compute_raises unit FactorReader.failing_reader "python"
    "class F(Factor): ..." FactorReader.zero_division
  /\ exists logs,
       FactorReader.get_custom_factor unit (fun _ df => df)
         FactorReader.failing_reader "my_factor" = (None, logs)
       /\ logs = (if String.eqb "python" "formula"
                  then FactorReader._print_formula_error
                         FactorReader.zero_division "class F(Factor): ..."
                  else FactorReader._print_class_error
                         FactorReader.zero_division "class F(Factor): ...")
       /\ (exists title rest,
             logs = FactorReader.banner title :: rest
             /\ existsb (FactorReader.mentions
                           (FactorReader.exn_str FactorReader.zero_division))
                  rest = true)
       /\ existsb FactorReader.is_position logs
          = FactorReader.located "python" FactorReader.zero_division
       /\ (FactorReader.located "python" FactorReader.zero_division = false ->
           exists title msg,
             logs = [FactorReader.banner title; msg;
                     FactorReader.error_type
                       (FactorReader.exn_type FactorReader.zero_division)]
             /\ FactorReader.mentions
                  (FactorReader.exn_str FactorReader.zero_division) msg = true)
       /\ (FactorReader.is_SyntaxError FactorReader.zero_division = true ->
           In (FactorReader.occurred_at_line_offset
                 (FactorReader.exn_lineno FactorReader.zero_division)
                 (FactorReader.exn_offset FactorReader.zero_division)) logs)
       /\ (FactorReader.is_SyntaxError FactorReader.zero_division = false ->
           "python"%string = "formula"%string ->
           forall fr,
             List.find (fun fr => FactorReader.contains "eval"
                                    (FactorReader.frame_name fr))
               (rev (FactorReader.exn_tb FactorReader.zero_division))
             = Some fr ->
             In (FactorReader.occurred_at_line (FactorReader.frame_lineno fr))
               logs)
       /\ (FactorReader.is_SyntaxError FactorReader.zero_division = false ->
           "python"%string = "python"%string ->
           forall fr,
             List.find (fun fr => FactorReader.contains "calculate"
                                    (FactorReader.frame_name fr))
               (FactorReader.exn_tb FactorReader.zero_division)
             = Some fr ->
             In (FactorReader.occurred_at_line_in_calculate
                   (FactorReader.frame_lineno fr)) logs).
Proof.
  split; [exact failing_reader_raises |].
  apply (get_custom_factor_compute_failure unit (fun _ df => df)
           FactorReader.failing_reader "my_factor" "python"
           "class F(Factor): ..." FactorReader.zero_division).
  exact failing_reader_raises.
Defined.

(** A formula whose evaluation raises before anything is evaluated (a
    factor it names is unknown): the call takes the compute path, the
    evaluation raises, [None] is returned, and the block that is logged,
    the setup error block, carries no line, offset or frame position. *)
Lemma get_custom_factor_setup_error_counterexample :
  FactorReader.compute_raises unit FactorReader.setup_failing_reader
    "formula" "RANK(turnover5)" FactorReader.unknown_factor
  /\ FactorReader.get_custom_factor unit (fun _ df => df)
       FactorReader.setup_failing_reader "my_factor"
     = (None,
        [FactorReader.banner "=== Formula Setup Error ===";
         FactorReader.error_in_formula_setup "Unknown factor: turnover5";
         FactorReader.error_type "<class 'ValueError'>"])
  /\ existsb FactorReader.is_position
       (FactorReader.get_custom_factor unit (fun _ df => df)
          FactorReader.setup_failing_reader "my_factor").2
     = false.
Proof.
  split; [| split; reflexivity].
  repeat split; try reflexivity. left. split; reflexivity.
Qed.

(** ** Flushing every task, and the logging handler *)

Section FlushAll.
Import Mongo LogHandler LogFlush.

Variable keys : gmap string (list log_entry) -> list string.
Variable uuid_text : nat -> string.
Variable now : nat -> Z.

Implicit Types (m : manager) (me : thread) (task_id : string).

Local Abbreviation emit := (LogFlush.emit keys uuid_text now).
Local Abbreviation add_details := (LogFlush.add_details uuid_text now).
Local Abbreviation emitted := (LogFlush.emitted uuid_text now).
Local Abbreviation after_adds := (LogFlush.after_adds uuid_text now).

Ltac run_flush :=
  unfold _flush_task_logs, with_lock, acquire, release, get_buffer,
    put_buffer, get_max_buffer_size, mbind, mret, M_bind, M_ret, bind, ret;
  simpl.

Ltac mem_cases :=
  try reflexivity; exfalso;
  repeat match goal with
         | H : _ ∈ _ :: _ |- _ => apply elem_of_cons in H as [? | ?]
         | H : _ ∉ _ :: _ |- _ => apply not_elem_of_cons in H as [? ?]
         end;
  (contradiction || congruence).

Lemma rows_of_app a : forall b u o,
  rows_of u o (a ++ b)
  = rows_of u o a ++ rows_of (u + length a) (o + length a) b.
Proof.
  induction a as [| x a IH]; intros b u o; simpl.
  - rewrite !Nat.add_0_r. reflexivity.
  - rewrite IH, !Nat.add_succ_r. reflexivity.
Qed.

Lemma save_logs_counts logs : forall m,
  exists m',
    save_logs logs m = Returned tt m'
    /\ log_buffer m' = log_buffer m /\ buffer_lock m' = buffer_lock m
    /\ max_buffer_size m' = max_buffer_size m
    /\ uuid_count m' = (uuid_count m + length logs)%nat
    /\ next_oid (store m') = (next_oid (store m) + length logs)%nat
    /\ user_factors (store m') = user_factors (store m)
    /\ tasks (store m') = tasks (store m)
    /\ factor_analysis_results (store m') = factor_analysis_results (store m)
    /\ factor_analysis_stage_logs (store m')
       = factor_analysis_stage_logs (store m)
         ++ rows_of (uuid_count m) (next_oid (store m)) logs.
Proof.
  induction logs as [| log rest IH]; intros m.
  - exists m. simpl. rewrite app_nil_r, !Nat.add_0_r.
    repeat split; reflexivity.
  - destruct m as [buf lk mx st uc]. simpl.
    unfold mbind, M_bind, bind, uuid4, on_store. simpl.
    match goal with |- context [save_logs rest ?m1] =>
      destruct (IH m1) as (m' & Hrun & ? & ? & ? & Hu & Ho & ? & ? & ? & Hrows)
    end.
    exists m'. rewrite Hrun. simpl in *.
    repeat split; try assumption; try lia.
    rewrite Hrows, <- app_assoc. reflexivity.
Qed.

(** One flush entered with the lock free, whatever the task's buffer
    holds. *)
Lemma flush_task_logs_step me task_id m :
  buffer_lock m = None ->
  exists m',
    _flush_task_logs me task_id m = Returned tt m'
    /\ buffer_lock m' = None
    /\ max_buffer_size m' = max_buffer_size m
    /\ (forall t, buffered m' t
                  = if decide (t = task_id) then [] else buffered m t)
    /\ uuid_count m' = (uuid_count m + length (buffered m task_id))%nat
    /\ next_oid (store m')
       = (next_oid (store m) + length (buffered m task_id))%nat
    /\ user_factors (store m') = user_factors (store m)
    /\ factor_analysis_results (store m') = factor_analysis_results (store m)
    /\ factor_analysis_stage_logs (store m')
       = factor_analysis_stage_logs (store m)
         ++ rows_of (uuid_count m) (next_oid (store m)) (buffered m task_id)
    /\ tasks (store m') = note_latest (buffered m task_id) (tasks (store m)).
Proof.
  intros Hfree. unfold buffered, note_latest.
  destruct m as [buf lk mx st uc]. simpl in *. subst lk. run_flush.
  destruct (buf !! task_id) as [[| e es] |] eqn:Hb; cbn -[save_logs last].
  - eexists. split; [reflexivity |]. simpl. rewrite app_nil_r, !Nat.add_0_r.
    repeat split; try reflexivity.
    intros t. destruct (decide (t = task_id)) as [-> |]; [| reflexivity].
    rewrite Hb. reflexivity.
  - destruct (last (e :: es)) as [latest |] eqn:Hlast.
    2:{ apply last_None in Hlast. discriminate. }
    match goal with |- context [save_logs (e :: es) ?m1] =>
      destruct (save_logs_counts (e :: es) m1)
        as (m' & Hrun & Hbuf & Hl & ? & ? & ? & ? & Ht & ? & Hrows) end.
    rewrite Hrun. eexists. split; [reflexivity |]. simpl in *.
    repeat split; try assumption.
    + intros t. rewrite Hbuf.
      destruct (decide (t = task_id)) as [-> |].
      * rewrite lookup_insert_eq. reflexivity.
      * rewrite lookup_insert_ne by congruence. reflexivity.
    + unfold update_many. rewrite Ht. reflexivity.
  - eexists. split; [reflexivity |]. simpl. rewrite app_nil_r, !Nat.add_0_r.
    repeat split; try reflexivity.
    intros t. destruct (decide (t = task_id)) as [-> |]; [| reflexivity].
    rewrite Hb. reflexivity.
Qed.

Lemma all_buffered_ext m m' ts :
  (forall t, t ∈ ts -> buffered m' t = buffered m t) ->
  all_buffered m' ts = all_buffered m ts.
Proof.
  unfold all_buffered. induction ts as [| t ts IH]; intros H; simpl.
  - reflexivity.
  - rewrite H by left. rewrite IH; [reflexivity |].
    intros t' Ht'. apply H. right. exact Ht'.
Qed.

Lemma note_latest_fold_ext m m' ts : forall acc,
  (forall t, t ∈ ts -> buffered m' t = buffered m t) ->
  fold_left (fun acc t => note_latest (buffered m' t) acc) ts acc
  = fold_left (fun acc t => note_latest (buffered m t) acc) ts acc.
Proof.
  induction ts as [| t ts IH]; intros acc H; simpl.
  - reflexivity.
  - rewrite H by left. apply IH. intros t' Ht'. apply H. right. exact Ht'.
Qed.

(** The loop of [flush_all] over distinct task ids. *)
Lemma flush_each_run me ts : forall m,
  buffer_lock m = None ->
  NoDup ts ->
  exists m',
    flush_each me ts m = Returned tt m'
    /\ buffer_lock m' = None
    /\ max_buffer_size m' = max_buffer_size m
    /\ (forall t, buffered m' t
                  = if decide (t ∈ ts) then [] else buffered m t)
    /\ uuid_count m' = (uuid_count m + length (all_buffered m ts))%nat
    /\ next_oid (store m')
       = (next_oid (store m) + length (all_buffered m ts))%nat
    /\ user_factors (store m') = user_factors (store m)
    /\ factor_analysis_results (store m') = factor_analysis_results (store m)
    /\ factor_analysis_stage_logs (store m')
       = factor_analysis_stage_logs (store m)
         ++ rows_of (uuid_count m) (next_oid (store m)) (all_buffered m ts)
    /\ tasks (store m')
       = fold_left (fun acc t => note_latest (buffered m t) acc) ts
           (tasks (store m)).
Proof.
  induction ts as [| t ts IH]; intros m Hfree Hnd.
  - exists m. unfold all_buffered. simpl. rewrite app_nil_r, !Nat.add_0_r.
    repeat split; try reflexivity. exact Hfree.
  - apply NoDup_cons in Hnd as [Hnotin Hnd].
    destruct (flush_task_logs_step me t m Hfree)
      as (m1 & Hrun1 & Hl1 & Hmx1 & Hb1 & Hu1 & Ho1 & Hf1 & Hr1 & Hrows1 & Ht1).
    destruct (IH m1 Hl1 Hnd)
      as (m2 & Hrun2 & Hl2 & Hmx2 & Hb2 & Hu2 & Ho2 & Hf2 & Hr2 & Hrows2 & Ht2).
    assert (Hsame : forall t', t' ∈ ts -> buffered m1 t' = buffered m t').
    { intros t' Hin. rewrite Hb1.
      destruct (decide (t' = t)) as [-> |]; [contradiction | reflexivity]. }
    rewrite (all_buffered_ext m m1 ts Hsame) in Hu2, Ho2, Hrows2.
    rewrite (note_latest_fold_ext m m1 ts _ Hsame) in Ht2.
    exists m2. split.
    { cbn [flush_each]. unfold mbind, M_bind, bind. rewrite Hrun1.
      exact Hrun2. }
    change (all_buffered m (t :: ts))
      with (buffered m t ++ all_buffered m ts).
    rewrite length_app, rows_of_app.
    repeat split; try congruence; try lia.
    + intros t'. rewrite Hb2, Hb1.
      destruct (decide (t' ∈ ts)) as [Hin | Hout],
        (decide (t' = t)) as [Heq | Hne],
        (decide (t' ∈ t :: ts)) as [Hin' | Hout'];
        mem_cases.
    + rewrite Hrows2, Hrows1, Hu1, Ho1, <- app_assoc. reflexivity.
    + simpl. rewrite Ht2, Ht1. reflexivity.
Qed.

Lemma flush_all_unfold me m :
  buffer_lock m = None ->
  flush_all keys me m = flush_each me (keys (log_buffer m)) m.
Proof.
  intros Hfree. destruct m as [buf lk mx st uc]. simpl in *. subst lk.
  unfold flush_all. run_flush. reflexivity.
Qed.

Lemma not_buffered m t : log_buffer m !! t = None -> buffered m t = [].
Proof. unfold buffered. intros ->. reflexivity. Qed.

(** X1.  [flush_all], entered with the lock free, returns with the lock
    free and every task's buffer empty.  The log collection grows by
    exactly the buffered entries, task by task in the order of the keys
    and within a task in enqueue order, each row with a fresh log id and
    the next storage ordinal; factors and result bundles are untouched. *)
Theorem flush_all_persists_every_buffer me m :
  keys_ok keys ->
  buffer_lock m = None ->
  exists m',
    flush_all keys me m = Returned tt m'
    /\ buffer_lock m' = None
    /\ (forall t, buffered m' t = [])
    /\ factor_analysis_stage_logs (store m')
       = factor_analysis_stage_logs (store m)
         ++ rows_of (uuid_count m) (next_oid (store m))
              (all_buffered m (keys (log_buffer m)))
    /\ user_factors (store m') = user_factors (store m)
    /\ factor_analysis_results (store m') = factor_analysis_results (store m).
Proof.
  intros Hkeys Hfree. destruct (Hkeys (log_buffer m)) as [Hnd Hcover].
  destruct (flush_each_run me (keys (log_buffer m)) m Hfree Hnd)
    as (m' & Hrun & Hl & _ & Hb & _ & _ & Hf & Hr & Hrows & _).
  exists m'. rewrite flush_all_unfold by exact Hfree.
  repeat split; try assumption.
  intros t. rewrite Hb.
  destruct (decide (t ∈ keys (log_buffer m))) as [| Hout]; [reflexivity |].
  apply not_buffered. destruct (log_buffer m !! t) eqn:Hlk; [| reflexivity].
  exfalso. apply Hout, Hcover. rewrite Hlk. eauto.
Qed.

Lemma set_last_log_task_id l d : t_task_id (set_last_log l d) = t_task_id d.
Proof. reflexivity. Qed.

Lemma last_elem_of {A} (l : list A) x : last l = Some x -> x ∈ l.
Proof.
  intros H. apply last_Some in H as [l' ->]. apply elem_of_app. right.
  left.
Qed.

(** The task updates of the loop, read record by record. *)
Lemma note_latest_fold m ts : forall acc,
  well_keyed m ->
  NoDup ts ->
  fold_left (fun acc t => note_latest (buffered m t) acc) ts acc
  = List.map (fun d => if decide (t_task_id d ∈ ts)
                       then shows_latest (buffered m (t_task_id d)) d
                       else d) acc.
Proof.
  intros acc Hwk. revert acc.
  induction ts as [| t ts IH]; intros acc Hnd.
  - simpl. rewrite <- (List.map_id acc) at 1. apply List.map_ext.
    intros d. destruct (decide (t_task_id d ∈ [])) as [H |]; [| reflexivity].
    inversion H.
  - apply NoDup_cons in Hnd as [Hnotin Hnd]. simpl. rewrite IH by exact Hnd.
    unfold note_latest, shows_latest.
    destruct (last (buffered m t)) as [l |] eqn:Hlast.
    + assert (Hl : le_task_id l = t) by (apply Hwk, last_elem_of, Hlast).
      unfold update_many. rewrite List.map_map. apply List.map_ext.
      intros d. unfold task_id_is. rewrite Hl.
      destruct (bool_decide_reflect (t_task_id d = t)) as [Heq | Hne].
      * rewrite set_last_log_task_id, Heq, Hlast.
        destruct (decide (t ∈ ts)) as [Hin | Hout]; [contradiction |].
        destruct (decide (t ∈ t :: ts)) as [Hin' | Hout']; [reflexivity |].
        exfalso. apply Hout'. left.
      * destruct (decide (t_task_id d ∈ ts)) as [Hin | Hout],
          (decide (t_task_id d ∈ t :: ts)) as [Hin' | Hout'];
          mem_cases.
    + apply List.map_ext. intros d.
      destruct (decide (t_task_id d ∈ ts)) as [Hin | Hout],
        (decide (t_task_id d ∈ t :: ts)) as [Hin' | Hout'];
        try (mem_cases; fail).
      apply elem_of_cons in Hin' as [Heq | Hin']; [| contradiction].
      rewrite Heq, Hlast. reflexivity.
Qed.

(** X2.  When every buffered entry sits under its own task's key,
    [flush_all] leaves each task record showing the stage, message, time
    and level of the newest entry that was buffered for that task, and
    leaves the records of tasks with nothing buffered as they were. *)
Theorem flush_all_task_records me m :
  keys_ok keys ->
  buffer_lock m = None ->
  well_keyed m ->
  exists m',
    flush_all keys me m = Returned tt m'
    /\ tasks (store m')
       = List.map (fun d => shows_latest (buffered m (t_task_id d)) d)
           (tasks (store m)).
Proof.
  intros Hkeys Hfree Hwk. destruct (Hkeys (log_buffer m)) as [Hnd Hcover].
  destruct (flush_each_run me (keys (log_buffer m)) m Hfree Hnd)
    as (m' & Hrun & _ & _ & _ & _ & _ & _ & _ & _ & Ht).
  exists m'. rewrite flush_all_unfold by exact Hfree.
  split; [exact Hrun |]. rewrite Ht, note_latest_fold by assumption.
  apply List.map_ext. intros d.
  destruct (decide (t_task_id d ∈ keys (log_buffer m))) as [| Hout];
    [reflexivity |].
  unfold shows_latest. rewrite not_buffered; [reflexivity |].
  destruct (log_buffer m !! t_task_id d) eqn:Hlk; [| reflexivity].
  exfalso. apply Hout, Hcover. rewrite Hlk. eauto.
Qed.

Lemma flush_each_nothing me ts : forall m,
  buffer_lock m = None ->
  (forall t, buffered m t = []) ->
  flush_each me ts m = Returned tt m.
Proof.
  induction ts as [| t ts IH]; intros m Hfree Hempty; [reflexivity |].
  cbn [flush_each]. unfold mbind, M_bind, bind.
  assert (Hone : _flush_task_logs me t m = Returned tt m).
  { specialize (Hempty t). unfold buffered in Hempty.
    destruct m as [buf lk mx st uc]. simpl in *. subst lk. run_flush.
    destruct (buf !! t) as [[| e es] |]; try discriminate; reflexivity. }
  rewrite Hone. apply IH; assumption.
Qed.

(** X3.  A second [flush_all] right after the first one changes nothing:
    no row is written twice and no task record is touched again. *)
Theorem flush_all_twice me m :
  keys_ok keys ->
  buffer_lock m = None ->
  exists m',
    flush_all keys me m = Returned tt m'
    /\ flush_all keys me m' = Returned tt m'.
Proof.
  intros Hkeys Hfree.
  destruct (flush_all_persists_every_buffer me m Hkeys Hfree)
    as (m' & Hrun & Hl & Hempty & _).
  exists m'. split; [exact Hrun |].
  rewrite flush_all_unfold by exact Hl.
  apply flush_each_nothing; assumption.
Qed.

Lemma uuid4_run m :
  uuid4 m = Returned (uuid_count m)
              {| log_buffer := log_buffer m; buffer_lock := buffer_lock m;
                 max_buffer_size := max_buffer_size m; store := store m;
                 uuid_count := S (uuid_count m) |}.
Proof. reflexivity. Qed.

(** [add_log] below the threshold, for the manager written out. *)
Lemma add_log_room me task_id e buf mx st uc es :
  (length es + 1 < mx)%nat ->
  default [] (buf !! task_id) = es ->
  add_log me task_id e
    {| log_buffer := buf; buffer_lock := None; max_buffer_size := mx;
       store := st; uuid_count := uc |}
  = Returned tt
      {| log_buffer := <[task_id := es ++ [e]]> buf; buffer_lock := None;
         max_buffer_size := mx; store := st; uuid_count := uc |}.
Proof.
  intros Hlen Hes. unfold add_log. run_flush.
  destruct (buf !! task_id) as [es' |] eqn:Hb; simpl in *; subst es; simpl in *.
  - rewrite Hb. simpl. rewrite length_app. simpl.
    destruct (Nat.leb_spec mx (length es' + 1)) as [? | _]; [lia |].
    reflexivity.
  - rewrite lookup_insert_eq. simpl.
    destruct (Nat.leb_spec mx 1) as [? | _]; [lia |].
    rewrite insert_insert_eq. reflexivity.
Qed.

Lemma add_log_full me task_id e buf mx st uc es :
  (mx <= length es + 1)%nat ->
  default [] (buf !! task_id) = es ->
  add_log me task_id e
    {| log_buffer := buf; buffer_lock := None; max_buffer_size := mx;
       store := st; uuid_count := uc |}
  = Blocked me
      {| log_buffer := <[task_id := es ++ [e]]> buf; buffer_lock := Some me;
         max_buffer_size := mx; store := st; uuid_count := uc |}.
Proof.
  intros Hlen Hes. unfold add_log. run_flush.
  destruct (buf !! task_id) as [es' |] eqn:Hb; simpl in *; subst es; simpl in *.
  - rewrite Hb. simpl. rewrite length_app. simpl.
    destruct (Nat.leb_spec mx (length es' + 1)) as [_ | ?]; [| lia].
    reflexivity.
  - rewrite lookup_insert_eq. simpl.
    destruct (Nat.leb_spec mx 1) as [_ | ?]; [| lia].
    rewrite insert_insert_eq. reflexivity.
Qed.

Lemma add_details_room me task_id factor_id record kvs :
  forall buf mx st uc es,
  buf !! task_id = Some es ->
  (length es + length kvs < mx)%nat ->
  add_details me task_id factor_id record kvs
    {| log_buffer := buf; buffer_lock := None; max_buffer_size := mx;
       store := st; uuid_count := uc |}
  = Returned tt
      {| log_buffer :=
           <[task_id := es ++ detail_entries uuid_text now task_id factor_id
                                record kvs uc]> buf;
         buffer_lock := None; max_buffer_size := mx; store := st;
         uuid_count := (uc + length kvs)%nat |}.
Proof.
  induction kvs as [| kv rest IH]; intros buf mx st uc es Hb Hlen.
  - simpl. rewrite app_nil_r, Nat.add_0_r, insert_id by exact Hb.
    reflexivity.
  - cbn [LogFlush.add_details]. unfold mbind, M_bind, bind.
    rewrite uuid4_run. cbn [log_buffer buffer_lock max_buffer_size store
                              uuid_count].
    simpl in Hlen.
    rewrite (add_log_room _ _ _ _ _ _ _ es) by (try lia; rewrite Hb; reflexivity).
    rewrite (IH _ _ _ _ (es ++ [debug_entry uuid_text now task_id factor_id
                                   record kv uc])).
    + rewrite insert_insert_eq, <- app_assoc. simpl.
      rewrite Nat.add_succ_r. reflexivity.
    + apply lookup_insert_eq.
    + rewrite length_app. simpl. lia.
Qed.

Lemma add_details_full me task_id factor_id record kvs :
  forall buf mx st uc es,
  buf !! task_id = Some es ->
  kvs <> [] ->
  (mx <= length es + length kvs)%nat ->
  exists m',
    add_details me task_id factor_id record kvs
      {| log_buffer := buf; buffer_lock := None; max_buffer_size := mx;
         store := st; uuid_count := uc |}
    = Blocked me m'
    /\ buffer_lock m' = Some me /\ store m' = st.
Proof.
  induction kvs as [| kv rest IH]; intros buf mx st uc es Hb Hne Hlen;
    [congruence |].
  cbn [LogFlush.add_details]. unfold mbind, M_bind, bind.
  rewrite uuid4_run. cbn [log_buffer buffer_lock max_buffer_size store
                            uuid_count].
  simpl in Hlen.
  destruct (Nat.le_gt_cases mx (length es + 1)) as [Hfull | Hroom].
  - rewrite (add_log_full _ _ _ _ _ _ _ es)
      by (try lia; rewrite Hb; reflexivity).
    eexists. repeat split.
  - rewrite (add_log_room _ _ _ _ _ _ _ es)
      by (try lia; rewrite Hb; reflexivity).
    apply (IH _ _ _ _ (es ++ [debug_entry uuid_text now task_id factor_id
                                record kv uc])).
    + apply lookup_insert_eq.
    + destruct rest; [simpl in Hlen; lia | discriminate].
    + rewrite length_app. simpl. lia.
Qed.

(** The adds of one [emit] when the buffer has room for them. *)
Lemma emit_adds me task_id factor_id record m :
  buffer_lock m = None ->
  (length (buffered m task_id) + S (length (details record))
   < max_buffer_size m)%nat ->
  emit me task_id factor_id record m
  = (if is_urgent (levelname record) then flush_all keys me else mret tt)
      (after_adds task_id factor_id record m).
Proof.
  intros Hfree Hlen. unfold buffered in Hlen. unfold LogFlush.emit.
  destruct m as [buf lk mx st uc]. simpl in *. subst lk.
  unfold mbind, M_bind, bind. rewrite uuid4_run.
  cbn [log_buffer buffer_lock max_buffer_size store uuid_count].
  rewrite (add_log_room _ _ _ _ _ _ _ (default [] (buf !! task_id)))
    by (try lia; reflexivity).
  rewrite (add_details_room _ _ _ _ _ _ _ _ _
             (default [] (buf !! task_id)
              ++ [main_entry uuid_text now task_id factor_id record uc])).
  - unfold LogFlush.after_adds, buffered, LogFlush.emitted. simpl.
    rewrite insert_insert_eq, <- app_assoc. simpl.
    rewrite Nat.add_succ_r. reflexivity.
  - apply lookup_insert_eq.
  - rewrite length_app. simpl. lia.
Qed.

(** X4.  [emit] of a record that is not a warning or worse, with room in
    the task's buffer, writes nothing to the store: it appends the main
    entry and then one DEBUG entry per detail, in the order of the
    details, to that task's buffer, and leaves the other buffers alone. *)
Theorem emit_buffers_record_and_details me task_id factor_id record m :
  buffer_lock m = None ->
  is_urgent (levelname record) = false ->
  (length (buffered m task_id) + S (length (details record))
   < max_buffer_size m)%nat ->
  exists m',
    emit me task_id factor_id record m = Returned tt m'
    /\ store m' = store m
    /\ buffer_lock m' = None
    /\ buffered m' task_id
       = buffered m task_id ++ emitted task_id factor_id record (uuid_count m)
    /\ forall t, t <> task_id -> buffered m' t = buffered m t.
Proof.
  intros Hfree Hcalm Hlen. exists (after_adds task_id factor_id record m).
  rewrite emit_adds, Hcalm by assumption.
  split; [reflexivity |]. split; [reflexivity |]. split; [exact Hfree |].
  unfold buffered, LogFlush.after_adds. simpl. split.
  - rewrite lookup_insert_eq. reflexivity.
  - intros t Hne. rewrite lookup_insert_ne by congruence. reflexivity.
Qed.

(** X5.  [emit] of an ERROR, CRITICAL or WARNING record, with room in the
    task's buffer, ends with every buffer empty: all that was buffered
    for any task, this record's entries included, is in the log
    collection when [emit] returns. *)
Theorem emit_urgent_flushes_everything me task_id factor_id record m :
  keys_ok keys ->
  buffer_lock m = None ->
  is_urgent (levelname record) = true ->
  (length (buffered m task_id) + S (length (details record))
   < max_buffer_size m)%nat ->
  exists m',
    emit me task_id factor_id record m = Returned tt m'
    /\ buffer_lock m' = None
    /\ (forall t, buffered m' t = [])
    /\ factor_analysis_stage_logs (store m')
       = factor_analysis_stage_logs (store m)
         ++ rows_of (uuid_count m + S (length (details record)))
              (next_oid (store m))
              (all_buffered (after_adds task_id factor_id record m)
                 (keys (log_buffer (after_adds task_id factor_id record m)))).
Proof.
  intros Hkeys Hfree Hurgent Hlen.
  destruct (flush_all_persists_every_buffer me
              (after_adds task_id factor_id record m) Hkeys Hfree)
    as (m' & Hrun & Hl & Hempty & Hrows & _).
  exists m'. rewrite emit_adds, Hurgent by assumption.
  repeat split; assumption.
Qed.

(** X6.  [emit] does not return when the record's entries bring the
    task's buffer to [max_buffer_size]: one of its [add_log] calls stops
    at the acquire inside [_flush_task_logs] with the lock held by the
    calling thread and the store unchanged.  This is no exception, so
    the [except] clause of [emit] does not see it. *)
Theorem emit_blocks_at_threshold me task_id factor_id record m :
  buffer_lock m = None ->
  (max_buffer_size m
   <= length (buffered m task_id) + S (length (details record)))%nat ->
  exists m',
    emit me task_id factor_id record m = Blocked me m'
    /\ buffer_lock m' = Some me /\ store m' = store m.
Proof.
  intros Hfree Hlen. unfold buffered in Hlen. unfold LogFlush.emit.
  destruct m as [buf lk mx st uc]. simpl in *. subst lk.
  unfold mbind, M_bind, bind. rewrite uuid4_run.
  cbn [log_buffer buffer_lock max_buffer_size store uuid_count].
  destruct (Nat.le_gt_cases mx (length (default [] (buf !! task_id)) + 1))
    as [Hfull | Hroom].
  - rewrite (add_log_full _ _ _ _ _ _ _ (default [] (buf !! task_id)))
      by (try lia; reflexivity).
    eexists. repeat split.
  - rewrite (add_log_room _ _ _ _ _ _ _ (default [] (buf !! task_id)))
      by (try lia; reflexivity).
    destruct (add_details_full me task_id factor_id record (details record)
                (<[task_id := default [] (buf !! task_id)
                     ++ [main_entry uuid_text now task_id factor_id record uc]]>
                   buf) mx st (S uc)
                (default [] (buf !! task_id)
                 ++ [main_entry uuid_text now task_id factor_id record uc]))
      as (m' & Hrun & Hl & Hst).
    + apply lookup_insert_eq.
    + destruct (details record); [simpl in Hlen; lia | discriminate].
    + rewrite length_app. simpl. lia.
    + exists m'. rewrite Hrun. repeat split; assumption.
Qed.
End FlushAll.

Section FlushAllSamples.
Import Mongo LogHandler LogFlush.

Lemma map_keys_ok : keys_ok map_keys.
Proof.
  intros buf. unfold map_keys. split.
  - apply NoDup_fst_map_to_list.
  - intros t [es Hes]. apply list_elem_of_fmap. exists (t, es).
    split; [reflexivity |]. apply elem_of_map_to_list. exact Hes.
Qed.

Lemma two_tasks_well_keyed : well_keyed two_tasks.
Proof.
  intros t e. unfold buffered, two_tasks. simpl.
  destruct (decide (t = "T1"%string)) as [-> | Hne1].
  - rewrite lookup_insert_eq. simpl. intros Hin.
    repeat (apply elem_of_cons in Hin as [-> | Hin]; [reflexivity |]).
    inversion Hin.
  - rewrite lookup_insert_ne by congruence.
    destruct (decide (t = "T2"%string)) as [-> | Hne2].
    + rewrite lookup_singleton_eq. simpl. intros Hin.
      apply list_elem_of_singleton in Hin as ->. reflexivity.
    + rewrite lookup_singleton_ne by congruence. simpl. intros Hin.
      inversion Hin.
Qed.

Lemma flush_all_persists_every_buffer_witness :
  keys_ok map_keys /\ buffer_lock two_tasks = None /\
  exists m',
    flush_all map_keys 0%nat two_tasks = Returned tt m'
    /\ buffer_lock m' = None
    /\ (forall t, buffered m' t = [])
    /\ factor_analysis_stage_logs (store m')
       = factor_analysis_stage_logs (store two_tasks)
         ++ rows_of (uuid_count two_tasks) (next_oid (store two_tasks))
              (all_buffered two_tasks (map_keys (log_buffer two_tasks)))
    /\ user_factors (store m') = user_factors (store two_tasks)
    /\ factor_analysis_results (store m')
       = factor_analysis_results (store two_tasks).
Proof.
  split; [exact map_keys_ok |]. split; [reflexivity |].
  apply (flush_all_persists_every_buffer map_keys 0%nat two_tasks).
  - exact map_keys_ok.
  - reflexivity.
Defined.

Lemma flush_all_task_records_witness :
  keys_ok map_keys /\ buffer_lock two_tasks = None /\ well_keyed two_tasks /\
  exists m',
    flush_all map_keys 0%nat two_tasks = Returned tt m'
    /\ tasks (store m')
       = List.map (fun d => shows_latest (buffered two_tasks (t_task_id d)) d)
           (tasks (store two_tasks)).
Proof.
  split; [exact map_keys_ok |]. split; [reflexivity |].
  split; [exact two_tasks_well_keyed |].
  apply (flush_all_task_records map_keys 0%nat two_tasks).
  - exact map_keys_ok.
  - reflexivity.
  - exact two_tasks_well_keyed.
Defined.

Lemma flush_all_twice_witness :
  keys_ok map_keys /\ buffer_lock two_tasks = None /\
  exists m',
    flush_all map_keys 0%nat two_tasks = Returned tt m'
    /\ flush_all map_keys 0%nat m' = Returned tt m'.
Proof.
  split; [exact map_keys_ok |]. split; [reflexivity |].
  apply (flush_all_twice map_keys 0%nat two_tasks).
  - exact map_keys_ok.
  - reflexivity.
Defined.

Lemma emit_buffers_record_and_details_witness :
  buffer_lock two_tasks = None /\
  is_urgent (levelname info_record) = false /\
  (length (buffered two_tasks "T1") + S (length (details info_record))
   < max_buffer_size two_tasks)%nat /\
  exists m',
    emit map_keys sample_uuid_text sample_now 0%nat "T1" "F1" info_record
      two_tasks = Returned tt m'
    /\ store m' = store two_tasks
    /\ buffer_lock m' = None
    /\ buffered m' "T1"
       = buffered two_tasks "T1"
         ++ emitted sample_uuid_text sample_now "T1" "F1" info_record
              (uuid_count two_tasks)
    /\ forall t, t <> "T1"%string -> buffered m' t = buffered two_tasks t.
Proof.
  split; [reflexivity |]. split; [reflexivity |].
  split; [vm_compute; lia |].
  apply (emit_buffers_record_and_details map_keys sample_uuid_text sample_now
           0%nat "T1" "F1" info_record two_tasks).
  - reflexivity.
  - reflexivity.
  - vm_compute. lia.
Defined.

Lemma emit_urgent_flushes_everything_witness :
  keys_ok map_keys /\ buffer_lock two_tasks = None /\
  is_urgent (levelname error_record) = true /\
  (length (buffered two_tasks "T2") + S (length (details error_record))
   < max_buffer_size two_tasks)%nat /\
  exists m',
    emit map_keys sample_uuid_text sample_now 0%nat "T2" "F2" error_record
      two_tasks = Returned tt m'
    /\ buffer_lock m' = None
    /\ (forall t, buffered m' t = [])
    /\ factor_analysis_stage_logs (store m')
       = factor_analysis_stage_logs (store two_tasks)
         ++ rows_of (uuid_count two_tasks + S (length (details error_record)))
              (next_oid (store two_tasks))
              (all_buffered
                 (after_adds sample_uuid_text sample_now "T2" "F2"
                    error_record two_tasks)
                 (map_keys
                    (log_buffer
                       (after_adds sample_uuid_text sample_now "T2" "F2"
                          error_record two_tasks)))).
Proof.
  split; [exact map_keys_ok |]. split; [reflexivity |].
  split; [reflexivity |]. split; [vm_compute; lia |].
  apply (emit_urgent_flushes_everything map_keys sample_uuid_text sample_now
           0%nat "T2" "F2" error_record two_tasks).
  - exact map_keys_ok.
  - reflexivity.
  - reflexivity.
  - vm_compute. lia.
Defined.

Lemma emit_blocks_at_threshold_witness :
  buffer_lock sample_manager = None /\
  (max_buffer_size sample_manager
   <= length (buffered sample_manager "T1")
      + S (length (details error_record)))%nat /\
  exists m',
    emit map_keys sample_uuid_text sample_now 3%nat "T1" "F1" error_record
      sample_manager = Blocked 3%nat m'
    /\ buffer_lock m' = Some 3%nat /\ store m' = store sample_manager.
Proof.
  split; [reflexivity |]. split; [vm_compute; lia |].
  apply (emit_blocks_at_threshold map_keys sample_uuid_text sample_now
           3%nat "T1" "F1" error_record sample_manager).
  - reflexivity.
  - vm_compute. lia.
Defined.

End FlushAllSamples.

(** ** The market data reader *)

Section MarketDataQueries.
Import MarketDataReader MarketData.

Variable row : Type.
Variable project : option (list (string * Z)) -> market_doc -> row.
Variable drop_id : row -> row.
Variable as_completed : list (option (list row)) -> list (option (list row)).
Variable all_symbols : list string.

Local Abbreviation _get_chunk_data :=
  (MarketData._get_chunk_data row project drop_id).
Local Abbreviation get_market_data :=
  (MarketData.get_market_data row project drop_id as_completed all_symbols).

Lemma concat_Permutation {A} (l1 l2 : list (list A)) :
  Permutation l1 l2 -> Permutation (concat l1) (concat l2).
Proof.
  induction 1 as [| x l l' _ IH | x y l | l l' l'' _ IH1 _ IH2]; simpl.
  - constructor.
  - apply Permutation_app_head. exact IH.
  - rewrite !app_assoc. apply Permutation_app_tail, Permutation_app_comm.
  - etransitivity; eassumption.
Qed.

(** Splitting a filter by two conditions that exclude each other. *)
Lemma filter_split {A} (p q r : A -> bool) (l : list A) :
  (forall x, p x = q x || r x) ->
  (forall x, q x && r x = false) ->
  Permutation (List.filter p l) (List.filter q l ++ List.filter r l).
Proof.
  intros Hp Hqr. induction l as [| x l IH]; simpl; [constructor |].
  rewrite Hp. specialize (Hqr x).
  destruct (q x), (r x); simpl in *; try discriminate.
  - constructor. exact IH.
  - apply Permutation_cons_app. exact IH.
  - exact IH.
Qed.

(** The date condition of a chunk's query is the test of its window,
    also when the window is a single day. *)
Lemma matches_build_query a b qp type d :
  a <= b ->
  matches (build_query (a, b) qp type) d
  = (a <=? date d) && (date d <=? b)
    && attributes_match (build_query (a, b) qp type) d.
Proof.
  intros Hab. unfold matches. f_equal. unfold build_query. simpl.
  destruct (Z.eqb_spec a b) as [-> | Hne]; simpl; [| reflexivity].
  destruct (Z.eqb_spec (date d) b) as [-> | Hd].
  - rewrite Z.leb_refl. reflexivity.
  - destruct (Z.leb_spec b (date d)), (Z.leb_spec (date d) b);
      try reflexivity; lia.
Qed.

Lemma attributes_match_window c1 c2 qp qp' type d :
  indicator qp = indicator qp' -> st qp = st qp' ->
  attributes_match (build_query c1 qp type) d
  = attributes_match (build_query c2 qp' type) d.
Proof.
  intros Hi Hs. unfold attributes_match, build_query. simpl.
  rewrite Hi, Hs. reflexivity.
Qed.

(** The rows of a chunk, [None] read as no rows. *)
Lemma chunk_rows db c qp type :
  default [] (_get_chunk_data db c qp type)
  = List.map (fun d => drop_id (project (projection_of (fields qp)) d))
      (List.filter (matches (build_query c qp type))
         (if is_future type then future_market db else stock_market db)).
Proof.
  unfold MarketData._get_chunk_data.
  destruct (List.filter _ _) as [| d ds]; simpl; [reflexivity |].
  rewrite List.map_map. reflexivity.
Qed.

Lemma chunk_frame_nonempty db c qp type rows :
  _get_chunk_data db c qp type = Some rows -> rows <> [].
Proof.
  unfold MarketData._get_chunk_data.
  destruct (List.filter _ _) as [| d ds]; simpl; [discriminate |].
  intros [= <-]. discriminate.
Qed.

(** The windows of a tiling select, between them, the documents of the
    whole range, each once. *)
Lemma tiles_filter w a b cs :
  tiles w a b cs ->
  forall qp qp' type (coll : list market_doc),
  indicator qp = indicator qp' -> st qp = st qp' ->
  Permutation
    (concat (List.map
               (fun c => List.filter (matches (build_query c qp type)) coll)
               cs))
    (List.filter (matches (build_query (a, b) qp' type)) coll).
Proof.
  induction 1 as [a b Hab Hw | a b cs Hlt Ht IH];
    intros qp qp' type coll Hi Hs.
  - simpl. rewrite app_nil_r.
    erewrite List.filter_ext; [reflexivity |]. intros d.
    rewrite !matches_build_query by exact Hab.
    rewrite (attributes_match_window _ (a, b) _ qp' _ _ Hi Hs). reflexivity.
  - pose proof (tiles_width_pos _ _ _ _ Ht) as Hpos.
    cbn [List.map concat]. rewrite (IH qp qp type coll eq_refl eq_refl).
    symmetry. apply filter_split; intros d;
      rewrite !matches_build_query by lia;
      rewrite ?(attributes_match_window (a, b) (a, a + w - 1) qp' qp type d)
        by congruence;
      rewrite ?(attributes_match_window (a + w, b) (a, a + w - 1) qp qp type d)
        by congruence;
      destruct (attributes_match _ d);
      rewrite ?andb_true_r, ?andb_false_r; try reflexivity;
      destruct (Z.leb_spec a (date d)), (Z.leb_spec (date d) b),
        (Z.leb_spec (date d) (a + w - 1)), (Z.leb_spec (a + w) (date d));
      simpl; try reflexivity; lia.
Qed.

Lemma collect_concat results : forall dfs,
  concat (collect row results dfs)
  = concat dfs ++ concat (List.map (default []) results).
Proof.
  induction results as [| [[| r df] |] rest IH]; intros dfs; simpl.
  - rewrite app_nil_r. reflexivity.
  - apply IH.
  - rewrite IH, concat_app. simpl. rewrite app_nil_r, <- app_assoc.
    reflexivity.
  - apply IH.
Qed.

Lemma collect_nonempty results : forall dfs,
  Forall (fun df => df <> []) dfs ->
  Forall (fun df => df <> []) (collect row results dfs).
Proof.
  induction results as [| [[| r df] |] rest IH]; intros dfs Hdfs; simpl;
    try (apply IH; exact Hdfs); [exact Hdfs |].
  apply IH, Forall_app. split; [exact Hdfs |].
  constructor; [discriminate | constructor].
Qed.

Lemma concat_map_ext {A B} (f g : A -> list B) (l : list A) :
  (forall x, f x = g x) -> concat (List.map f l) = concat (List.map g l).
Proof. intros H. induction l; simpl; [| rewrite H, IHl]; reflexivity. Qed.

Lemma concat_map_map {A B C} (f : B -> C) (g : A -> list B) (l : list A) :
  concat (List.map (fun x => List.map f (g x)) l)
  = List.map f (concat (List.map g l)).
Proof.
  induction l as [| x l IH]; simpl; [reflexivity |].
  rewrite IH, List.map_app. reflexivity.
Qed.

(** X7.  For dates of the years 1000 to 9999 with [start <= end]:
    when [start = end], or when the window that holds [end] has its
    nominal end (its start plus 89 days) no later than 9999-12-31,
    [get_market_data] returns what one query over the whole range
    returns, up to the order of the rows: the windows of
    [_chunk_date_range] select every matching document once, whatever the
    order in which the workers finish, and the answer is [None] exactly
    when the range query finds nothing.  The [symbols] argument plays no
    part: the query never filters by symbol.  Otherwise, with
    [start < end] and that nominal end beyond 9999-12-31, the call raises
    the [OverflowError] of [_chunk_date_range] and runs no query. *)
Theorem get_market_data_is_range_query fuel db symbols symbols' s e
    indicator st fields type :
  (forall l, Permutation (as_completed l) l) ->
  year_1000 <= s ->
  s <= e ->
  e <= date_max ->
  (chunk_fuel s e <= fuel)%nat ->
  (s = e \/ last_start 90 s e + 89 <= date_max ->
   exists result,
     get_market_data fuel db symbols (Some s) (Some e) indicator st fields
       type
     = Some (finished result)
     /\ option_Forall2 Permutation result
          (_get_chunk_data db (s, e)
             {| MarketData.symbols := symbols';
                MarketData.fields := default [] (listify <$> fields);
                MarketData.indicator := indicator; MarketData.st := st |}
             type))
  /\ (s < e -> date_max < last_start 90 s e + 89 ->
      get_market_data fuel db symbols (Some s) (Some e) indicator st fields
        type
      = Some OverflowError).
Proof.
  intros Horder Hyear Hse Hmax Hfuel.
  assert (Hs : 1 <= s) by (unfold year_1000 in Hyear; lia).
  assert (Hcm : 1 <= default_chunk_months)
    by (unfold default_chunk_months; lia).
  split.
  2: { intros Hlt Hlast. unfold MarketData.get_market_data.
       rewrite (chunk_date_range_overflows _ Hcm s e fuel Hs Hlt Hmax Hfuel
                  Hlast).
       reflexivity. }
  intros Hlast.
  destruct (chunk_date_range_tiles _ Hcm s e fuel Hs Hse Hfuel Hlast)
    as (cs & Hrun & Ht).
  unfold MarketData.get_market_data. rewrite Hrun. cbn [mbind option_bind].
  set (qp := {| MarketData.symbols := default all_symbols (listify <$> symbols);
                MarketData.fields := default [] (listify <$> fields);
                MarketData.indicator := indicator; MarketData.st := st |}).
  set (qp' := {| MarketData.symbols := symbols';
                 MarketData.fields := default [] (listify <$> fields);
                 MarketData.indicator := indicator; MarketData.st := st |}).
  set (futures := List.map (fun chunk => _get_chunk_data db chunk qp type) cs).
  assert (Hall :
    Permutation (concat (collect row (as_completed futures) []))
                (default [] (_get_chunk_data db (s, e) qp' type))).
  { rewrite collect_concat. simpl.
    rewrite (concat_Permutation _ _
               (Permutation_map (default []) (Horder futures))).
    unfold futures. rewrite List.map_map, chunk_rows.
    rewrite (concat_map_ext _ _ cs (fun c => chunk_rows db c qp type)).
    rewrite concat_map_map. apply Permutation_map.
    apply (tiles_filter _ _ _ _ Ht qp qp'); reflexivity. }
  pose proof (collect_nonempty (as_completed futures) []
                (List.Forall_nil _)) as Hne.
  destruct (collect row (as_completed futures) []) as [| df dfs] eqn:Hc.
  - exists None. split; [reflexivity |]. simpl in Hall.
    apply Permutation_nil in Hall.
    destruct (_get_chunk_data db (s, e) qp' type) as [rows |] eqn:Hq;
      [| constructor].
    exfalso. simpl in Hall. subst rows.
    exact (chunk_frame_nonempty _ _ _ _ _ Hq eq_refl).
  - exists (Some (concat (df :: dfs))). split; [reflexivity |].
    destruct (_get_chunk_data db (s, e) qp' type) as [rows |] eqn:Hq.
    + constructor. exact Hall.
    + exfalso. simpl in Hall. apply Permutation_sym, Permutation_nil in Hall.
      apply Forall_cons in Hne as [Hdf _]. destruct df; [congruence |].
      discriminate.
Qed.

(** X8.  An [indicator] other than the three index codes 000300, 000905
    and 000852 filters nothing: the call answers as it does for the
    whole market, 000985. *)
Theorem get_market_data_other_indicator fuel db symbols start_date end_date
    indicator st fields type :
  indicator <> "000300"%string ->
  indicator <> "000905"%string ->
  indicator <> "000852"%string ->
  get_market_data fuel db symbols start_date end_date indicator st fields type
  = get_market_data fuel db symbols start_date end_date "000985" st fields
      type.
Proof.
  intros H1 H2 H3.
  assert (Hic : index_component_of indicator = None).
  { unfold index_component_of.
    destruct (String.eqb_spec indicator "000985"); [reflexivity |].
    destruct (String.eqb_spec indicator "000300"); [contradiction |].
    destruct (String.eqb_spec indicator "000905"); [contradiction |].
    destruct (String.eqb_spec indicator "000852"); [contradiction |].
    reflexivity. }
  unfold MarketData.get_market_data.
  destruct start_date as [s |], end_date as [e |]; try reflexivity.
  destruct (_chunk_date_range fuel s e default_chunk_months) as [[cs |] |];
    [| reflexivity | reflexivity].
  cbn [mbind option_bind].
  erewrite (List.map_ext _ _); [reflexivity |].
  intros c. unfold MarketData._get_chunk_data, build_query. simpl.
  rewrite Hic. reflexivity.
Qed.

(** X9.  When [end_date] precedes [start_date] no window is built and no
    query is run: the answer is [None], whatever the collections hold. *)
Theorem get_market_data_reversed_range fuel db symbols s e indicator st
    fields type :
  (forall l, Permutation (as_completed l) l) ->
  e < s ->
  (1 <= fuel)%nat ->
  get_market_data fuel db symbols (Some s) (Some e) indicator st fields type
  = Some (finished None).
Proof.
  intros Horder Hes Hfuel. unfold MarketData.get_market_data.
  unfold _chunk_date_range.
  destruct (Z.eqb_spec s e) as [? | _]; [lia |].
  destruct fuel as [| fuel]; [lia |]. simpl.
  destruct (Z.leb_spec s e) as [? | _]; [lia |]. simpl.
  rewrite (Permutation_nil (Permutation_sym (Horder []))). reflexivity.
Qed.

(** X10.  The cursor's batch size is always between 2000 and 10000; it
    is 10000 when no fields are asked for or at most 52 of them, and
    2000 from 263 fields on. *)
Theorem target_batch_size_bounds fields :
  2000 <= target_batch_size fields <= 10000
  /\ ((length fields <= 52)%nat -> target_batch_size fields = 10000)
  /\ ((263 <= length fields)%nat -> target_batch_size fields = 2000).
Proof.
  unfold target_batch_size. split; [lia |].
  unfold estimated_doc_size. destruct fields as [| f fields].
  - split; [reflexivity | simpl; lia].
  - set (n := Z.of_nat (length (f :: fields))).
    assert (Hn : 1 <= n) by (unfold n; simpl; lia).
    change (10 * 1024 * 1024) with 10485760. split; intros Hlen.
    + assert (10000 <= 10485760 / (n * 20)).
      { apply Z.div_le_lower_bound; unfold n in *; lia. }
      lia.
    + assert (10485760 / (n * 20) < 2000).
      { apply Z.div_lt_upper_bound; unfold n in *; lia. }
      lia.
Qed.
End MarketDataQueries.

Section MarketDataSamples.
Import MarketDataReader MarketData.

Lemma rev_permutes {A} (l : list A) : Permutation (List.rev l) l.
Proof. symmetry. apply Permutation_rev. Qed.

Lemma get_market_data_is_range_query_witness :
  (forall l : list (option (list market_doc)), Permutation (List.rev l) l) /\
  year_1000 <= 738886 /\ 738886 <= 739251 /\ 739251 <= date_max /\
  (chunk_fuel 738886 739251 <= 366)%nat /\
  (738886 = 739251 \/ last_start 90 738886 739251 + 89 <= date_max) /\
  exists result,
    get_market_data market_doc sample_project (fun r => r) (@List.rev _) []
      366 sample_market (Some (one "000001.SZ")) (Some 738886) (Some 739251)
      "000300" false None "stock"
    = Some (finished result)
    /\ option_Forall2 Permutation result
         (_get_chunk_data market_doc sample_project (fun r => r) sample_market
            (738886, 739251)
            {| symbols := []; fields := default [] (listify <$> None);
               indicator := "000300"; st := false |}
            "stock").
Proof.
  assert (H1 : year_1000 <= 738886) by (unfold year_1000; lia).
  assert (H2 : 739251 <= date_max) by (unfold date_max; lia).
  assert (H3 : (chunk_fuel 738886 739251 <= 366)%nat) by (vm_compute; lia).
  assert (H4 : 738886 = 739251
               \/ last_start 90 738886 739251 + 89 <= date_max)
    by (right; vm_compute; discriminate).
  split; [exact rev_permutes |]. split; [exact H1 |]. split; [lia |].
  split; [exact H2 |]. split; [exact H3 |]. split; [exact H4 |].
  apply (proj1 (get_market_data_is_range_query market_doc sample_project
           (fun r => r) (@List.rev _) [] 366 sample_market
           (Some (one "000001.SZ")) [] 738886 739251 "000300" false None
           "stock" rev_permutes H1 ltac:(lia) H2 H3)).
  exact H4.
Defined.

Lemma get_market_data_other_indicator_witness :
  "000016"%string <> "000300"%string /\
  "000016"%string <> "000905"%string /\
  "000016"%string <> "000852"%string /\
  get_market_data market_doc sample_project (fun r => r) (@List.rev _) []
    366 sample_market None (Some 738886) (Some 739251) "000016" true None
    "stock"
  = get_market_data market_doc sample_project (fun r => r) (@List.rev _) []
      366 sample_market None (Some 738886) (Some 739251) "000985" true None
      "stock".
Proof.
  split; [discriminate |]. split; [discriminate |]. split; [discriminate |].
  apply (get_market_data_other_indicator market_doc sample_project
           (fun r => r) (@List.rev _) [] 366 sample_market None
           (Some 738886) (Some 739251) "000016" true None "stock");
    discriminate.
Defined.

Lemma get_market_data_reversed_range_witness :
  (forall l : list (option (list market_doc)), Permutation (List.rev l) l) /\
  738886 < 739251 /\ (1 <= 5)%nat /\
  get_market_data market_doc sample_project (fun r => r) (@List.rev _) []
    5 sample_market None (Some 739251) (Some 738886) "000985" true None
    "stock"
  = Some (finished None).
Proof.
  split; [exact rev_permutes |]. split; [lia |]. split; [lia |].
  apply (get_market_data_reversed_range market_doc sample_project
           (fun r => r) (@List.rev _) [] 5 sample_market None 739251 738886
           "000985" true None "stock").
  - exact rev_permutes.
  - lia.
  - lia.
Defined.

End MarketDataSamples.

(** ** Runs, deletions and what the status queries show *)

Section FactorPolling.
Import Mongo FactorAnalysisParams FactorAnalysis UserFactorService.
Import FactorQueries.

Variable fromisoformat : string -> option string.
Variable validate_factor : string -> string -> code_check.
Variable ObjectId : string -> option nat.

Local Abbreviation run_factor :=
  (UserFactorService.run_factor fromisoformat validate_factor ObjectId).
Local Abbreviation query_factor_status :=
  (FactorQueries.query_factor_status ObjectId).
Local Abbreviation delete_factor := (FactorQueries.delete_factor ObjectId).
Local Abbreviation update_factor := (UserFactorService.update_factor ObjectId).

Lemma filter_map_commute {A} (q : A -> bool) (g : A -> A) (l : list A) :
  (forall x, q (g x) = q x) ->
  List.filter q (List.map g l) = List.map g (List.filter q l).
Proof.
  intros Hq. induction l as [| x l IH]; simpl; [reflexivity |].
  rewrite Hq. destruct (q x); simpl; rewrite IH; reflexivity.
Qed.

Lemma task_after_id w t : t_task_id (task_after w t) = t_task_id t.
Proof.
  destruct w as [id v | id msg | id og fda | id v r e | oid v c r]; simpl;
    try reflexivity; destruct (task_is id t); reflexivity.
Qed.

Lemma factor_after_oid w f : f_oid (factor_after w f) = f_oid f.
Proof.
  destruct w as [id v | id msg | id og fda | id v r e | oid v c r]; simpl;
    try reflexivity. destruct (factor_is oid f); reflexivity.
Qed.

(** The tasks and the factors after the writes of a run, record by
    record. *)
Lemma tasks_after_writes ws : forall d,
  tasks (apply_writes d ws)
  = List.map (fun t => fold_left (fun t w => task_after w t) ws t) (tasks d).
Proof.
  induction ws as [| w ws IH]; intros d.
  - simpl. symmetry. apply List.map_id.
  - unfold apply_writes in *. cbn [fold_left]. rewrite IH.
    destruct w; simpl; unfold update_many; rewrite ?List.map_map;
      try reflexivity.
Qed.

Lemma factors_after_writes ws : forall d,
  user_factors (apply_writes d ws)
  = List.map (fun f => fold_left (fun f w => factor_after w f) ws f)
      (user_factors d).
Proof.
  induction ws as [| w ws IH]; intros d.
  - simpl. symmetry. apply List.map_id.
  - unfold apply_writes in *. cbn [fold_left]. rewrite IH.
    destruct w; simpl; unfold update_many; rewrite ?List.map_map;
      try reflexivity.
Qed.

Lemma fold_task_after_id ws : forall t,
  t_task_id (fold_left (fun t w => task_after w t) ws t) = t_task_id t.
Proof.
  induction ws as [| w ws IH]; intros t; simpl; [reflexivity |].
  rewrite IH. apply task_after_id.
Qed.

Lemma fold_factor_after_oid ws : forall f,
  f_oid (fold_left (fun f w => factor_after w f) ws f) = f_oid f.
Proof.
  induction ws as [| w ws IH]; intros f; simpl; [reflexivity |].
  rewrite IH. apply factor_after_oid.
Qed.

(** The record a status query reads, after the writes. *)
Lemma task_found_after_writes ws d task_id :
  List.filter (task_is task_id) (tasks (apply_writes d ws))
  = List.map (fun t => fold_left (fun t w => task_after w t) ws t)
      (List.filter (task_is task_id) (tasks d)).
Proof.
  rewrite tasks_after_writes. apply filter_map_commute.
  intros t. unfold task_is. rewrite fold_task_after_id. reflexivity.
Qed.

Lemma factor_found_after_writes ws d oid :
  List.filter (oid_is oid) (user_factors (apply_writes d ws))
  = List.map (fun f => fold_left (fun f w => factor_after w f) ws f)
      (List.filter (oid_is oid) (user_factors d)).
Proof.
  rewrite factors_after_writes. apply filter_map_commute.
  intros f. unfold oid_is. rewrite fold_factor_after_oid. reflexivity.
Qed.

(** The bookkeeping of [run_factor], as the queries see it. *)
Lemma admitted_factor task_id factor_id oid factor d rest :
  List.filter (oid_is oid) (user_factors d) = factor :: rest ->
  List.filter (oid_is oid)
    (user_factors (admitted task_id factor_id oid factor d))
  = List.map (factor_set_status 1 (Some task_id) (result_task_id task_id))
      (factor :: rest).
Proof.
  intros Hfind. unfold admitted, with_user_factors, insert_task.
  cbn [user_factors]. unfold update_many. rewrite filter_map_commute.
  - rewrite Hfind. apply List.map_ext_in. intros f Hin.
    assert (Hf : In f (List.filter (oid_is oid) (user_factors d)))
      by (rewrite Hfind; exact Hin).
    apply List.filter_In in Hf as [_ ->]. reflexivity.
  - intros f. destruct (oid_is oid f) eqn:Hf; [| exact Hf]. exact Hf.
Qed.

Lemma admitted_tasks task_id factor_id oid factor d :
  exists t rest,
    List.filter (task_is task_id)
      (tasks (admitted task_id factor_id oid factor d)) = t :: rest
    /\ t_task_id t = task_id
    /\ (~ task_known d task_id ->
        t = task_record task_id factor_id factor (next_oid d) /\ rest = []).
Proof.
  unfold admitted. simpl. rewrite List.filter_app. simpl.
  unfold task_is at 2. simpl. rewrite bool_decide_eq_true_2 by reflexivity.
  destruct (List.filter (task_is task_id) (tasks d)) as [| t rest] eqn:Hf.
  - eexists _, []. split; [reflexivity |]. split; [reflexivity |].
    intros _. split; reflexivity.
  - assert (Hin : In t (List.filter (task_is task_id) (tasks d)))
      by (rewrite Hf; left; reflexivity).
    apply List.filter_In in Hin as [Hin Ht].
    apply bool_decide_eq_true_1 in Ht.
    eexists t, _. split; [reflexivity |]. split; [exact Ht |].
    intros Hnew. exfalso. apply Hnew. exists t. split; assumption.
Qed.

(** What an answer [started] or [completed] tells of the call. *)
Lemma run_factor_accepted o fd new_uuid message_id is_thread d r d' j :
  run_factor o fd new_uuid message_id is_thread d = (r, d', j) ->
  (exists factor_id task_id,
     r = started factor_id task_id \/ r = completed factor_id task_id) ->
  exists object_id factor rest params,
    ObjectId (request_ids new_uuid message_id).1 = Some object_id
    /\ List.filter (oid_is object_id) (user_factors d) = factor :: rest
    /\ validate_factor_params fromisoformat validate_factor factor
       = inr params
    /\ (if is_thread
        then r = started (request_ids new_uuid message_id).1
                   (request_ids new_uuid message_id).2
             /\ d' = admitted (request_ids new_uuid message_id).2
                       (request_ids new_uuid message_id).1 object_id factor d
             /\ j = Some {| job_task_id := (request_ids new_uuid message_id).2;
                            job_object_id := object_id;
                            job_params := params |}
        else r = completed (request_ids new_uuid message_id).1
                   (request_ids new_uuid message_id).2
             /\ d' = apply_writes
                       (admitted (request_ids new_uuid message_id).2
                          (request_ids new_uuid message_id).1 object_id
                          factor d)
                       (run_factor_analysis o fd
                          (request_ids new_uuid message_id).2 object_id).1
             /\ j = None).
Proof.
  unfold UserFactorService.run_factor.
  destruct (request_ids new_uuid message_id) as [factor_id task_id].
  intros Hrun (fid & tid & Hr). cbn [fst snd].
  destruct (ObjectId factor_id) as [object_id |] eqn:Hoid;
    [| injection Hrun as <- _ _; destruct Hr; discriminate].
  destruct (List.filter (oid_is object_id) (user_factors d))
    as [| factor rest] eqn:Hfind;
    [injection Hrun as <- _ _; destruct Hr; discriminate |].
  destruct (validate_factor_params fromisoformat validate_factor factor)
    as [err | params] eqn:Hval;
    [injection Hrun as <- _ _; destruct Hr; discriminate |].
  exists object_id, factor, rest, params.
  split; [reflexivity |]. split; [exact Hfind |]. split; [exact Hval |].
  destruct is_thread; injection Hrun as <- <- <-; repeat split.
Qed.

Lemma filter_update_same {A} (p : A -> bool) (g : A -> A) (l : list A) :
  (forall x, p (g x) = p x) ->
  List.filter p (update_many p g l) = List.map g (List.filter p l).
Proof.
  intros Hp. unfold update_many. rewrite filter_map_commute.
  - apply List.map_ext_in. intros x Hin.
    apply List.filter_In in Hin as [_ ->]. reflexivity.
  - intros x. destruct (p x) eqn:Hx; [| exact Hx]. rewrite Hp. exact Hx.
Qed.

Lemma fold_task_step ws w t :
  fold_left (fun t w => task_after w t) (w :: ws) t
  = fold_left (fun t w => task_after w t) ws (task_after w t).
Proof. reflexivity. Qed.

Lemma fold_factor_step ws w f :
  fold_left (fun f w => factor_after w f) (w :: ws) f
  = fold_left (fun f w => factor_after w f) ws (factor_after w f).
Proof. reflexivity. Qed.

Lemma task_after_process id v t :
  task_is id t = true ->
  task_after (set_process_status id v) t = task_set_process_status v t.
Proof. intros H. simpl. rewrite H. reflexivity. Qed.

Lemma task_after_failed id msg t :
  task_is id t = true ->
  task_after (set_failed id msg) t = task_set_failed msg t.
Proof. intros H. simpl. rewrite H. reflexivity. Qed.

Lemma task_after_status id v result error t :
  task_is id t = true ->
  task_after (set_task_status id v result error) t
  = task_set_status v result error t.
Proof. intros H. simpl. rewrite H. reflexivity. Qed.

Lemma task_after_bundle id og fda t : task_after (insert_bundle id og fda) t = t.
Proof. reflexivity. Qed.

Lemma task_after_factor oid v c r t :
  task_after (set_factor_status oid v c r) t = t.
Proof. reflexivity. Qed.

Lemma factor_after_status oid v c r f :
  oid_is oid f = true ->
  factor_after (set_factor_status oid v c r) f = factor_set_status v c r f.
Proof. intros H. simpl. unfold factor_is. unfold oid_is in H. rewrite H. reflexivity. Qed.

Lemma factor_after_process id v f : factor_after (set_process_status id v) f = f.
Proof. reflexivity. Qed.

Lemma factor_after_failed id msg f : factor_after (set_failed id msg) f = f.
Proof. reflexivity. Qed.

Lemma factor_after_bundle id og fda f :
  factor_after (insert_bundle id og fda) f = f.
Proof. reflexivity. Qed.

Lemma factor_after_task id v r e f :
  factor_after (set_task_status id v r e) f = f.
Proof. reflexivity. Qed.

(** The writes of a run, one after the other, on the record a query
    reads. *)
Ltac run_on_task Hhit :=
  repeat first
    [ rewrite fold_task_step, task_after_process by exact Hhit
    | rewrite fold_task_step, task_after_failed by exact Hhit
    | rewrite fold_task_step, task_after_status by exact Hhit
    | rewrite fold_task_step, task_after_bundle
    | rewrite fold_task_step, task_after_factor ];
  cbn [fold_left].

Ltac run_on_factor Hhit :=
  repeat first
    [ rewrite fold_factor_step, factor_after_status by exact Hhit
    | rewrite fold_factor_step, factor_after_process
    | rewrite fold_factor_step, factor_after_failed
    | rewrite fold_factor_step, factor_after_bundle
    | rewrite fold_factor_step, factor_after_task ];
  cbn [fold_left].

Lemma found_is_oid oid (l : list factor_doc) f rest :
  List.filter (oid_is oid) l = f :: rest -> oid_is oid f = true.
Proof.
  intros H. assert (Hin : In f (List.filter (oid_is oid) l))
    by (rewrite H; left; reflexivity).
  apply List.filter_In in Hin as [_ Hf]. exact Hf.
Qed.

Lemma no_bundle_find d task_id :
  ~ has_bundle d task_id -> find_result task_id d = None.
Proof.
  intros Hno. unfold find_result.
  destruct (List.find _ _) as [b |] eqn:Hf; [| reflexivity].
  exfalso. apply Hno. apply List.find_some in Hf as [Hin Heq].
  exists b. split; [exact Hin |]. apply String.eqb_eq. exact Heq.
Qed.


Lemma results_after_writes ws : forall d,
  (forall w, In w ws -> forall id og fda, w <> insert_bundle id og fda) ->
  factor_analysis_results (apply_writes d ws) = factor_analysis_results d.
Proof.
  induction ws as [| w ws IH]; intros d Hno; [reflexivity |].
  unfold apply_writes in *. cbn [fold_left]. rewrite IH.
  - destruct w; try reflexivity. exfalso. eapply Hno; [left |]; reflexivity.
  - intros w' Hin. apply Hno. right. exact Hin.
Qed.

(** X11. When [run_factor], asked to run in the background, answers that the
    analysis has started, a status query of that factor reads status 1 with
    the task id of the answer, the task is found under that id, the thread
    handed over carries the same task id and the factor's ObjectId, and no
    stored result bundle is touched. *)
Theorem run_started_shows_running o fd new_uuid message_id d factor_id
    task_id d' j :
  run_factor o fd new_uuid message_id true d
  = (started factor_id task_id, d', j) ->
  query_factor_status factor_id d' = success (1, task_id)
  /\ (exists r, query_task_status task_id d' = success r
                /\ tr_task_id r = task_id)
  /\ (exists object_id params,
        ObjectId factor_id = Some object_id
        /\ j = Some {| job_task_id := task_id; job_object_id := object_id;
                       job_params := params |})
  /\ factor_analysis_results d' = factor_analysis_results d.
Proof.
  intros Hrun.
  destruct (run_factor_accepted _ _ _ _ _ _ _ _ _ Hrun)
    as (oid & factor & rest & params & Hoid & Hfind & _ & Hr & -> & ->);
    [eauto |].
  injection Hr as -> ->. split; [| split; [| split]].
  - unfold FactorQueries.query_factor_status, validate_object_id.
    rewrite Hoid, (admitted_factor _ _ _ _ _ _ Hfind). reflexivity.
  - destruct (admitted_tasks (request_ids new_uuid message_id).2
                (request_ids new_uuid message_id).1 oid factor d)
      as (t & rest' & Hf & Ht & _).
    unfold query_task_status. rewrite Hf. eexists. split; [reflexivity |].
    exact Ht.
  - exists oid, params. split; [exact Hoid | reflexivity].
  - reflexivity.
Qed.


Ltac split_raise o s :=
  match goal with
  | |- context [raises o s] => destruct (raises o s) eqn:?; cbn -[fold_left]
  end.

(** The ways a failing run can go: by the factor data and by the first
    step that raises. *)
Ltac failing_cases o fd :=
  unfold run_factor_analysis, factor_analysis, persist_bundle, attempt;
  destruct fd; cbn -[fold_left];
  try split_raise o latest_date; try split_raise o fetch_k_data;
  try split_raise o clean_factor_data; try split_raise o merge_data;
  try split_raise o lagged_returns; try split_raise o grouping;
  try split_raise o backtest; try split_raise o inset_to_database.

Ltac no_bundle_written :=
  let w := fresh "w" in
  let Hin := fresh "Hin" in
  intros w Hin ? ? ?; cbn in Hin;
  repeat (destruct Hin as [<- | Hin]; [discriminate |]); destruct Hin.

(** X13. An inline [run_factor] answers [completed] also when the analysis
    has failed.  When the run fails (a step raises) and no bundle of that
    task id was stored before, the factor then reads status 3, the task
    carries an error message (and stage -1 when the factor data had rows),
    and the chart queries find no bundle for the task. *)
Theorem run_completed_may_have_failed o fd new_uuid message_id d factor_id
    task_id d' j :
  run_fails o fd ->
  ~ has_bundle d task_id ->
  run_factor o fd new_uuid message_id false d
  = (completed factor_id task_id, d', j) ->
  query_factor_status factor_id d' = success (3, task_id)
  /\ (exists r, query_task_status task_id d' = success r
                /\ is_Some (tr_error_message r)
                /\ (fd = data_rows -> tr_process_status r = Some (-1)))
  /\ find_result task_id d' = None.
Proof.
  intros Hfails Hno Hrun.
  destruct (run_factor_accepted _ _ _ _ _ _ _ _ _ Hrun)
    as (oid & factor & rest & params & Hoid & Hfind & _ & Hr & -> & _);
    [eauto |].
  injection Hr as -> ->.
  set (tid := (request_ids new_uuid message_id).2) in *.
  set (fid := (request_ids new_uuid message_id).1) in *.
  assert (Hfac : oid_is oid
                   (factor_set_status 1 (Some tid) (result_task_id tid)
                      factor) = true)
    by exact (found_is_oid _ _ _ _ Hfind).
  destruct (admitted_tasks tid fid oid factor d)
    as (t & rest' & Hf & Ht & _).
  assert (Hhit : task_is tid t = true)
    by (apply bool_decide_eq_true_2; exact Ht).
  unfold FactorQueries.query_factor_status, validate_object_id,
    query_task_status.
  rewrite Hoid, factor_found_after_writes, task_found_after_writes,
    (admitted_factor _ _ _ _ _ _ Hfind), Hf.
  cbn [List.map fst].
  assert (Hres : forall ws,
            (forall w, In w ws -> forall id og fda,
                         w <> insert_bundle id og fda) ->
            find_result tid (apply_writes (admitted tid fid oid factor d) ws)
            = None).
  { intros ws Hws. unfold find_result.
    rewrite results_after_writes by exact Hws.
    exact (no_bundle_find _ _ Hno). }
  revert Hfails. unfold run_fails.
  failing_cases o fd; intros Hfails;
    try (exfalso; exact Hfails);
    try (exfalso; destruct Hfails as ([] & e & He); congruence);
    (split; [run_on_factor Hfac; reflexivity |]);
    (split;
     [run_on_task Hhit; eexists;
      (split; [reflexivity |]); (split; [eexists; reflexivity |]);
      first [ reflexivity | intros; discriminate ]
     | apply Hres; no_bundle_written ]).
Qed.

(** X14. When the factor data is empty the analysis returns without
    marking the run as finished or as failed: after an inline
    [run_factor] that answers [completed], the factor still reads status
    1, the only task record of the new task id has status 1 and neither
    stage, error message nor result, and the stored bundles are
    unchanged.  The run keeps reading as running. *)
Theorem run_on_empty_data_stays_running o new_uuid message_id d factor_id
    task_id d' j :
  ~ task_known d task_id ->
  run_factor o data_empty new_uuid message_id false d
  = (completed factor_id task_id, d', j) ->
  query_factor_status factor_id d' = success (1, task_id)
  /\ (exists t, List.filter (task_is task_id) (tasks d') = [t]
                /\ t_status t = 1 /\ t_process_status t = None
                /\ t_error_message t = None /\ t_result t = None)
  /\ factor_analysis_results d' = factor_analysis_results d.
Proof.
  intros Hnew Hrun.
  destruct (run_factor_accepted _ _ _ _ _ _ _ _ _ Hrun)
    as (oid & factor & rest & params & Hoid & Hfind & _ & Hr & -> & _);
    [eauto |].
  injection Hr as -> ->.
  change (run_factor_analysis o data_empty
            (request_ids new_uuid message_id).2 oid).1 with (@nil write).
  change (apply_writes ?d []) with d. split; [| split].
  - unfold FactorQueries.query_factor_status, validate_object_id.
    rewrite Hoid, (admitted_factor _ _ _ _ _ _ Hfind). reflexivity.
  - destruct (admitted_tasks (request_ids new_uuid message_id).2
                (request_ids new_uuid message_id).1 oid factor d)
      as (t & rest' & Hf & _ & Honly).
    destruct (Honly Hnew) as [-> ->]. eexists. split; [exact Hf |].
    repeat split.
  - reflexivity.
Qed.

Lemma filter_out_then_in {A} (p : A -> bool) (l : list A) :
  List.filter p (List.filter (fun x => negb (p x)) l) = [].
Proof.
  induction l as [| x l IH]; simpl; [reflexivity |].
  destruct (p x) eqn:Hx; simpl; [exact IH |]. rewrite Hx. exact IH.
Qed.

Lemma filter_out_none {A} (p : A -> bool) (l : list A) :
  List.filter p l = [] -> List.filter (fun x => negb (p x)) l = l.
Proof.
  induction l as [| x l IH]; simpl; [reflexivity |].
  destruct (p x); simpl; [discriminate |].
  intros H. rewrite IH by exact H. reflexivity.
Qed.

Lemma with_user_factors_same d :
  with_user_factors (fun _ => user_factors d) d = d.
Proof. destruct d. reflexivity. Qed.

(** [delete_factor] when the id reads as an ObjectId. *)
Lemma delete_factor_run factor_id object_id d :
  ObjectId factor_id = Some object_id ->
  delete_factor factor_id d
  = (match List.filter (oid_is object_id) (user_factors d) with
     | [] => fail "404" "未找到用户因子"
     | _ => success factor_id
     end,
     with_user_factors
       (fun _ => List.filter (fun x => negb (oid_is object_id x))
                   (user_factors d)) d).
Proof.
  intros Hoid. unfold FactorQueries.delete_factor, validate_object_id,
    mongo_delete. rewrite Hoid. cbn [fst snd].
  destruct (List.filter (oid_is object_id) (user_factors d)); reflexivity.
Qed.

(** X15. [delete_factor] with an id that reads as an ObjectId answers
    success exactly when a factor with that ObjectId is stored and the 404
    failure otherwise, then leaving the database as it was.  It removes the
    factors with that ObjectId and no other, and keeps tasks, stage logs
    and result bundles, also those of the factor's runs.  Afterwards the
    status query and a second deletion both answer 404. *)
Theorem delete_factor_removes factor_id object_id d :
  ObjectId factor_id = Some object_id ->
  exists answer d',
    delete_factor factor_id d = (answer, d')
    /\ (answer = success factor_id
        \/ answer = fail "404" "未找到用户因子" /\ d' = d)
    /\ (answer = success factor_id
        <-> exists f, In f (user_factors d) /\ f_oid f = object_id)
    /\ (forall f, In f (user_factors d')
                  <-> In f (user_factors d) /\ f_oid f <> object_id)
    /\ tasks d' = tasks d
    /\ factor_analysis_stage_logs d' = factor_analysis_stage_logs d
    /\ factor_analysis_results d' = factor_analysis_results d
    /\ query_factor_status factor_id d' = fail "404" "未找到指定因子"
    /\ delete_factor factor_id d' = (fail "404" "未找到用户因子", d').
Proof.
  intros Hoid. rewrite (delete_factor_run _ _ _ Hoid).
  eexists _, _. split; [reflexivity |].
  assert (Hmem : forall f, In f (List.filter
                                   (fun x => negb (oid_is object_id x))
                                   (user_factors d))
                           <-> In f (user_factors d) /\ f_oid f <> object_id).
  { intros f. rewrite List.filter_In. cbn beta. unfold oid_is. split.
    - intros [Hin Hneg]. split; [exact Hin |]. intros Heq.
      apply Nat.eqb_eq in Heq. rewrite Heq in Hneg. discriminate.
    - intros [Hin Hne]. split; [exact Hin |].
      apply negb_true_iff, Nat.eqb_neq. exact Hne. }
  assert (Hfound : List.filter (oid_is object_id) (user_factors d) <> []
                   <-> exists f, In f (user_factors d) /\ f_oid f = object_id).
  { split.
    - destruct (List.filter (oid_is object_id) (user_factors d))
        as [| f rest] eqn:Hfind; [intros []; reflexivity |].
      intros _. exists f.
      assert (Hin : In f (List.filter (oid_is object_id) (user_factors d)))
        by (rewrite Hfind; left; reflexivity).
      apply List.filter_In in Hin as [Hin Hf]. split; [exact Hin |].
      apply Nat.eqb_eq. exact Hf.
    - intros (f & Hin & Hf) Hnil.
      assert (Hin' : In f (List.filter (oid_is object_id) (user_factors d))).
      { apply List.filter_In. split; [exact Hin |]. apply Nat.eqb_eq.
        exact Hf. }
      rewrite Hnil in Hin'. exact Hin'. }
  split; [| split; [| split; [exact Hmem |]]].
  - destruct (List.filter (oid_is object_id) (user_factors d)) eqn:Hfind;
      [right | left; reflexivity].
    split; [reflexivity |].
    rewrite (filter_out_none _ _ Hfind). apply with_user_factors_same.
  - rewrite <- Hfound.
    destruct (List.filter (oid_is object_id) (user_factors d));
      split; congruence.
  - split; [reflexivity |]. split; [reflexivity |]. split; [reflexivity |].
    split.
    + unfold FactorQueries.query_factor_status, validate_object_id.
      rewrite Hoid. cbn [user_factors with_user_factors].
      rewrite filter_out_then_in. reflexivity.
    + rewrite (delete_factor_run _ _ _ Hoid).
      cbn [user_factors with_user_factors].
      rewrite filter_out_then_in. f_equal.
      rewrite (filter_out_none _ _ (filter_out_then_in _ _)).
      reflexivity.
Qed.

Lemma create_factor_run r d oid d' :
  create_factor r d = (success oid, d') ->
  check_factor_exists d (user_id r) (factor_name r) None = false
  /\ oid = next_oid d
  /\ d' = insert_factor (factor_of_request r) d.
Proof.
  unfold create_factor.
  destruct (check_factor_exists d (user_id r) (factor_name r) None);
    [discriminate |].
  intros [= <- <-]. repeat split.
Qed.

Lemma fresh_oid_not_found d :
  oids_below_next d ->
  List.filter (oid_is (next_oid d)) (user_factors d) = [].
Proof.
  intros Hbelow.
  destruct (List.filter _ _) as [| f rest] eqn:Hfind; [reflexivity |].
  exfalso.
  assert (Hin : In f (List.filter (oid_is (next_oid d)) (user_factors d)))
    by (rewrite Hfind; left; reflexivity).
  apply List.filter_In in Hin as [Hin Hf]. apply Nat.eqb_eq in Hf.
  specialize (Hbelow f Hin). lia.
Qed.

(** X16. A factor that has just been created can be deleted by the id the
    creation returned; the stored factors are then those from before the
    creation, the database is again well formed, and the same request can
    be created once more, under the next ObjectId. *)
Theorem create_delete_create r d oid d1 factor_id :
  factors_wf d ->
  create_factor r d = (success oid, d1) ->
  ObjectId factor_id = Some oid ->
  exists d2 d3,
    delete_factor factor_id d1 = (success factor_id, d2)
    /\ user_factors d2 = user_factors d
    /\ factors_wf d2
    /\ create_factor r d2 = (success (S oid), d3).
Proof.
  intros Hwf Hcreate Hoid.
  destruct (create_factor_run _ _ _ _ Hcreate) as (Hfree & -> & ->).
  assert (Hnone := fresh_oid_not_found d (wf_next d Hwf)).
  assert (Hleft : List.filter (fun x => negb (oid_is (next_oid d) x))
                    (user_factors (insert_factor (factor_of_request r) d))
                  = user_factors d).
  { cbn [user_factors insert_factor]. rewrite List.filter_app.
    rewrite (filter_out_none _ _ Hnone). cbn [List.filter].
    unfold oid_is at 1. cbn [f_oid factor_of_request].
    rewrite Nat.eqb_refl. cbn [negb]. apply app_nil_r. }
  assert (Hfound : List.filter (oid_is (next_oid d))
                     (user_factors (insert_factor (factor_of_request r) d))
                   = [factor_of_request r (next_oid d)]).
  { cbn [user_factors insert_factor]. rewrite List.filter_app, Hnone.
    cbn [List.filter app]. unfold oid_is at 1. cbn [f_oid factor_of_request].
    rewrite Nat.eqb_refl. reflexivity. }
  rewrite (delete_factor_run _ _ _ Hoid), Hleft, Hfound.
  eexists _, _. split; [reflexivity |]. split; [reflexivity |]. split.
  - destruct Hwf as [Hnames Hoids Hnext]. constructor.
    + exact Hnames.
    + exact Hoids.
    + intros f Hin. specialize (Hnext f Hin).
      cbn [next_oid with_user_factors insert_factor]. lia.
  - unfold create_factor. unfold check_factor_exists in *.
    cbn [user_factors with_user_factors]. rewrite Hfree. reflexivity.
Qed.

(** X17. Right after [create_factor] succeeds, [query_factor_status] of
    the returned id answers the status of the request and, as the new
    factor has no current task, the task id text "unknown". *)
Theorem create_then_status r d oid d' factor_id :
  oids_below_next d ->
  create_factor r d = (success oid, d') ->
  ObjectId factor_id = Some oid ->
  query_factor_status factor_id d' = success (status r, "unknown"%string).
Proof.
  intros Hbelow Hcreate Hoid.
  destruct (create_factor_run _ _ _ _ Hcreate) as (_ & -> & ->).
  unfold FactorQueries.query_factor_status, validate_object_id.
  rewrite Hoid. cbn [user_factors insert_factor].
  rewrite List.filter_app, (fresh_oid_not_found d Hbelow).
  cbn [List.filter app]. unfold oid_is at 1. cbn [f_oid factor_of_request].
  rewrite Nat.eqb_refl. reflexivity.
Qed.

(** X18. A successful [update_factor] replaces the factor's status by the
    one of the request but keeps its current task id: the status query
    answers the same task id before and after the update. *)
Theorem update_resets_status_keeps_task r factor_id d answer d' :
  update_factor r factor_id d = (success answer, d') ->
  exists st task_id,
    query_factor_status factor_id d = success (st, task_id)
    /\ query_factor_status factor_id d' = success (status r, task_id).
Proof.
  unfold UserFactorService.update_factor, FactorQueries.query_factor_status,
    validate_object_id.
  destruct (ObjectId factor_id) as [oid |]; [| discriminate].
  destruct (existsb (oid_is oid) (user_factors d)) eqn:Hex;
    cbn [negb]; [| discriminate].
  destruct (check_factor_exists _ _ _ _); [discriminate |].
  intros [= _ <-]. cbn [user_factors with_user_factors].
  rewrite filter_update_same by reflexivity.
  destruct (List.filter (oid_is oid) (user_factors d)) as [| f rest] eqn:Hfind.
  - exfalso. apply existsb_exists in Hex as (f & Hin & Hf).
    assert (Hin' : In f (List.filter (oid_is oid) (user_factors d)))
      by (apply List.filter_In; split; assumption).
    rewrite Hfind in Hin'. exact Hin'.
  - eexists _, _. split; reflexivity.
Qed.
End FactorPolling.

Section FactorPollingSamples.
Import Mongo FactorAnalysisParams FactorAnalysis UserFactorService.
Import FactorQueries.

Local Abbreviation sample_run :=
  (run_factor sample_fromisoformat sample_validate_factor sample_ObjectId).

Lemma valid_db_wf : factors_wf valid_db.
Proof.
  constructor.
  - repeat constructor; simpl; tauto.
  - repeat constructor; simpl; tauto.
  - intros f [<- | []]. simpl. lia.
Qed.

Lemma valid_db_no_bundle : ~ has_bundle valid_db "T1".
Proof. intros (r & [] & _). Qed.

Lemma valid_db_no_task : ~ task_known valid_db "T1".
Proof. intros (t & [] & _). Qed.

Lemma run_started_shows_running_witness :
  exists d' j,
    sample_run smooth_run data_rows "T1" "a" true valid_db
    = (started "a" "T1", d', j)
    /\ query_factor_status sample_ObjectId "a" d' = success (1, "T1"%string)
    /\ (exists r, query_task_status "T1" d' = success r
                  /\ tr_task_id r = "T1"%string)
    /\ (exists object_id params,
          sample_ObjectId "a" = Some object_id
          /\ j = Some {| job_task_id := "T1"; job_object_id := object_id;
                         job_params := params |})
    /\ factor_analysis_results d' = factor_analysis_results valid_db.
Proof.
  eexists _, _. split; [reflexivity |].
  eapply (run_started_shows_running sample_fromisoformat sample_validate_factor
           sample_ObjectId smooth_run data_rows "T1" "a" valid_db "a" "T1" _ _).
  reflexivity.
Defined.


Lemma grouping_fails_fails : run_fails grouping_fails data_rows.
Proof. exists grouping, "bins must increase"%string. reflexivity. Qed.

Lemma run_completed_may_have_failed_witness :
  run_fails grouping_fails data_rows /\
  ~ has_bundle valid_db "T1" /\
  exists d' j,
    sample_run grouping_fails data_rows "T1" "a" false valid_db
    = (completed "a" "T1", d', j)
    /\ query_factor_status sample_ObjectId "a" d' = success (3, "T1"%string)
    /\ (exists r, query_task_status "T1" d' = success r
                  /\ is_Some (tr_error_message r)
                  /\ (data_rows = data_rows
                      -> tr_process_status r = Some (-1)))
    /\ find_result "T1" d' = None.
Proof.
  split; [exact grouping_fails_fails |].
  split; [exact valid_db_no_bundle |].
  eexists _, _. split; [reflexivity |].
  eapply (run_completed_may_have_failed sample_fromisoformat
           sample_validate_factor sample_ObjectId grouping_fails data_rows
           "T1" "a" valid_db "a" "T1" _ _).
  - exact grouping_fails_fails.
  - exact valid_db_no_bundle.
  - reflexivity.
Defined.

Lemma run_on_empty_data_stays_running_witness :
  ~ task_known valid_db "T1" /\
  exists d' j,
    sample_run smooth_run data_empty "T1" "a" false valid_db
    = (completed "a" "T1", d', j)
    /\ query_factor_status sample_ObjectId "a" d' = success (1, "T1"%string)
    /\ (exists t, List.filter (task_is "T1") (tasks d') = [t]
                  /\ t_status t = 1 /\ t_process_status t = None
                  /\ t_error_message t = None /\ t_result t = None)
    /\ factor_analysis_results d' = factor_analysis_results valid_db.
Proof.
  split; [exact valid_db_no_task |].
  eexists _, _. split; [reflexivity |].
  eapply (run_on_empty_data_stays_running sample_fromisoformat
           sample_validate_factor sample_ObjectId smooth_run "T1" "a"
           valid_db "a" "T1" _ _).
  - exact valid_db_no_task.
  - reflexivity.
Defined.

Lemma delete_factor_removes_witness :
  sample_ObjectId "a" = Some 0%nat /\
  exists answer d',
    delete_factor sample_ObjectId "a" valid_db = (answer, d')
    /\ (answer = success "a"%string
        \/ answer = fail "404" "未找到用户因子" /\ d' = valid_db)
    /\ (answer = success "a"%string
        <-> exists f, In f (user_factors valid_db) /\ f_oid f = 0%nat)
    /\ (forall f, In f (user_factors d')
                  <-> In f (user_factors valid_db) /\ f_oid f <> 0%nat)
    /\ tasks d' = tasks valid_db
    /\ factor_analysis_stage_logs d' = factor_analysis_stage_logs valid_db
    /\ factor_analysis_results d' = factor_analysis_results valid_db
    /\ query_factor_status sample_ObjectId "a" d'
       = fail "404" "未找到指定因子"
    /\ delete_factor sample_ObjectId "a" d'
       = (fail "404" "未找到用户因子", d').
Proof.
  split; [reflexivity |].
  apply (delete_factor_removes sample_ObjectId "a" 0%nat valid_db).
  reflexivity.
Defined.

Lemma create_delete_create_witness :
  factors_wf valid_db /\
  sample_ObjectId "aa" = Some 1%nat /\
  exists d1,
    create_factor other_request valid_db = (success 1%nat, d1)
    /\ exists d2 d3,
         delete_factor sample_ObjectId "aa" d1 = (success "aa"%string, d2)
         /\ user_factors d2 = user_factors valid_db
         /\ factors_wf d2
         /\ create_factor other_request d2 = (success 2%nat, d3).
Proof.
  split; [exact valid_db_wf |]. split; [reflexivity |].
  eexists. split; [reflexivity |].
  eapply (create_delete_create sample_ObjectId other_request valid_db 1%nat _
           "aa").
  - exact valid_db_wf.
  - reflexivity.
  - reflexivity.
Defined.

Lemma create_then_status_witness :
  oids_below_next valid_db /\
  sample_ObjectId "aa" = Some 1%nat /\
  exists d',
    create_factor other_request valid_db = (success 1%nat, d')
    /\ query_factor_status sample_ObjectId "aa" d'
       = success (status other_request, "unknown"%string).
Proof.
  split; [exact (wf_next _ valid_db_wf) |]. split; [reflexivity |].
  eexists. split; [reflexivity |].
  eapply (create_then_status sample_ObjectId other_request valid_db 1%nat _
           "aa").
  - exact (wf_next _ valid_db_wf).
  - reflexivity.
  - reflexivity.
Defined.

Lemma update_resets_status_keeps_task_witness :
  exists d',
    update_factor sample_ObjectId sample_request "a" valid_db
    = (success "a"%string, d')
    /\ exists st task_id,
         query_factor_status sample_ObjectId "a" valid_db
         = success (st, task_id)
         /\ query_factor_status sample_ObjectId "a" d'
            = success (status sample_request, task_id).
Proof.
  eexists. split; [reflexivity |].
  eapply (update_resets_status_keeps_task sample_ObjectId sample_request "a"
           valid_db "a"%string _).
  reflexivity.
Defined.

End FactorPollingSamples.

(* ===================================================================== *)
(** ** The stage marker on the task record                                 *)
(* ===================================================================== *)

Section StageRecord.
Import Mongo FactorAnalysis UserFactorService FactorQueries.

Lemma last_cons_some {A} (x : A) (l : list A) :
  last (x :: l) = match last l with Some y => Some y | None => Some x end.
Proof.
  revert x. induction l as [| y l IH]; intros x; [reflexivity |].
  cbn [last]. rewrite (IH y). destruct (last l); reflexivity.
Qed.

(** The marker on a record of the task, after writes that name the
    task: the last one written, or the old one when none was. *)
Lemma fold_process_status task_id ws : forall t,
  task_is task_id t = true ->
  Forall (for_task task_id) ws ->
  t_process_status (fold_left (fun t w => task_after w t) ws t)
  = match last (process_statuses ws) with
    | Some v => Some v
    | None => t_process_status t
    end.
Proof.
  induction ws as [| w ws IH]; intros t Ht Hws; [reflexivity |].
  apply Forall_cons in Hws as [Hw Hws]. cbn [fold_left].
  assert (Ht' : task_is task_id (task_after w t) = true).
  { unfold task_is in *. rewrite task_after_id. exact Ht. }
  rewrite (IH _ Ht' Hws). unfold process_statuses. cbn [omap list_omap].
  fold (process_statuses ws).
  destruct w as [id v | id msg | id og fda | id v r e | oid v c r];
    cbn [process_status_of for_task] in *; subst;
    rewrite ?last_cons_some;
    destruct (last (process_statuses ws)); try reflexivity;
    cbn [task_after]; rewrite ?Ht; reflexivity.
Qed.

(** The records of other tasks are left as they are. *)
Lemma fold_other_task task_id ws : forall t,
  task_is task_id t = false ->
  Forall (for_task task_id) ws ->
  fold_left (fun t w => task_after w t) ws t = t.
Proof.
  induction ws as [| w ws IH]; intros t Ht Hws; [reflexivity |].
  apply Forall_cons in Hws as [Hw Hws]. cbn [fold_left].
  assert (Hsame : task_after w t = t).
  { destruct w as [id v | id msg | id og fda | id v r e | oid v c r];
      cbn [for_task] in Hw; subst; cbn [task_after]; rewrite ?Ht;
      reflexivity. }
  rewrite Hsame. exact (IH t Ht Hws).
Qed.

Ltac on_raise o s :=
  match goal with
  | |- context [raises o s] => destruct (raises o s) eqn:?; cbn
  end.

(** One goal per way a run can go. *)
Ltac every_run o fd :=
  unfold run_factor_analysis, factor_analysis, persist_bundle, attempt;
  destruct fd; cbn;
  try on_raise o latest_date; try on_raise o fetch_k_data;
  try on_raise o clean_factor_data; try on_raise o merge_data;
  try on_raise o lagged_returns; try on_raise o grouping;
  try on_raise o backtest; try on_raise o inset_to_database.

(** Every write of a run on [tasks] names the task of the run. *)
Lemma run_writes_for_task o fd task_id object_id :
  Forall (for_task task_id) (run_factor_analysis o fd task_id object_id).1.
Proof.
  every_run o fd; repeat constructor.
Qed.

(** C3.  For every run of a task (whatever the factor data is and
    whichever steps raise), on a store in which the task does not read
    as succeeded.  After any number [n] of the run's writes, every record
    of the task carries as [process_status] the last stage marker written
    so far (its old value while none is written), and the records of
    other tasks keep theirs.  The markers the run writes are none at all
    (nothing to analyse), or 1, 2, ..., 9 in this order, or 1, ..., k
    followed by -1 for the last stage k reached.  When no step raises
    they are 1, ..., 9 with no stage skipped, and the task ends as
    succeeded with its bundle stored and 9 on its record; -1 is written
    only when a step has raised, and the task then ends with -1 on its
    record and does not read as succeeded.  At every point of the run at
    which the task reads as succeeded ([status = 2]), the result bundle
    for its [task_id] is already in the result collection, all nine
    markers have been written and the record carries 9. *)
Theorem stage_order_and_commit o fd task_id object_id d n :
  ~ succeeded d task_id ->
  (read_process_status
     (apply_writes d (take n (run_factor_analysis o fd task_id object_id).1))
     task_id
   = List.map
       (fun t =>
          match last (process_statuses
                        (take n (run_factor_analysis o fd task_id
                                   object_id).1)) with
          | Some v => Some v
          | None => t_process_status t
          end)
       (List.filter (task_is task_id) (tasks d)))
  /\ (forall other, other <> task_id ->
      read_process_status
        (apply_writes d
           (take n (run_factor_analysis o fd task_id object_id).1)) other
      = read_process_status d other)
  /\ (process_statuses (run_factor_analysis o fd task_id object_id).1 = []
      \/ process_statuses (run_factor_analysis o fd task_id object_id).1
         = [1; 2; 3; 4; 5; 6; 7; 8; 9]
      \/ exists k, (1 <= k <= 8)%nat
                  /\ process_statuses
                       (run_factor_analysis o fd task_id object_id).1
                     = List.map Z.of_nat (seq 1 k) ++ [-1])
  /\ ((forall s, raises o s = None) -> task_known d task_id ->
      process_statuses (run_factor_analysis o data_rows task_id object_id).1
      = [1; 2; 3; 4; 5; 6; 7; 8; 9]
      /\ succeeded
           (apply_writes d (run_factor_analysis o data_rows task_id object_id).1)
           task_id
      /\ has_bundle
           (apply_writes d (run_factor_analysis o data_rows task_id object_id).1)
           task_id
      /\ Forall (fun v => v = Some 9)
           (read_process_status
              (apply_writes d
                 (run_factor_analysis o data_rows task_id object_id).1)
              task_id))
  /\ (In (-1) (process_statuses (run_factor_analysis o fd task_id object_id).1)
      -> (exists s e, raises o s = Some e)
         /\ ~ succeeded
               (apply_writes d (run_factor_analysis o fd task_id object_id).1)
               task_id
         /\ Forall (fun v => v = Some (-1))
              (read_process_status
                 (apply_writes d
                    (run_factor_analysis o fd task_id object_id).1)
                 task_id))
  /\ (succeeded
        (apply_writes d (take n (run_factor_analysis o fd task_id object_id).1))
        task_id ->
      has_bundle
        (apply_writes d (take n (run_factor_analysis o fd task_id object_id).1))
        task_id
      /\ process_statuses
           (take n (run_factor_analysis o fd task_id object_id).1)
         = [1; 2; 3; 4; 5; 6; 7; 8; 9]
      /\ Forall (fun v => v = Some 9)
           (read_process_status
              (apply_writes d
                 (take n (run_factor_analysis o fd task_id object_id).1))
              task_id)).
Proof.
  intros Hfresh.
  assert (Hread : forall ws,
            Forall (for_task task_id) ws ->
            read_process_status (apply_writes d ws) task_id
            = List.map
                (fun t => match last (process_statuses ws) with
                          | Some v => Some v
                          | None => t_process_status t
                          end)
                (List.filter (task_is task_id) (tasks d))).
  { intros ws Hws. unfold read_process_status.
    rewrite task_found_after_writes, List.map_map.
    apply List.map_ext_in. intros t Ht.
    apply List.filter_In in Ht as [_ Ht].
    exact (fold_process_status task_id ws t Ht Hws). }
  assert (Hlast : forall ws v,
            Forall (for_task task_id) ws ->
            last (process_statuses ws) = Some v ->
            Forall (fun x => x = Some v)
              (read_process_status (apply_writes d ws) task_id)).
  { intros ws v Hws Hv. rewrite (Hread ws Hws), Hv.
    apply Forall_forall. intros x Hx.
    apply list_elem_of_In, List.in_map_iff in Hx as (t & <- & _).
    reflexivity. }
  pose proof (run_writes_for_task o fd task_id object_id) as Hall.
  split; [| split; [| split; [| split; [| split]]]].
  - apply Hread, Forall_take, Hall.
  - intros other Hother. unfold read_process_status.
    rewrite task_found_after_writes, List.map_map.
    apply List.map_ext_in. intros t Ht.
    apply List.filter_In in Ht as [_ Ht]. f_equal.
    apply (fold_other_task task_id); [| apply Forall_take, Hall].
    unfold task_is in *. apply bool_decide_eq_true_1 in Ht.
    apply bool_decide_eq_false_2. congruence.
  - apply run_process_statuses.
  - intros Hok Hknown.
    pose proof (run_writes_for_task o data_rows task_id object_id) as Hall'.
    revert Hall'.
    rewrite (run_all_steps_succeed o task_id object_id Hok).
    intros Hall'.
    split; [reflexivity |]. split; [| split].
    + unfold apply_writes, fst. cbn [fold_left].
      apply succeeded_after_factor_write. apply success_write_succeeds.
      repeat apply task_known_after_write. exact Hknown.
    + apply has_bundle_after_writes. right. eexists. split.
      * simpl. do 8 right. left. reflexivity.
      * eexists _, _. reflexivity.
    + apply (Hlast _ 9 Hall'). reflexivity.
  - intros Hneg.
    destruct (run_failure_marker o fd task_id object_id Hneg) as [Hraise Hno].
    split; [exact Hraise |]. split.
    + intros Hs.
      destruct (succeeded_after_writes _ _ _ Hs) as [? | (w & Hin & Hw)];
        [contradiction |].
      exact (Hno w Hin Hw).
    + apply (Hlast _ (-1) Hall). revert Hneg. clear.
      every_run o fd; intros Hin; try reflexivity;
        exfalso; simpl in Hin; intuition discriminate.
  - intros Hs.
    destruct (succeeded_after_writes _ _ _ Hs) as [? | Hw]; [contradiction |].
    destruct (success_write_after_bundle o fd task_id object_id n Hw)
      as [Hb Hps].
    split; [| split; [exact Hps |]].
    + apply has_bundle_after_writes. right. exact Hb.
    + apply (Hlast _ 9); [apply Forall_take, Hall |].
      rewrite Hps. reflexivity.
Qed.

End StageRecord.

Section StageRecordSamples.
Import Mongo FactorAnalysis UserFactorService FactorQueries.

Lemma running_db_not_succeeded : ~ succeeded running_db "T1".
Proof. intros (t & [<- | []] & _ & Hst). discriminate Hst. Qed.

Lemma stage_order_and_commit_witness :
  ~ succeeded running_db "T1" /\
  (read_process_status
     (apply_writes running_db (take 11 (run_factor_analysis smooth_run data_rows "T1" 0%nat).1))
     "T1"
   = List.map
       (fun t =>
          match last (process_statuses
                        (take 11 (run_factor_analysis smooth_run data_rows "T1"
                                   0%nat).1)) with
          | Some v => Some v
          | None => t_process_status t
          end)
       (List.filter (task_is "T1") (tasks running_db)))
  /\ (forall other, other <> "T1"%string ->
      read_process_status
        (apply_writes running_db
           (take 11 (run_factor_analysis smooth_run data_rows "T1" 0%nat).1)) other
      = read_process_status running_db other)
  /\ (process_statuses (run_factor_analysis smooth_run data_rows "T1" 0%nat).1 = []
      \/ process_statuses (run_factor_analysis smooth_run data_rows "T1" 0%nat).1
         = [1; 2; 3; 4; 5; 6; 7; 8; 9]
      \/ exists k, (1 <= k <= 8)%nat
                  /\ process_statuses
                       (run_factor_analysis smooth_run data_rows "T1" 0%nat).1
                     = List.map Z.of_nat (seq 1 k) ++ [-1])
  /\ ((forall s, raises smooth_run s = None) -> task_known running_db "T1" ->
      process_statuses (run_factor_analysis smooth_run data_rows "T1" 0%nat).1
      = [1; 2; 3; 4; 5; 6; 7; 8; 9]
      /\ succeeded
           (apply_writes running_db (run_factor_analysis smooth_run data_rows "T1" 0%nat).1)
           "T1"
      /\ has_bundle
           (apply_writes running_db (run_factor_analysis smooth_run data_rows "T1" 0%nat).1)
           "T1"
      /\ Forall (fun v => v = Some 9)
           (read_process_status
              (apply_writes running_db
                 (run_factor_analysis smooth_run data_rows "T1" 0%nat).1)
              "T1"))
  /\ (In (-1) (process_statuses (run_factor_analysis smooth_run data_rows "T1" 0%nat).1)
      -> (exists s e, raises smooth_run s = Some e)
         /\ ~ succeeded
               (apply_writes running_db (run_factor_analysis smooth_run data_rows "T1" 0%nat).1)
               "T1"
         /\ Forall (fun v => v = Some (-1))
              (read_process_status
                 (apply_writes running_db
                    (run_factor_analysis smooth_run data_rows "T1" 0%nat).1)
                 "T1"))
  /\ (succeeded
        (apply_writes running_db (take 11 (run_factor_analysis smooth_run data_rows "T1" 0%nat).1))
        "T1" ->
      has_bundle
        (apply_writes running_db (take 11 (run_factor_analysis smooth_run data_rows "T1" 0%nat).1))
        "T1"
      /\ process_statuses
           (take 11 (run_factor_analysis smooth_run data_rows "T1" 0%nat).1)
         = [1; 2; 3; 4; 5; 6; 7; 8; 9]
      /\ Forall (fun v => v = Some 9)
           (read_process_status
              (apply_writes running_db
                 (take 11 (run_factor_analysis smooth_run data_rows "T1" 0%nat).1))
              "T1")).
Proof.
  split; [exact running_db_not_succeeded |].
  apply (stage_order_and_commit smooth_run data_rows "T1" 0%nat running_db
           11).
  exact running_db_not_succeeded.
Defined.

End StageRecordSamples.

(* ===================================================================== *)
(** ** What the chat service stores and what it sends                      *)
(* ===================================================================== *)

Section ChatHistory.
Import ChatService.

Variable ObjectId : string -> option nat.
Variable oid_text : nat -> string.
Variable uuid_text : nat -> string.
Variable now : nat -> string.
Variable system_content : string.
Variable completions_create : list chat_entry -> result (option string).
Variable completions_stream :
  list chat_entry -> list (option string) * option error.

Local Abbreviation query_of := (query_of ObjectId).
Local Abbreviation get_chat_session := (get_chat_session ObjectId).
Local Abbreviation update_chat_session := (update_chat_session ObjectId).
Local Abbreviation create_chat_session := (create_chat_session oid_text).
Local Abbreviation get_session_messages := (get_session_messages ObjectId).
Local Abbreviation clear_session := (clear_session ObjectId).
Local Abbreviation get_user_sessions := (get_user_sessions).
Local Abbreviation system_message := (system_message system_content).
Local Abbreviation process_message :=
  (process_message ObjectId oid_text uuid_text now system_content
     completions_create).
Local Abbreviation process_message_stream :=
  (process_message_stream ObjectId oid_text uuid_text now system_content
     completions_stream).

Lemma update_one_no_match k s docs :
  (forall d, In d docs -> d_id d <> k) -> update_one k s docs = docs.
Proof.
  induction docs as [| d rest IH]; intros Hno; [reflexivity |].
  cbn [update_one]. unfold has_id at 1.
  rewrite bool_decide_eq_false_2 by (apply Hno; left; reflexivity).
  rewrite IH; [reflexivity |]. intros d' Hin. apply Hno. right. exact Hin.
Qed.

Lemma delete_one_no_match k docs :
  (forall d, In d docs -> d_id d <> k) -> delete_one k docs = docs.
Proof.
  induction docs as [| d rest IH]; intros Hno; [reflexivity |].
  cbn [delete_one]. unfold has_id at 1.
  rewrite bool_decide_eq_false_2 by (apply Hno; left; reflexivity).
  rewrite IH; [reflexivity |]. intros d' Hin. apply Hno. right. exact Hin.
Qed.

Lemma find_no_match k docs :
  (forall d, In d docs -> d_id d <> k) -> List.find (has_id k) docs = None.
Proof.
  induction docs as [| d rest IH]; intros Hno; [reflexivity |].
  cbn [List.find]. unfold has_id at 1.
  rewrite bool_decide_eq_false_2 by (apply Hno; left; reflexivity).
  apply IH. intros d' Hin. apply Hno. right. exact Hin.
Qed.

Lemma find_app_docs k (docs more : list session_doc) :
  List.find (has_id k) (docs ++ more)
  = match List.find (has_id k) docs with
    | Some d => Some d
    | None => List.find (has_id k) more
    end.
Proof.
  induction docs as [| d rest IH]; [reflexivity |].
  cbn [app List.find]. destruct (has_id k d); [reflexivity | exact IH].
Qed.

Lemma find_is_member k docs d :
  List.find (has_id k) docs = Some d -> In d docs /\ d_id d = k.
Proof.
  intros Hfind. apply List.find_some in Hfind as [Hin Hid].
  split; [exact Hin |]. apply bool_decide_eq_true_1 in Hid. exact Hid.
Qed.

(** A uuid4 text asks for a text [_id], which no document of the service
    has. *)
Lemma uuid_query n :
  uuid_texts ObjectId uuid_text ->
  query_of (uuid_text n) = by_text (uuid_text n).
Proof.
  intros Huuid. unfold ChatService.query_of.
  destruct (Huuid n) as [-> _]. reflexivity.
Qed.

Lemma no_text_id w text :
  made_by_service uuid_text w ->
  forall d, In d (chat_sessions w) -> d_id d <> by_text text.
Proof.
  intros Hmade d Hin Heq.
  destruct (made_oid _ _ Hmade d Hin) as (o & Ho & _). congruence.
Qed.

Lemma update_by_uuid n s w :
  uuid_texts ObjectId uuid_text ->
  made_by_service uuid_text w ->
  update_one (query_of (uuid_text n)) s (chat_sessions w) = chat_sessions w.
Proof.
  intros Huuid Hmade. rewrite (uuid_query n Huuid).
  apply update_one_no_match. exact (no_text_id w _ Hmade).
Qed.

Lemma made_after_create w s n :
  made_by_service uuid_text w ->
  s_id s = uuid_text n ->
  forall u c r,
    made_by_service uuid_text
      {| chat_sessions :=
           chat_sessions w ++ [{| d_id := by_oid (next_oid w); d_body := s |}];
         next_oid := S (next_oid w); uuids := u; clock := c;
         requests := r |}.
Proof.
  intros [Hoid Huuid Hdistinct] Hs u c r. constructor; cbn.
  - intros d [Hin | [<- | []]]%in_app_or.
    + destruct (Hoid d Hin) as (o & Ho & Hlt). exists o. split; [exact Ho | lia].
    + exists (next_oid w). split; [reflexivity | lia].
  - intros d [Hin | [<- | []]]%in_app_or.
    + exact (Huuid d Hin).
    + exists n. exact Hs.
  - rewrite List.map_app. cbn. apply NoDup_app. split; [exact Hdistinct |].
    split; [| apply NoDup_singleton].
    intros k Hk ->%list_elem_of_singleton.
    apply list_elem_of_In, List.in_map_iff in Hk as (d & Hd & Hin).
    destruct (Hoid d Hin) as (o & Ho & Hlt). rewrite Ho in Hd.
    injection Hd as ->. lia.
Qed.

Lemma made_same_sessions w w' :
  made_by_service uuid_text w ->
  chat_sessions w' = chat_sessions w ->
  next_oid w' = next_oid w ->
  made_by_service uuid_text w'.
Proof.
  intros [Hoid Huuid Hdistinct] Hs Hn. constructor; rewrite ?Hs, ?Hn;
    assumption.
Qed.

Lemma prepare_objects (l : list Message) :
  _prepare_messages system_content (List.map as_object l)
  = system_message :: List.map entry_of l.
Proof.
  unfold _prepare_messages. f_equal.
  induction l as [| m l IH]; [reflexivity |]. cbn. rewrite IH. reflexivity.
Qed.

Lemma formatted_of_dict (m : Message) :
  formatted_of (as_dict (dict_of m)) = Some (entry_of m).
Proof. reflexivity. Qed.

Lemma prepare_dicts (l : list Message) :
  _prepare_messages system_content
    (List.map (fun msg => as_dict (dict_of msg)) l)
  = system_message :: List.map entry_of l.
Proof.
  unfold _prepare_messages. f_equal.
  induction l as [| m l IH]; [reflexivity |].
  cbn [List.map omap list_omap]. rewrite formatted_of_dict, IH. reflexivity.
Qed.

(** Reading the messages of a session in a world and in one with the
    same documents. *)
Lemma messages_same_sessions sid w w' :
  chat_sessions w' = chat_sessions w ->
  exists messages,
    get_session_messages sid w = (returned messages, w)
    /\ get_session_messages sid w' = (returned messages, w').
Proof.
  intros Hsame.
  unfold ChatService.get_session_messages, ChatService.get_chat_session.
  unfold mbind, Chat_bind, mret, Chat_ret, bind, ret. rewrite Hsame.
  eexists. split; reflexivity.
Qed.

(** And in one that has one more document, without messages, under a
    fresh ObjectId. *)
Lemma messages_one_more sid w w' s :
  made_by_service uuid_text w ->
  chat_sessions w'
  = chat_sessions w ++ [{| d_id := by_oid (next_oid w); d_body := s |}] ->
  s_messages s = [] ->
  exists messages,
    get_session_messages sid w = (returned messages, w)
    /\ get_session_messages sid w' = (returned messages, w').
Proof.
  intros Hmade Hmore Hs.
  unfold ChatService.get_session_messages, ChatService.get_chat_session.
  unfold mbind, Chat_bind, mret, Chat_ret, bind, ret.
  rewrite Hmore, find_app_docs.
  destruct (List.find (has_id (query_of sid)) (chat_sessions w)) as [d |];
    [eexists; split; reflexivity |].
  cbn [List.find]. destruct (has_id _ _); cbn [option_map d_body];
    rewrite ?Hs; eexists; split; reflexivity.
Qed.

Ltac run_chat :=
  unfold now_isoformat, uuid4, ChatService.create_chat_session,
    ChatService.update_chat_session, chat_completion, with_sessions;
  cbn [s_id append_message with_messages chat_sessions next_oid uuids clock
       requests sent s_messages].

(** X19. In a collection that only the service has written,
    [process_message] records nothing of the exchange.  The model is sent
    the system prompt, the stored messages of the session and the
    question, and its content is the answer (the empty text when it has
    none, the exception when it raises); but both [update_chat_session]
    calls ask for the session's uuid as [_id] and match no document.  So
    every document afterwards is one from before or a new session without
    messages, and [get_session_messages] answers for every session id
    what it answered before. *)
Theorem process_message_records_nothing session_id user_message user_id w :
  uuid_texts ObjectId uuid_text ->
  made_by_service uuid_text w ->
  exists history answer w',
    get_session_messages session_id w = (returned history, w)
    /\ process_message session_id user_message user_id w = (answer, w')
    /\ (let request :=
          system_message
          :: List.map entry_of history
          ++ [{| e_role := "user"; e_content := user_message |}] in
        requests w' = requests w ++ [request]
        /\ answer = match completions_create request with
                    | returned (Some content) => returned content
                    | returned None => returned ""%string
                    | raised e => raised e
                    end)
    /\ made_by_service uuid_text w'
    /\ (forall d, In d (chat_sessions w') ->
                  In d (chat_sessions w) \/ s_messages (d_body d) = [])
    /\ forall sid, exists messages,
         get_session_messages sid w = (returned messages, w)
         /\ get_session_messages sid w' = (returned messages, w').
Proof.
  intros Huuid Hmade.
  unfold ChatService.get_session_messages, ChatService.process_message,
    ChatService.get_chat_session.
  unfold mbind, Chat_bind, mret, Chat_ret, bind, ret.
  destruct (List.find (has_id (query_of session_id)) (chat_sessions w))
    as [d |] eqn:Hfind; cbn [option_map].
  - destruct (find_is_member _ _ _ Hfind) as [Hin _].
    destruct (made_uuid _ _ Hmade d Hin) as (n & Hn).
    exists (s_messages (d_body d)).
    run_chat. rewrite Hn, prepare_objects, List.map_app.
    rewrite !(update_by_uuid n _ w Huuid Hmade).
    cbn [List.map entry_of m_role m_content].
    destruct (completions_create _) as [[content |] | e];
      cbn [requests chat_sessions];
      rewrite ?(update_by_uuid n _ w Huuid Hmade);
      (eexists _, _; split; [reflexivity |]; split; [reflexivity |];
       split; [split; reflexivity |]; split;
       [apply (made_same_sessions w); [exact Hmade | reflexivity ..] |];
       split; [intros d' Hd'; left; exact Hd' |];
       intros sid; apply messages_same_sessions; reflexivity).
  - exists []. run_chat. rewrite prepare_objects.
    set (s0 := {| s_id := uuid_text (uuids w); s_user_id := user_id;
                  s_messages := []; s_created_at := now (clock w);
                  s_updated_at := now (S (clock w)) |}).
    assert (Hmade' := made_after_create w s0 (uuids w) Hmade eq_refl).
    assert (Hupd : forall s,
               update_one (query_of (uuid_text (uuids w))) s
                 (chat_sessions w
                  ++ [{| d_id := by_oid (next_oid w); d_body := s0 |}])
               = chat_sessions w
                 ++ [{| d_id := by_oid (next_oid w); d_body := s0 |}]).
    { intros s.
      exact (update_by_uuid (uuids w) s _ Huuid
               (Hmade' (uuids w) (clock w) (requests w))). }
    rewrite !Hupd. cbn [List.map app entry_of m_role m_content].
    destruct (completions_create _) as [[content |] | e];
      cbn [requests chat_sessions]; rewrite ?Hupd;
      (eexists _, _; split; [reflexivity |]; split; [reflexivity |];
       split; [split; reflexivity |]; split; [apply Hmade' |];
       split;
       [intros d' [Hd' | [<- | []]]%in_app_or;
        [left; exact Hd' | right; reflexivity] |];
       intros sid; apply (messages_one_more sid w _ s0 Hmade);
       reflexivity).
Qed.

Ltac run_stream :=
  unfold ChatService.process_message_stream, open_session,
    ChatService.get_chat_session;
  unfold mbind, Chat_bind, mret, Chat_ret, bind, ret, raise.

(** X20. [process_message_stream] without a session id opens a session
    that is stored with the question as its only message, whatever the
    model does afterwards; the model is sent the question twice after the
    system prompt, and its answer is not stored.  The chunks yielded are
    the non-empty contents of the stream, and the generator ends normally
    exactly when the stream does. *)
Theorem stream_new_session_sends_question_twice user_id message session_id w :
  uuid_texts ObjectId uuid_text ->
  made_by_service uuid_text w ->
  given session_id = None ->
  let question := {| m_role := "user"; m_content := message;
                     m_timestamp := now (clock w) |} in
  let request := [system_message; entry_of question; entry_of question] in
  exists ending w',
    process_message_stream user_id message session_id w
    = (yielded (completions_stream request).1, ending, w')
    /\ (ending = returned tt <-> (completions_stream request).2 = None)
    /\ requests w' = requests w ++ [request]
    /\ chat_sessions w'
       = chat_sessions w
         ++ [{| d_id := by_oid (next_oid w);
                d_body := {| s_id := uuid_text (uuids w);
                             s_user_id := user_id;
                             s_messages := [question];
                             s_created_at := now (S (clock w));
                             s_updated_at := now (S (S (clock w))) |} |}]
    /\ made_by_service uuid_text w'.
Proof.
  intros Huuid Hmade Hgiven question request. run_stream. rewrite Hgiven.
  run_chat. fold question.
  set (s0 := {| s_id := uuid_text (uuids w); s_user_id := user_id;
                s_messages := [question]; s_created_at := now (S (clock w));
                s_updated_at := now (S (S (clock w))) |}).
  assert (Hmade' := made_after_create w s0 (uuids w) Hmade eq_refl).
  assert (Hupd : forall s,
             update_one (query_of (uuid_text (uuids w))) s
               (chat_sessions w
                ++ [{| d_id := by_oid (next_oid w); d_body := s0 |}])
             = chat_sessions w
               ++ [{| d_id := by_oid (next_oid w); d_body := s0 |}]).
  { intros s.
    exact (update_by_uuid (uuids w) s _ Huuid
             (Hmade' (uuids w) (clock w) (requests w))). }
  rewrite !Hupd, prepare_dicts. cbn [List.map app]. fold request.
  destruct (completions_stream request) as [chunks [e |]];
    cbn [fst snd requests chat_sessions]; rewrite ?Hupd;
    (eexists _, _; split; [reflexivity |]; split;
     [split; [discriminate || reflexivity | discriminate || reflexivity] |];
     split; [reflexivity |]; split; [reflexivity |]; apply Hmade').
Qed.

(** X21. [process_message_stream] with the id of a session that
    [get_chat_session] finds sends the model the system prompt, the stored
    messages and the question, yields the non-empty contents of the
    stream, and leaves the collection as it was: neither the question nor
    the answer is stored. *)
Theorem stream_known_session_records_nothing user_id message session_id text
    session w :
  uuid_texts ObjectId uuid_text ->
  made_by_service uuid_text w ->
  given session_id = Some text ->
  get_chat_session text w = (returned (Some session), w) ->
  let request :=
    system_message
    :: List.map entry_of (s_messages session)
    ++ [{| e_role := "user"; e_content := message |}] in
  exists ending w',
    process_message_stream user_id message session_id w
    = (yielded (completions_stream request).1, ending, w')
    /\ (ending = returned tt <-> (completions_stream request).2 = None)
    /\ requests w' = requests w ++ [request]
    /\ chat_sessions w' = chat_sessions w
    /\ made_by_service uuid_text w'.
Proof.
  intros Huuid Hmade Hgiven Hget request. revert Hget. run_stream.
  rewrite Hgiven.
  destruct (List.find (has_id (query_of text)) (chat_sessions w))
    as [d |] eqn:Hfind; cbn [option_map]; [| discriminate].
  intros [= <-].
  destruct (find_is_member _ _ _ Hfind) as [Hin _].
  destruct (made_uuid _ _ Hmade d Hin) as (n & Hn).
  run_chat. rewrite Hfind. cbn [option_map]. run_chat.
  rewrite Hn, prepare_dicts, List.map_app.
  rewrite !(update_by_uuid n _ w Huuid Hmade).
  cbn [List.map].
  change (system_message :: List.map entry_of (s_messages (d_body d))
          ++ [entry_of _]) with request.
  destruct (completions_stream request) as [chunks [e |]];
    cbn [fst snd requests chat_sessions];
    rewrite ?(update_by_uuid n _ w Huuid Hmade);
    (eexists _, _; split; [reflexivity |]; split;
     [split; [discriminate || reflexivity | discriminate || reflexivity] |];
     split; [reflexivity |]; split; [reflexivity |];
     apply (made_same_sessions w); [exact Hmade | reflexivity ..]).
Qed.

Lemma slice_members {A} (l : list A) (start stop : Z) (x : A) :
  In x (Py.slice l start stop) -> In x l.
Proof.
  unfold Py.slice. intros Hin. apply list_elem_of_In.
  apply list_elem_of_In in Hin.
  eapply subseteq_drop, subseteq_take. exact Hin.
Qed.

Lemma same_world w :
  {| chat_sessions := chat_sessions w; next_oid := next_oid w;
     uuids := uuids w; clock := clock w; requests := requests w |} = w.
Proof. destruct w. reflexivity. Qed.

(** X22. The [id] of a session that [get_user_sessions] lists does not
    lead back to the session: [get_chat_session] of it finds nothing,
    [process_message_stream] with it raises the ValueError of a missing
    session before anything is sent or stored, and [clear_session] of it
    deletes nothing. *)
Theorem listed_session_is_not_found user_id limit asker message w sessions
    w0 s :
  uuid_texts ObjectId uuid_text ->
  made_by_service uuid_text w ->
  get_user_sessions user_id limit w = (returned sessions, w0) ->
  In s sessions ->
  get_chat_session (s_id s) w = (returned None, w)
  /\ (exists w',
        process_message_stream asker message (Some (s_id s)) w
        = ([], raised (ValueError ("会话不存在: " ++ s_id s)), w')
        /\ chat_sessions w' = chat_sessions w
        /\ requests w' = requests w)
  /\ clear_session (s_id s) w = (returned tt, w).
Proof.
  intros Huuid Hmade Hlist Hs.
  unfold ChatService.get_user_sessions, get_user_sessions_of in Hlist.
  unfold mbind, Chat_bind, mret, Chat_ret, bind, ret in Hlist.
  injection Hlist as <- <-.
  apply slice_members, List.in_map_iff in Hs as (d & <- & Hd).
  apply List.filter_In in Hd as [Hd _].
  destruct (made_uuid _ _ Hmade d Hd) as (n & Hn). rewrite Hn.
  assert (Hnone : List.find (has_id (query_of (uuid_text n)))
                    (chat_sessions w) = None).
  { rewrite (uuid_query n Huuid). apply find_no_match.
    exact (no_text_id w _ Hmade). }
  split; [| split].
  - unfold ChatService.get_chat_session. rewrite Hnone. reflexivity.
  - run_stream. run_chat. cbn [given].
    destruct (String.eqb (uuid_text n) "") eqn:Hempty.
    + apply String.eqb_eq in Hempty. destruct (Huuid n) as [_ Hne].
      contradiction.
    + cbn [chat_sessions]. rewrite Hnone. cbn [option_map]. eexists. split; [reflexivity |].
      split; reflexivity.
  - unfold ChatService.clear_session, delete_chat_session, with_sessions.
    rewrite (uuid_query n Huuid), delete_one_no_match
      by exact (no_text_id w _ Hmade).
    rewrite same_world. reflexivity.
Qed.

(** X23. The text [create_chat_session] returns does lead to the
    document: when it reads back as the ObjectId just handed out,
    [get_chat_session] of it returns the session created, an
    [update_chat_session] under it replaces the session, and lookups under
    other keys answer as before the creation. *)
Theorem create_then_get_by_returned_id session w text w' :
  (forall d, In d (chat_sessions w) -> d_id d <> by_oid (next_oid w)) ->
  ObjectId (oid_text (next_oid w)) = Some (next_oid w) ->
  create_chat_session session w = (returned text, w') ->
  get_chat_session text w' = (returned (Some session), w')
  /\ (forall other, query_of other <> query_of text ->
        exists found, get_chat_session other w = (returned found, w)
                      /\ get_chat_session other w' = (returned found, w'))
  /\ forall session', exists w'',
       update_chat_session text session' w' = (returned tt, w'')
       /\ get_chat_session text w'' = (returned (Some session'), w'').
Proof.
  intros Hfresh Hoid. unfold ChatService.create_chat_session.
  intros [= <- <-].
  assert (Hq : query_of (oid_text (next_oid w)) = by_oid (next_oid w)).
  { unfold ChatService.query_of. rewrite Hoid. reflexivity. }
  unfold ChatService.get_chat_session, ChatService.update_chat_session,
    with_sessions.
  cbn [chat_sessions next_oid uuids clock requests]. rewrite Hq.
  assert (Hhit : forall s, has_id (by_oid (next_oid w))
                             {| d_id := by_oid (next_oid w); d_body := s |}
                           = true)
    by (intros s; apply bool_decide_eq_true_2; reflexivity).
  split; [| split].
  - rewrite find_app_docs, (find_no_match _ _ Hfresh). cbn [List.find].
    rewrite Hhit. reflexivity.
  - intros other Hother. rewrite find_app_docs.
    destruct (List.find (has_id (query_of other)) (chat_sessions w));
      [eexists; split; reflexivity |].
    cbn [List.find]. unfold has_id. cbn [d_id].
    rewrite bool_decide_eq_false_2 by congruence.
    eexists. split; reflexivity.
  - intros session'. eexists. split; [reflexivity |].
    cbn [chat_sessions]. f_equal.
    assert (Hupd : update_one (by_oid (next_oid w)) session'
                     (chat_sessions w
                      ++ [{| d_id := by_oid (next_oid w);
                             d_body := session |}])
                   = chat_sessions w
                     ++ [{| d_id := by_oid (next_oid w);
                            d_body := session' |}]).
    { revert Hfresh. generalize (chat_sessions w) as docs.
      induction docs as [| d rest IH]; intros Hfresh.
      - cbn [app update_one]. rewrite Hhit. reflexivity.
      - cbn [app update_one]. unfold has_id at 1.
        rewrite bool_decide_eq_false_2 by (apply Hfresh; left; reflexivity).
        rewrite IH; [reflexivity |]. intros d' Hin. apply Hfresh. right.
        exact Hin. }
    rewrite Hupd, find_app_docs, (find_no_match _ _ Hfresh).
    cbn [List.find]. rewrite Hhit. reflexivity.
Qed.

Lemma find_after_delete k docs :
  NoDup (List.map d_id docs) ->
  List.find (has_id k) (delete_one k docs) = None.
Proof.
  induction docs as [| d rest IH]; intros Hnodup; [reflexivity |].
  cbn [delete_one]. apply NoDup_cons in Hnodup as [Hd Hrest].
  destruct (has_id k d) eqn:Hk.
  - apply bool_decide_eq_true_1 in Hk. apply find_no_match.
    intros d' Hin Heq. apply Hd. rewrite Hk, <- Heq.
    apply list_elem_of_In, List.in_map. exact Hin.
  - cbn [List.find]. rewrite Hk. exact (IH Hrest).
Qed.

Lemma find_other_after_delete k k' docs :
  k' <> k ->
  List.find (has_id k') (delete_one k docs) = List.find (has_id k') docs.
Proof.
  intros Hne. induction docs as [| d rest IH]; [reflexivity |].
  cbn [delete_one]. destruct (has_id k d) eqn:Hk.
  - apply bool_decide_eq_true_1 in Hk. cbn [List.find]. unfold has_id at 2.
    rewrite bool_decide_eq_false_2 by congruence. reflexivity.
  - cbn [List.find]. rewrite IH. reflexivity.
Qed.

Lemma delete_one_sublist k docs :
  sublist (List.map d_id (delete_one k docs)) (List.map d_id docs).
Proof.
  induction docs as [| d rest IH]; [constructor |].
  cbn [delete_one]. destruct (has_id k d); cbn [List.map].
  - apply sublist_cons. reflexivity.
  - apply sublist_skip. exact IH.
Qed.

(** X24. After [clear_session], [get_session_messages] of the same id
    answers the empty list; lookups under other keys are unchanged, and
    the [_id]s of the collection stay distinct. *)
Theorem clear_session_forgets session_id w :
  NoDup (List.map d_id (chat_sessions w)) ->
  exists w',
    clear_session session_id w = (returned tt, w')
    /\ get_session_messages session_id w' = (returned [], w')
    /\ (forall other, query_of other <> query_of session_id ->
          exists found, get_chat_session other w = (returned found, w)
                        /\ get_chat_session other w' = (returned found, w'))
    /\ NoDup (List.map d_id (chat_sessions w')).
Proof.
  intros Hnodup.
  unfold ChatService.clear_session, delete_chat_session, with_sessions.
  eexists. split; [reflexivity |].
  unfold ChatService.get_session_messages, ChatService.get_chat_session.
  unfold mbind, Chat_bind, mret, Chat_ret, bind, ret.
  cbn [chat_sessions]. split; [| split].
  - rewrite (find_after_delete _ _ Hnodup). reflexivity.
  - intros other Hother. rewrite (find_other_after_delete _ _ _ Hother).
    eexists. split; reflexivity.
  - eapply sublist_NoDup; [exact Hnodup |].
    apply delete_one_sublist.
Qed.

End ChatHistory.

Section ChatHistorySamples.
Import ChatService.

Local Abbreviation sample_process_message :=
  (process_message sample_ObjectId sample_oid_text sample_uuid_text
     sample_now sample_system_content sample_create).
Local Abbreviation sample_process_message_stream :=
  (process_message_stream sample_ObjectId sample_oid_text sample_uuid_text
     sample_now sample_system_content sample_stream).

Lemma sample_uuid_texts : uuid_texts sample_ObjectId sample_uuid_text.
Proof. intros n. split; [reflexivity | discriminate]. Qed.

Lemma asked_world_made : made_by_service sample_uuid_text asked_world.
Proof.
  constructor.
  - intros d [<- | []]. exists 0%nat. split; [reflexivity | cbn; lia].
  - intros d [<- | []]. exists 0%nat. reflexivity.
  - apply NoDup_singleton.
Qed.

(** The sample world is the one a first streamed question leaves. *)
Lemma asked_world_reached :
  sample_process_message_stream "user1" "momentum?" None empty_world
  = (["RANK"%string; "(CLOSE)"%string], returned tt, asked_world).
Proof. vm_compute. reflexivity. Qed.

Lemma process_message_records_nothing_witness :
  exists history answer w',
    get_session_messages sample_ObjectId "o" asked_world
    = (returned history, asked_world)
    /\ sample_process_message "o" "and reversal?" "user1" asked_world
       = (answer, w')
    /\ (let request :=
          system_message sample_system_content
          :: List.map entry_of history
          ++ [{| e_role := "user"; e_content := "and reversal?" |}] in
        requests w' = requests asked_world ++ [request]
        /\ answer = match sample_create request with
                    | returned (Some content) => returned content
                    | returned None => returned ""%string
                    | raised e => raised e
                    end)
    /\ made_by_service sample_uuid_text w'
    /\ (forall d, In d (chat_sessions w') ->
                  In d (chat_sessions asked_world)
                  \/ s_messages (d_body d) = [])
    /\ forall sid, exists messages,
         get_session_messages sample_ObjectId sid asked_world
         = (returned messages, asked_world)
         /\ get_session_messages sample_ObjectId sid w'
            = (returned messages, w').
Proof.
  apply (process_message_records_nothing sample_ObjectId sample_oid_text
           sample_uuid_text sample_now sample_system_content sample_create
           "o" "and reversal?" "user1" asked_world).
  - exact sample_uuid_texts.
  - exact asked_world_made.
Defined.

Lemma stream_new_session_sends_question_twice_witness :
  let question := {| m_role := "user"; m_content := "momentum?";
                     m_timestamp := sample_now (clock empty_world) |} in
  let request := [system_message sample_system_content; entry_of question;
                  entry_of question] in
  exists ending w',
    sample_process_message_stream "user1" "momentum?" None empty_world
    = (yielded (sample_stream request).1, ending, w')
    /\ (ending = returned tt <-> (sample_stream request).2 = None)
    /\ requests w' = requests empty_world ++ [request]
    /\ chat_sessions w'
       = chat_sessions empty_world
         ++ [{| d_id := by_oid (next_oid empty_world);
                d_body := {| s_id := sample_uuid_text (uuids empty_world);
                             s_user_id := "user1";
                             s_messages := [question];
                             s_created_at :=
                               sample_now (S (clock empty_world));
                             s_updated_at :=
                               sample_now (S (S (clock empty_world))) |} |}]
    /\ made_by_service sample_uuid_text w'.
Proof.
  apply (stream_new_session_sends_question_twice sample_ObjectId
           sample_oid_text sample_uuid_text sample_now sample_system_content
           sample_stream "user1" "momentum?" None empty_world).
  - exact sample_uuid_texts.
  - constructor; [intros d [] | intros d [] | apply NoDup_nil; exact I].
  - reflexivity.
Defined.

Lemma stream_known_session_records_nothing_witness :
  let request :=
    system_message sample_system_content
    :: List.map entry_of (s_messages asked_session)
    ++ [{| e_role := "user"; e_content := "and reversal?" |}] in
  exists ending w',
    sample_process_message_stream "user1" "and reversal?" (Some "o")
      asked_world
    = (yielded (sample_stream request).1, ending, w')
    /\ (ending = returned tt <-> (sample_stream request).2 = None)
    /\ requests w' = requests asked_world ++ [request]
    /\ chat_sessions w' = chat_sessions asked_world
    /\ made_by_service sample_uuid_text w'.
Proof.
  apply (stream_known_session_records_nothing sample_ObjectId sample_oid_text
           sample_uuid_text sample_now sample_system_content sample_stream
           "user1" "and reversal?" (Some "o") "o" asked_session asked_world).
  - exact sample_uuid_texts.
  - exact asked_world_made.
  - reflexivity.
  - reflexivity.
Defined.

Lemma listed_session_is_not_found_witness :
  get_user_sessions "user1" 10 asked_world
  = (returned [asked_session], asked_world)
  /\ get_chat_session sample_ObjectId (s_id asked_session) asked_world
     = (returned None, asked_world)
  /\ (exists w',
        sample_process_message_stream "user1" "and reversal?"
          (Some (s_id asked_session)) asked_world
        = ([], raised (ValueError ("会话不存在: " ++ s_id asked_session)), w')
        /\ chat_sessions w' = chat_sessions asked_world
        /\ requests w' = requests asked_world)
  /\ clear_session sample_ObjectId (s_id asked_session) asked_world
     = (returned tt, asked_world).
Proof.
  split; [reflexivity |].
  apply (listed_session_is_not_found sample_ObjectId sample_oid_text
           sample_uuid_text sample_now sample_system_content sample_stream
           "user1" 10 "user1" "and reversal?" asked_world [asked_session]
           asked_world asked_session).
  - exact sample_uuid_texts.
  - exact asked_world_made.
  - reflexivity.
  - left. reflexivity.
Defined.

Lemma create_then_get_by_returned_id_witness :
  exists text w',
    create_chat_session sample_oid_text asked_session asked_world
    = (returned text, w')
    /\ get_chat_session sample_ObjectId text w'
       = (returned (Some asked_session), w')
    /\ (forall other,
          query_of sample_ObjectId other <> query_of sample_ObjectId text ->
          exists found,
            get_chat_session sample_ObjectId other asked_world
            = (returned found, asked_world)
            /\ get_chat_session sample_ObjectId other w'
               = (returned found, w'))
    /\ forall session', exists w'',
         update_chat_session sample_ObjectId text session' w'
         = (returned tt, w'')
         /\ get_chat_session sample_ObjectId text w''
            = (returned (Some session'), w'').
Proof.
  eexists _, _. split; [reflexivity |].
  apply (create_then_get_by_returned_id sample_ObjectId sample_oid_text
           asked_session asked_world).
  - intros d [<- | []]. discriminate.
  - reflexivity.
  - reflexivity.
Defined.

Lemma clear_session_forgets_witness :
  exists w',
    clear_session sample_ObjectId "o" asked_world = (returned tt, w')
    /\ get_session_messages sample_ObjectId "o" w' = (returned [], w')
    /\ (forall other,
          query_of sample_ObjectId other <> query_of sample_ObjectId "o" ->
          exists found,
            get_chat_session sample_ObjectId other asked_world
            = (returned found, asked_world)
            /\ get_chat_session sample_ObjectId other w'
               = (returned found, w'))
    /\ NoDup (List.map d_id (chat_sessions w')).
Proof.
  apply (clear_session_forgets sample_ObjectId "o" asked_world).
  apply NoDup_singleton.
Defined.

End ChatHistorySamples.
